(** * Hours Tracker: the client-side session and file managers of static/app.js

    A shallow embedding of the data-handling functions of [static/app.js]
    (session list, local cache, remote push, export/import, file metadata,
    folder tree, upload batch) together with the properties the design
    document states about them.

    The program keeps its data in global variables and in JSON text, so
    values are modelled in a small universe of JavaScript values
    ([JS.jsval]) and every function is written as a transformer of the
    record [app] of global variables.  Exceptions are results of an error
    type; dialogs, console output and storage writes are appended to an
    event log so that their order can be stated.

    Strings are sequences of 8-bit characters: a string of the model is
    the JavaScript string with the same code units, each below 256
    (ISO 8859-1), and strings with higher code units are not modelled.
    Numbers are NaN and the integers, with exact arithmetic; the
    language computes in double precision, which agrees with the model
    as long as the values stay within [safe_integer], and statements
    about stored numbers carry that range as a hypothesis. *)

From Stdlib Require Import ZArith Lia List Ascii String DecimalString.
From stdpp Require Import base option list strings gmap.

Open Scope string_scope.

Set Warnings "-register-all".

(** ** Results of fallible code *)

(** [Ok] is normal completion, [Throw] a JavaScript exception that leaves
    the function, [Stuck] marks an execution the model does not follow
    (recursion budget exhausted, or a value shape outside the model). *)
Inductive result (A : Type) : Type :=
| Ok (a : A)
| Throw (e : string)
| Stuck (why : string).
Arguments Ok {A} a.
Arguments Throw {A} e.
Arguments Stuck {A} why.

#[global] Instance result_ret : MRet result := fun A a => Ok a.
#[global] Instance result_bind : MBind result := fun A B k m =>
  match m with
  | Ok a => k a
  | Throw e => Throw e
  | Stuck w => Stuck w
  end.

Module JS.

(** *** Numbers: integers and NaN

    Fractions are not modelled, and integers are exact: the model does
    not round beyond 2^53 as the floating-point numbers of the language
    would. *)

Inductive num : Type :=
| NaN
| Num (z : Z).

(** The integers on which the model and the language agree: a double
    holds each of them exactly, and the sum, difference or product of
    two of them is computed exactly when it lies in the range too. *)
Definition safe_integer (z : Z) : Prop := (- 2 ^ 53 <= z <= 2 ^ 53)%Z.

Definition num_add (a b : num) : num :=
  match a, b with Num x, Num y => Num (x + y) | _, _ => NaN end.
Definition num_sub (a b : num) : num :=
  match a, b with Num x, Num y => Num (x - y) | _, _ => NaN end.
Definition num_mul (a b : num) : num :=
  match a, b with Num x, Num y => Num (x * y) | _, _ => NaN end.
(** [a <= b]: false as soon as one side is NaN. *)
Definition num_leb (a b : num) : bool :=
  match a, b with Num x, Num y => (x <=? y)%Z | _, _ => false end.
(** [Math.max(a, b)]: NaN as soon as one side is NaN. *)
Definition Math_max (a b : num) : num :=
  match a, b with Num x, Num y => Num (Z.max x y) | _, _ => NaN end.

(** *** Values *)

#[local] Unset Elimination Schemes.
Inductive jsval : Type :=
| JUndefined
| JNull
| JBool (b : bool)
| JNum (n : num)
| JStr (s : string)
| JArr (items : list jsval)
| JObj (fields : list (string * jsval))
| JFun (name : string).

#[local] Set Elimination Schemes.

Definition JInt (z : Z) : jsval := JNum (Num z).

(** ToBoolean. *)
Definition truthy (v : jsval) : bool :=
  match v with
  | JUndefined | JNull => false
  | JBool b => b
  | JNum NaN => false
  | JNum (Num z) => negb (z =? 0)%Z
  | JStr s => negb (String.eqb s EmptyString)
  | JArr _ | JObj _ | JFun _ => true
  end.

(** [a || b]. *)
Definition js_or (a b : jsval) : jsval := if truthy a then a else b.

(** [a === b].  Arrays and objects compare by reference; two values that
    were parsed or built separately are never the same reference, so the
    comparison of two such values is [false].  A built-in function is
    the same reference wherever it is read. *)
Definition strict_eq (a b : jsval) : bool :=
  match a, b with
  | JUndefined, JUndefined => true
  | JNull, JNull => true
  | JBool x, JBool y => Bool.eqb x y
  | JNum (Num x), JNum (Num y) => (x =? y)%Z
  | JStr x, JStr y => String.eqb x y
  | JFun x, JFun y => String.eqb x y
  | _, _ => false
  end.

Definition is_array (v : jsval) : bool :=
  match v with JArr _ => true | _ => false end.

(** *** Objects: fields in insertion order *)

Fixpoint lookup_field (k : string) (fs : list (string * jsval)) : option jsval :=
  match fs with
  | [] => None
  | (k', v) :: rest => if String.eqb k k' then Some v else lookup_field k rest
  end.

(** [o[k] = v] on the field list: overwrite in place, or append. *)
Fixpoint assign_field (k : string) (v : jsval) (fs : list (string * jsval))
  : list (string * jsval) :=
  match fs with
  | [] => [(k, v)]
  | (k', v') :: rest =>
      if String.eqb k k' then (k, v) :: rest else (k', v') :: assign_field k v rest
  end.

Definition keys (fs : list (string * jsval)) : list string := map fst fs.

(** [v.k] for the property names the program reads (none of which is a
    built-in property of strings, numbers or arrays, or inherited by
    objects): a TypeError on [null] and [undefined], the field or
    [undefined] on an object, the name of a built-in function,
    [undefined] on every other value. *)
Definition get_prop (v : jsval) (k : string) : result jsval :=
  match v with
  | JUndefined => Throw ("Cannot read properties of undefined (reading '" ++ k ++ "')")
  | JNull => Throw ("Cannot read properties of null (reading '" ++ k ++ "')")
  | JObj fs => Ok (default JUndefined (lookup_field k fs))
  | JFun name => Ok (if String.eqb k "name" then JStr name else JUndefined)
  | _ => Ok JUndefined
  end.

(** *** Strings *)

Definition string_of_Z (z : Z) : string := NilZero.string_of_int (Z.to_int z).

Fixpoint replicate_char (n : nat) (c : ascii) : string :=
  match n with O => EmptyString | S n' => String c (replicate_char n' c) end.

(** [s.padStart(target, c)] for a one-character pad string. *)
Definition padStart (target : nat) (c : ascii) (s : string) : string :=
  replicate_char (target - String.length s) c ++ s.

(** [s.split(sep)] for a one-character separator. *)
Fixpoint split (sep : ascii) (s : string) : list string :=
  match s with
  | EmptyString => [EmptyString]
  | String c s' =>
      if Ascii.eqb c sep then EmptyString :: split sep s'
      else match split sep s' with
           | [] => [String c EmptyString]
           | w :: ws => String c w :: ws
           end
  end.

(** White space of the language among the characters of the model:
    tab, line feed, vertical tab, form feed, carriage return, space and
    no-break space. *)
Definition is_space (c : ascii) : bool :=
  let n := nat_of_ascii c in
  (n =? 32)%nat || ((9 <=? n)%nat && (n <=? 13)%nat) || (n =? 160)%nat.

Fixpoint trim_start (s : string) : string :=
  match s with
  | String c s' => if is_space c then trim_start s' else s
  | EmptyString => EmptyString
  end.

Fixpoint string_rev (acc s : string) : string :=
  match s with
  | EmptyString => acc
  | String c s' => string_rev (String c acc) s'
  end.

(** [s.trim()]. *)
Definition trim (s : string) : string :=
  string_rev EmptyString (trim_start (string_rev EmptyString (trim_start s))).

(** The lower-case form of a character: of the letters A to Z, and of
    the accented capitals 192 to 222 (215, the multiplication sign, is
    not a letter). *)
Definition lower_char (c : ascii) : ascii :=
  let n := nat_of_ascii c in
  if (65 <=? n)%nat && (n <=? 90)%nat then ascii_of_nat (n + 32)
  else if (192 <=? n)%nat && (n <=? 222)%nat && negb (n =? 215)%nat
       then ascii_of_nat (n + 32)
  else c.

Fixpoint toLowerCase (s : string) : string :=
  match s with
  | EmptyString => EmptyString
  | String c s' => String (lower_char c) (toLowerCase s')
  end.

Definition digit_of (c : ascii) : option Z :=
  let n := nat_of_ascii c in
  if (48 <=? n)%nat && (n <=? 57)%nat then Some (Z.of_nat (n - 48)) else None.

Definition hex_digit_of (c : ascii) : option Z :=
  let n := nat_of_ascii c in
  if (48 <=? n)%nat && (n <=? 57)%nat then Some (Z.of_nat (n - 48))
  else if (97 <=? n)%nat && (n <=? 102)%nat then Some (Z.of_nat (n - 87))
  else if (65 <=? n)%nat && (n <=? 70)%nat then Some (Z.of_nat (n - 55))
  else None.

(** The value of a string made of decimal digits only. *)
Fixpoint digits_value (acc : Z) (s : string) : option Z :=
  match s with
  | EmptyString => Some acc
  | String c s' =>
      match digit_of c with
      | Some d => digits_value (10 * acc + d) s'
      | None => None
      end
  end.

(** [Number(s)].  Modelled on the empty string (which is 0) and on
    unsigned or signed runs of decimal digits; every other lexeme
    (surrounding white space, fractions, exponents, radix prefixes,
    [Infinity], and the strings that are NaN) is left to [Stuck], so the
    model never reports a number the built-in would not. *)
Definition Number (s : string) : result num :=
  match s with
  | EmptyString => Ok (Num 0)
  | String c rest =>
      let unsigned (t : string) (sign : Z) :=
        match t with
        | EmptyString => Stuck "Number: lexeme outside the model"
        | _ => match digits_value 0 t with
               | Some z => Ok (Num (sign * z))
               | None => Stuck "Number: lexeme outside the model"
               end
        end in
      if Ascii.eqb c "-" then unsigned rest (-1)%Z
      else if Ascii.eqb c "+" then unsigned rest 1%Z
      else unsigned s 1%Z
  end.

(** The longest prefix of digits in the given radix, as (value, digits read). *)
Fixpoint digit_prefix (digit : ascii -> option Z) (radix : Z) (acc : Z) (read : nat)
  (s : string) : Z * nat :=
  match s with
  | EmptyString => (acc, read)
  | String c s' =>
      match digit c with
      | Some d => digit_prefix digit radix (radix * acc + d) (S read) s'
      | None => (acc, read)
      end
  end.

(** [parseInt(s)] with no radix argument: leading white space, an
    optional sign, an optional [0x] prefix, then the longest run of
    digits; NaN when no digit is read.  The value is the exact integer
    the digits denote, which is the value of the built-in when it is a
    [safe_integer]; beyond that range the built-in rounds. *)
Definition parseInt (s : string) : num :=
  let t := trim_start s in
  let '(sign, body) :=
    match t with
    | String c rest =>
        if Ascii.eqb c "-" then ((-1)%Z, rest)
        else if Ascii.eqb c "+" then (1%Z, rest)
        else (1%Z, t)
    | EmptyString => (1%Z, t)
    end in
  let '(digit, radix, digits) :=
    match body with
    | String c0 (String cx rest) =>
        if Ascii.eqb c0 "0" && (Ascii.eqb cx "x" || Ascii.eqb cx "X")
        then (hex_digit_of, 16%Z, rest)
        else (digit_of, 10%Z, body)
    | _ => (digit_of, 10%Z, body)
    end in
  match digit_prefix digit radix 0 0 digits with
  | (_, O) => NaN
  | (z, S _) => Num (sign * z)
  end.

Fixpoint join (sep : string) (parts : list string) : string :=
  match parts with
  | [] => EmptyString
  | [p] => p
  | p :: rest => p ++ sep ++ join sep rest
  end.

(** ToString.  The text of a built-in function is left to the engine
    by the language; it is given as V8 prints it. *)
Fixpoint to_string (v : jsval) : string :=
  match v with
  | JUndefined => "undefined"
  | JNull => "null"
  | JBool true => "true"
  | JBool false => "false"
  | JNum NaN => "NaN"
  | JNum (Num z) => string_of_Z z
  | JStr s => s
  | JArr items =>
      join "," (map (fun x => match x with
                              | JUndefined | JNull => EmptyString
                              | _ => to_string x
                              end) items)
  | JObj _ => "[object Object]"
  | JFun name => "function " ++ name ++ "() { [native code] }"
  end.

(** ToPrimitive: arrays, objects and functions become their strings. *)
Definition to_primitive (v : jsval) : jsval :=
  match v with
  | JArr _ | JObj _ | JFun _ => JStr (to_string v)
  | _ => v
  end.

(** ToNumber of a primitive. *)
Definition prim_to_number (v : jsval) : result num :=
  match v with
  | JUndefined => Ok NaN
  | JNull => Ok (Num 0)
  | JBool true => Ok (Num 1)
  | JBool false => Ok (Num 0)
  | JNum n => Ok n
  | JStr s => Number s
  | JArr _ | JObj _ | JFun _ => Stuck "prim_to_number: not a primitive"
  end.

(** ToNumber. *)
Definition to_number (v : jsval) : result num := prim_to_number (to_primitive v).

(** ToNumber of a primitive that is not a string. *)
Definition plain_to_number (v : jsval) : num :=
  match v with
  | JNull | JBool false => Num 0
  | JBool true => Num 1
  | JNum n => n
  | _ => NaN
  end.

(** [a + b]: concatenation when one side is (or becomes) a string,
    addition of numbers otherwise. *)
Definition js_add (a b : jsval) : jsval :=
  match to_primitive a, to_primitive b with
  | JStr x, pb => JStr (x ++ to_string pb)
  | pa, JStr y => JStr (to_string pa ++ y)
  | pa, pb => JNum (num_add (plain_to_number pa) (plain_to_number pb))
  end.

(** *** Array methods; the receiver must be an array *)

Definition as_array (method : string) (v : jsval) : result (list jsval) :=
  match v with
  | JArr items => Ok items
  | JUndefined | JNull => Throw ("Cannot read properties of " ++ to_string v)
  | _ => Throw (method ++ " is not a function")
  end.

(** [arr.find(p)], with the position of the element found. *)
Fixpoint find_from (p : jsval -> result bool) (i : nat) (items : list jsval)
  : result (option (nat * jsval)) :=
  match items with
  | [] => Ok None
  | x :: rest =>
      b ← p x;
      if b : bool then Ok (Some (i, x)) else find_from p (S i) rest
  end.

(** [arr.filter(p)] for a callback without side effects. *)
Fixpoint filter_with (p : jsval -> result bool) (items : list jsval)
  : result (list jsval) :=
  match items with
  | [] => Ok []
  | x :: rest =>
      b ← p x;
      kept ← filter_with p rest;
      Ok (if b : bool then x :: kept else kept)
  end.

(** [arr.reduce(f, init)]. *)
Fixpoint reduce (f : jsval -> jsval -> result jsval) (acc : jsval) (items : list jsval)
  : result jsval :=
  match items with
  | [] => Ok acc
  | x :: rest => acc' ← f acc x; reduce f acc' rest
  end.

End JS.
Import JS.

(** ** A small JSON codec

    [JSON.stringify] and [JSON.parse] are built-ins of the language; the
    program is verified against their interface (see the section
    variables below).  This module is a concrete printer and parser for
    the values of the model, used to run the program on examples. *)
Module MiniJSON.

Definition dquote : ascii := ascii_of_nat 34.
Definition backslash : ascii := ascii_of_nat 92.

Fixpoint escape (s : string) : string :=
  match s with
  | EmptyString => EmptyString
  | String c rest =>
      if Ascii.eqb c dquote || Ascii.eqb c backslash
      then String backslash (String c (escape rest))
      else String c (escape rest)
  end.

Definition quote (s : string) : string :=
  String dquote (escape s ++ String dquote EmptyString).

(** Fields whose value is [undefined] or a function are not printed;
    [undefined], functions and NaN inside arrays print as [null]. *)
Fixpoint stringify (v : jsval) : string :=
  match v with
  | JUndefined | JNull | JNum NaN | JFun _ => "null"
  | JBool true => "true"
  | JBool false => "false"
  | JNum (Num z) => string_of_Z z
  | JStr s => quote s
  | JArr items => "[" ++ join "," (map stringify items) ++ "]"
  | JObj fields =>
      let fix members (fs : list (string * jsval)) : list string :=
        match fs with
        | [] => []
        | (k, x) :: rest =>
            match x with
            | JUndefined | JFun _ => members rest
            | _ => (quote k ++ ":" ++ stringify x) :: members rest
            end
        end in
      "{" ++ join "," (members fields) ++ "}"
  end.

Fixpoint strip_prefix (p s : string) : option string :=
  match p, s with
  | EmptyString, _ => Some s
  | String a p', String b s' => if Ascii.eqb a b then strip_prefix p' s' else None
  | String _ _, EmptyString => None
  end.

(** The characters up to the closing quote, and the rest of the input. *)
Fixpoint parse_chars (s : string) : option (string * string) :=
  match s with
  | EmptyString => None
  | String c rest =>
      if Ascii.eqb c dquote then Some (EmptyString, rest)
      else if Ascii.eqb c backslash then
        match rest with
        | String c' rest' =>
            '(body, tl) ← parse_chars rest';
            Some (String c' body, tl)
        | EmptyString => None
        end
      else
        '(body, tl) ← parse_chars rest;
        Some (String c body, tl)
  end.

Fixpoint drop_string (n : nat) (s : string) : string :=
  match n, s with
  | S n', String _ rest => drop_string n' rest
  | _, _ => s
  end.

Definition parse_digits (sign : Z) (s : string) : option (jsval * string) :=
  match digit_prefix digit_of 10 0 0 s with
  | (_, O) => None
  | (z, S k) => Some (JInt (sign * z), drop_string (S k) s)
  end.

Fixpoint parse_value (fuel : nat) (s : string) : option (jsval * string) :=
  match fuel with
  | O => None
  | S n =>
      match trim_start s with
      | EmptyString => None
      | String c rest as t =>
          if Ascii.eqb c dquote then
            '(body, tl) ← parse_chars rest; Some (JStr body, tl)
          else if Ascii.eqb c "[" then
            match trim_start rest with
            | String "]" tl => Some (JArr [], tl)
            | _ => parse_items n rest []
            end
          else if Ascii.eqb c "{" then
            match trim_start rest with
            | String "}" tl => Some (JObj [], tl)
            | _ => parse_members n rest []
            end
          else if Ascii.eqb c "-" then parse_digits (-1) rest
          else match strip_prefix "null" t with
          | Some tl => Some (JNull, tl)
          | None =>
          match strip_prefix "true" t with
          | Some tl => Some (JBool true, tl)
          | None =>
          match strip_prefix "false" t with
          | Some tl => Some (JBool false, tl)
          | None => parse_digits 1 t
          end end end
      end
  end
with parse_items (fuel : nat) (s : string) (acc : list jsval) : option (jsval * string) :=
  match fuel with
  | O => None
  | S n =>
      '(v, tl) ← parse_value n s;
      match trim_start tl with
      | String "," tl' => parse_items n tl' (v :: acc)
      | String "]" tl' => Some (JArr (rev (v :: acc)), tl')
      | _ => None
      end
  end
with parse_members (fuel : nat) (s : string) (acc : list (string * jsval))
  : option (jsval * string) :=
  match fuel with
  | O => None
  | S n =>
      match trim_start s with
      | String c rest =>
          if Ascii.eqb c dquote then
            '(k, tl) ← parse_chars rest;
            match trim_start tl with
            | String ":" tl1 =>
                '(v, tl2) ← parse_value n tl1;
                match trim_start tl2 with
                | String "," tl3 => parse_members n tl3 ((k, v) :: acc)
                | String "}" tl3 => Some (JObj (rev ((k, v) :: acc)), tl3)
                | _ => None
                end
            | _ => None
            end
          else None
      | EmptyString => None
      end
  end.

(** [None] stands for the SyntaxError of [JSON.parse]. *)
Definition parse (s : string) : option jsval :=
  '(v, tl) ← parse_value (S (String.length s)) s;
  match trim_start tl with
  | EmptyString => Some v
  | _ => None
  end.

End MiniJSON.

(** ** The global variables of the program *)

(** File content as the Blob Store keeps it. *)
Record blob : Type := Blob { blob_bytes : list Byte.byte; blob_type : string }.

(** What the program does that is visible outside its variables, in the
    order it happens.  Only [console.warn] and [console.error] are kept
    of the console; rendering of the page is not modelled. *)
Inductive event : Type :=
| Alert (msg : string)
| Console (msg : string)
| LocalSet (key value : string)
| FetchPost (url body : string)
| BlobDelete (id : jsval).

Record app : Type := App {
  sessions : jsval;
  selectedDate : jsval;
  editingSessionId : jsval;
  uploadedFiles : jsval;
  folders : jsval;
  currentFolder : jsval;
  db : option (gmap string blob);
  localStorage : gmap string string;
  log : list event
}.

(** The variables as the script initialises them, over a given content of
    the Metadata Store. *)
Definition initial (store : gmap string string) : app :=
  {| sessions := JArr []; selectedDate := JNull; editingSessionId := JNull;
     uploadedFiles := JArr []; folders := JArr []; currentFolder := JNull;
     db := None; localStorage := store; log := [] |}.

Definition set_sessions (v : jsval) (st : app) : app :=
  {| sessions := v; selectedDate := selectedDate st;
     editingSessionId := editingSessionId st; uploadedFiles := uploadedFiles st;
     folders := folders st; currentFolder := currentFolder st; db := db st;
     localStorage := localStorage st; log := log st |}.

Definition set_selectedDate (v : jsval) (st : app) : app :=
  {| sessions := sessions st; selectedDate := v;
     editingSessionId := editingSessionId st; uploadedFiles := uploadedFiles st;
     folders := folders st; currentFolder := currentFolder st; db := db st;
     localStorage := localStorage st; log := log st |}.

Definition set_editingSessionId (v : jsval) (st : app) : app :=
  {| sessions := sessions st; selectedDate := selectedDate st;
     editingSessionId := v; uploadedFiles := uploadedFiles st;
     folders := folders st; currentFolder := currentFolder st; db := db st;
     localStorage := localStorage st; log := log st |}.

Definition set_uploadedFiles (v : jsval) (st : app) : app :=
  {| sessions := sessions st; selectedDate := selectedDate st;
     editingSessionId := editingSessionId st; uploadedFiles := v;
     folders := folders st; currentFolder := currentFolder st; db := db st;
     localStorage := localStorage st; log := log st |}.

Definition set_folders (v : jsval) (st : app) : app :=
  {| sessions := sessions st; selectedDate := selectedDate st;
     editingSessionId := editingSessionId st; uploadedFiles := uploadedFiles st;
     folders := v; currentFolder := currentFolder st; db := db st;
     localStorage := localStorage st; log := log st |}.

Definition set_db (d : option (gmap string blob)) (st : app) : app :=
  {| sessions := sessions st; selectedDate := selectedDate st;
     editingSessionId := editingSessionId st; uploadedFiles := uploadedFiles st;
     folders := folders st; currentFolder := currentFolder st; db := d;
     localStorage := localStorage st; log := log st |}.

(** An event is appended to the log. *)
Definition emit (e : event) (st : app) : app :=
  {| sessions := sessions st; selectedDate := selectedDate st;
     editingSessionId := editingSessionId st; uploadedFiles := uploadedFiles st;
     folders := folders st; currentFolder := currentFolder st; db := db st;
     localStorage := localStorage st; log := log st ++ [e] |}.

(** [localStorage.setItem(key, value)]. *)
Definition setItem (key value : string) (st : app) : app :=
  emit (LocalSet key value)
    {| sessions := sessions st; selectedDate := selectedDate st;
       editingSessionId := editingSessionId st; uploadedFiles := uploadedFiles st;
       folders := folders st; currentFolder := currentFolder st; db := db st;
       localStorage := <[key := value]> (localStorage st); log := log st |}.

(** [localStorage.getItem(key)]; [None] is the [null] of a missing key. *)
Definition getItem (key : string) (st : app) : option string :=
  localStorage st !! key.

Definition alert (msg : string) (st : app) : app := emit (Alert msg) st.

Definition TARGET_HOURS : Z := 640.
Definition STORAGE_KEY : string := "hoursTrackerData".
Definition FILES_STORAGE_KEY : string := "bestandenBIMFiles".
Definition FOLDERS_STORAGE_KEY : string := "bestandenBIMFolders".

(** ** Session manager *)

(** [formatTime(hours, minutes)]. *)
Definition formatTime (hours minutes : Z) : string :=
  padStart 2 "0" (string_of_Z hours) ++ ":" ++ padStart 2 "0" (string_of_Z minutes).

(** [const [a, b] = str.split(':').map(Number)]: every part is converted,
    the first two are bound, a missing one is [undefined] (NaN in
    arithmetic). *)
Definition hour_min (str : string) : result (num * num) :=
  parts ← mapM Number (split ":" str);
  Ok (nth 0 parts NaN, nth 1 parts NaN).

(** [calculateNetMinutes(startStr, endStr, breakMinutes)]. *)
Definition calculateNetMinutes (startStr endStr breakMinutes : jsval) : result num :=
  if negb (truthy startStr) || negb (truthy endStr) then Ok (Num 0)
  else
    match startStr with
    | JStr s =>
        '(startHour, startMin) ← hour_min s;
        match endStr with
        | JStr e =>
            '(endHour, endMin) ← hour_min e;
            let startTotalMin := num_add (num_mul startHour (Num 60)) startMin in
            let endTotalMin := num_add (num_mul endHour (Num 60)) endMin in
            if num_leb endTotalMin startTotalMin then Ok (Num 0)
            else
              let durationMin := num_sub endTotalMin startTotalMin in
              b ← to_number breakMinutes;
              Ok (Math_max (Num 0) (num_sub durationMin b))
        | _ => Throw "endStr.split is not a function"
        end
    | _ => Throw "startStr.split is not a function"
    end.

(** What the Remote Session Store answers to a push. *)
Inductive post_outcome : Type :=
| PostOk
| PostRejected (statusText : string)
| PostNetworkError (message : string).

(** What the Remote Session Store answers to a fetch; [body] is the
    result of [response.json()], [None] when it rejects. *)
Inductive get_outcome : Type :=
| GetNetworkError (message : string)
| GetResponse (ok : bool) (status : Z) (body : option jsval).

(** The values a session form holds. *)
Record session_form : Type := SessionForm {
  in_date : string;
  in_startTime : string;
  in_endTime : string;
  in_breakMinutes : string;
  in_note : string;
  in_category : string
}.

(** [sessions.reduce((sum, s) => sum + (s.netHours || 0), 0)]. *)
Definition totalHours (sess : jsval) : result jsval :=
  items ← as_array "sessions.reduce" sess;
  reduce (fun sum s =>
            h ← get_prop s "netHours";
            Ok (js_add sum (js_or h (JInt 0))))
         (JInt 0) items.

(** [closeDayPanel()]; [closeEditModal()]; [openDayPanel(dateStr, _)]:
    the variables they set. *)
Definition closeDayPanel (st : app) : app := set_selectedDate JNull st.
Definition closeEditModal (st : app) : app := set_editingSessionId JNull st.
Definition openDayPanel (dateStr : jsval) (st : app) : app := set_selectedDate dateStr st.

Section Program.

Set Default Proof Using "Type".

(** The JSON built-ins: [JSON.stringify(v)], [JSON.stringify(v, null, 2)]
    and [JSON.parse(text)], whose [None] is a SyntaxError. *)
Variable JSON_stringify : jsval -> string.
Variable JSON_stringify_indent : jsval -> string.
Variable JSON_parse : string -> option jsval.

(** The empty text is not JSON. *)
Hypothesis JSON_parse_empty : JSON_parse EmptyString = None.

(** [saveData()].  The local write and the request are issued before the
    first suspension; what follows the answer only writes to the console
    and redraws the page. *)
Definition saveData (remote : post_outcome) (st : app) : app :=
  let st1 := setItem STORAGE_KEY (JSON_stringify (sessions st)) st in
  match totalHours (sessions st1) with
  | Ok total =>
      let body := JSON_stringify (JObj [("sessions", sessions st1); ("totalHours", total)]) in
      let st2 := emit (FetchPost "/api/data" body) st1 in
      match remote with
      | PostOk => st2
      | PostRejected statusText =>
          emit (Console ("Failed to save to server: " ++ statusText)) st2
      | PostNetworkError message =>
          emit (Console ("Could not save to server (offline?): " ++ message)) st2
      end
  | Throw e => emit (Console ("Could not save to server (offline?): " ++ e)) st1
  | Stuck _ => st1 (* the sum is never stuck *)
  end.

(** [parseInt(input.value) || 0]. *)
Definition break_of (input : string) : jsval := js_or (JNum (parseInt input)) (JInt 0).

(** The object literal of [saveSession]. *)
Definition new_session (id date startTime endTime breakMinutes note category : jsval)
  (netMinutes : num) : jsval :=
  JObj [("id", id); ("date", date); ("startTime", startTime); ("endTime", endTime);
        ("breakMinutes", breakMinutes); ("note", note); ("category", category);
        ("netMinutes", JNum netMinutes)].

(** [saveSession(event)] on the values of the session form; [fresh] is
    the identifier drawn from the clock and the random generator. *)
Definition saveSession (form : session_form) (fresh : string) (remote : post_outcome)
  (st : app) : result app :=
  let date := JStr (in_date form) in
  let startTime := JStr (in_startTime form) in
  let endTime := JStr (in_endTime form) in
  let breakMinutes := break_of (in_breakMinutes form) in
  let note := JStr (in_note form) in
  let category := JStr (in_category form) in
  if negb (truthy date) || negb (truthy startTime) || negb (truthy endTime)
  then Ok (alert "Please fill in all required fields" st)
  else
    netMinutes ← calculateNetMinutes startTime endTime breakMinutes;
    if num_leb netMinutes (Num 0)
    then Ok (alert "Invalid time range or break duration is too long" st)
    else
      let session :=
        new_session (JStr fresh) date startTime endTime breakMinutes note category
                    netMinutes in
      items ← as_array "sessions.push" (sessions st);
      Ok (closeDayPanel (saveData remote (set_sessions (JArr (items ++ [session])) st))).

(** The six assignments of [updateSession] from the edit form, in order. *)
Definition edit_fields (form : session_form) (fields : list (string * jsval))
  : list (string * jsval) :=
  assign_field "category" (JStr (in_category form))
    (assign_field "note" (JStr (in_note form))
      (assign_field "breakMinutes" (break_of (in_breakMinutes form))
        (assign_field "endTime" (JStr (in_endTime form))
          (assign_field "startTime" (JStr (in_startTime form))
            (assign_field "date" (JStr (in_date form)) fields))))).

(** [updateSession(event)] on the values of the edit form.  The session
    found is an element of the array: assigning to its fields changes
    the array in place. *)
Definition updateSession (form : session_form) (remote : post_outcome) (st : app)
  : result app :=
  let sessionId := editingSessionId st in
  items ← as_array "sessions.find" (sessions st);
  found ← find_from (fun s => id ← get_prop s "id"; Ok (strict_eq id sessionId)) 0 items;
  match found with
  | None => Ok st
  | Some (i, session) =>
      if negb (truthy session) then Ok st
      else
        match session with
        | JObj fields =>
            let fields1 := edit_fields form fields in
            netMinutes ← calculateNetMinutes (JStr (in_startTime form))
                           (JStr (in_endTime form)) (break_of (in_breakMinutes form));
            let fields2 := assign_field "netMinutes" (JNum netMinutes) fields1 in
            let st1 := set_sessions (JArr (<[i := JObj fields2]> items)) st in
            if num_leb netMinutes (Num 0)
            then Ok (alert "Invalid time range" st1)
            else Ok (openDayPanel (JStr (in_date form)) (closeEditModal (saveData remote st1)))
        | _ => Stuck "updateSession: the session found is not an object"
        end
  end.

(** [deleteCurrentSession()]; [confirmed] is the answer to the dialog. *)
Definition deleteCurrentSession (confirmed : bool) (remote : post_outcome) (st : app)
  : result app :=
  if negb (truthy (editingSessionId st)) then Ok st
  else if confirmed then
    items ← as_array "sessions.filter" (sessions st);
    kept ← filter_with (fun s => id ← get_prop s "id";
                                 Ok (negb (strict_eq id (editingSessionId st)))) items;
    let st1 := closeEditModal (saveData remote (set_sessions (JArr kept) st)) in
    Ok (if truthy (selectedDate st1) then openDayPanel (selectedDate st1) st1 else st1)
  else Ok st.

(** [loadData()]: the fallback branch, then the function. *)
Definition loadData_fallback (reason : string) (st : app) : app :=
  let st1 := emit (Console ("Server load failed, trying localStorage fallback: " ++ reason)) st in
  match getItem STORAGE_KEY st1 with
  | Some stored =>
      if truthy (JStr stored) then
        match JSON_parse stored with
        | Some v => set_sessions v st1
        | None => set_sessions (JArr []) (emit (Console "Failed to load data") st1)
        end
      else st1
  | None => st1
  end.

Definition loadData (remote : get_outcome) (st : app) : app :=
  match remote with
  | GetNetworkError message => loadData_fallback message st
  | GetResponse ok status body =>
      if negb ok then loadData_fallback ("HTTP " ++ string_of_Z status) st
      else
        match body with
        | None => loadData_fallback "response.json() rejected" st
        | Some result =>
            match get_prop result "data" with
            | Ok data =>
                if truthy data then
                  match get_prop data "sessions" with
                  | Ok sess =>
                      if truthy sess
                      then setItem STORAGE_KEY (JSON_stringify sess) (set_sessions sess st)
                      else st
                  | Throw e | Stuck e => loadData_fallback e st
                  end
                else st
            | Throw e | Stuck e => loadData_fallback e st
            end
        end
  end.

(** The object literal of [exportJSON()]; [now] is the clock reading. *)
Definition export_snapshot (now : string) (st : app) : jsval :=
  JObj [("exportDate", JStr now); ("target", JInt TARGET_HOURS); ("sessions", sessions st)].

(** [importJSON()] once a file has been chosen and read; [text] is its
    content. *)
Definition importJSON (text : string) (remote : post_outcome) (st : app) : app :=
  match JSON_parse text with
  | None => alert "Failed to parse JSON: SyntaxError" st
  | Some data =>
      match get_prop data "sessions" with
      | Ok v =>
          if is_array v
          then alert "Data imported successfully" (saveData remote (set_sessions v st))
          else if is_array data
          then alert "Data imported successfully" (saveData remote (set_sessions data st))
          else alert "Invalid JSON format" st
      | Throw e | Stuck e => alert ("Failed to parse JSON: " ++ e) st
      end
  end.


(** A time-of-day string as the time inputs of the page produce it: two
    digits of hours, a colon, two digits of minutes.  [hm_ok h m] checks
    that the program reads [h] and [m] back from it. *)
Definition hm_ok (h m : Z) : bool :=
  match hour_min (formatTime h m) with
  | Ok (Num a, Num b) => (a =? h)%Z && (b =? m)%Z
  | _ => false
  end.

(** Minutes since midnight of the time of day [h]:[m]. *)
Definition minutes_of (h m : Z) : Z := (60 * h + m)%Z.

(** The sessions the two forms produce: the object [saveSession] builds,
    and an object of that kind after the assignments of [updateSession]. *)
Inductive form_made : jsval -> Prop :=
| made_new (id date startTime endTime breakMinutes note category : jsval) (net : num) :
    form_made (new_session id date startTime endTime breakMinutes note category net)
| made_edit (fields : list (string * jsval)) (form : session_form) (net : num) :
    form_made (JObj fields) ->
    form_made (JObj (assign_field "netMinutes" (JNum net) (edit_fields form fields))).


(** The form of scenario A; the scenario leaves note and category open. *)
Definition scenarioA (note category : string) : session_form :=
  {| in_date := "2024-03-01"; in_startTime := "08:30"; in_endTime := "17:00";
     in_breakMinutes := "30"; in_note := note; in_category := category |}.

(** The session scenario A creates, with a given net duration. *)
Definition scenarioA_session (fresh note category : string) (net : Z) : jsval :=
  new_session (JStr fresh) (JStr "2024-03-01") (JStr "08:30") (JStr "17:00")
              (JInt 30) (JStr note) (JStr category) (Num net).


(** A session as scenario A leaves it, and the state in which it is
    being edited. *)
Definition edited_before : jsval := scenarioA_session "s1" "" "Internship" 480.

Definition editing_state : app :=
  set_editingSessionId (JStr "s1") (set_sessions (JArr [edited_before]) (initial ∅)).

(** An edit whose end time is before its start time. *)
Definition bad_edit : session_form :=
  {| in_date := "2024-03-02"; in_startTime := "09:00"; in_endTime := "08:00";
     in_breakMinutes := "15"; in_note := "typo"; in_category := "Other" |}.

Definition edited_after : jsval :=
  new_session (JStr "s1") (JStr "2024-03-02") (JStr "09:00") (JStr "08:00")
              (JInt 15) (JStr "typo") (JStr "Other") (Num 0).

(** The events [saveData] adds after the local write: a request, a
    console line, or none. *)
Definition after_local_write (e : event) : Prop :=
  match e with
  | FetchPost _ _ | Console _ => True
  | _ => False
  end.


(** The session [s] records [h] net hours; a session without the field
    records none. *)
Definition records_hours (s : jsval) (h : Z) : Prop :=
  exists fields,
    s = JObj fields
    /\ (lookup_field "netHours" fields = Some (JInt h)
        \/ (lookup_field "netHours" fields = None /\ h = 0%Z)).

Definition sum_hours (hs : list Z) : Z := foldr Z.add 0%Z hs.

(** Two sessions as another client could have stored them, with a
    [netHours] field of 8 and of 4. *)
Definition hours_sessions : list jsval :=
  [JObj [("id", JStr "h1"); ("date", JStr "2024-03-01"); ("netHours", JInt 8)];
   JObj [("id", JStr "h2"); ("date", JStr "2024-03-02"); ("netHours", JInt 4)]].

Definition hours_state : app := set_sessions (JArr hours_sessions) (initial ∅).

(** ** File and folder manager *)

(** [formatFileSize(bytes)] rounds with floating-point logarithms; the
    text it returns is taken as given. *)
Variable formatFileSize : Z -> string.

(** [atob(base64)]; [None] when the text is not base64. *)
Variable atob : string -> option (list Byte.byte).

Definition mimeTypes : list (string * string) :=
  [("pdf", "application/pdf");
   ("docx", "application/vnd.openxmlformats-officedocument.wordprocessingml.document");
   ("doc", "application/msword");
   ("xlsx", "application/vnd.openxmlformats-officedocument.spreadsheetml.sheet");
   ("xls", "application/vnd.ms-excel");
   ("pptx", "application/vnd.openxmlformats-officedocument.presentationml.presentation");
   ("txt", "text/plain");
   ("jpg", "image/jpeg");
   ("jpeg", "image/jpeg");
   ("png", "image/png");
   ("gif", "image/gif");
   ("zip", "application/zip");
   ("rar", "application/x-rar-compressed")].

Fixpoint table_lookup (k : string) (table : list (string * string)) : option string :=
  match table with
  | [] => None
  | (k', v) :: rest => if String.eqb k k' then Some v else table_lookup k rest
  end.

(** What an object literal inherits from [Object.prototype]: its
    methods, the function [Object] under [constructor], and the
    prototype itself, an object without fields of its own, under
    [__proto__]. *)
Definition inherited_methods : list string :=
  ["hasOwnProperty"; "isPrototypeOf"; "propertyIsEnumerable"; "toLocaleString";
   "toString"; "valueOf"; "__defineGetter__"; "__defineSetter__";
   "__lookupGetter__"; "__lookupSetter__"].

Definition inherited_member (k : string) : option jsval :=
  if String.eqb k "constructor" then Some (JFun "Object")
  else if String.eqb k "__proto__" then Some (JObj [])
  else if existsb (String.eqb k) inherited_methods then Some (JFun k)
  else None.

(** [table[k]] on an object literal whose values are strings: the entry
    of the literal, else the inherited member, else [undefined]. *)
Definition literal_get (table : list (string * string)) (k : string) : jsval :=
  match table_lookup k table with
  | Some v => JStr v
  | None => default JUndefined (inherited_member k)
  end.

(** [getMimeType(filename)]. *)
Definition getMimeType (filename : string) : jsval :=
  let ext := toLowerCase (List.last (split "." filename) EmptyString) in
  js_or (literal_get mimeTypes ext) (JStr "application/octet-stream").

(** The object literal [saveFiles] builds for one file. *)
Definition file_metadata (f : jsval) : result jsval :=
  id ← get_prop f "id";
  name ← get_prop f "name";
  size ← get_prop f "size";
  uploadedAt ← get_prop f "uploadedAt";
  type ← get_prop f "type";
  parentId ← get_prop f "parentId";
  Ok (JObj [("id", id); ("name", name); ("size", size); ("uploadedAt", uploadedAt);
            ("type", type); ("parentId", parentId)]).

(** [saveFiles()]. *)
Definition saveFiles (st : app) : app :=
  let st1 := setItem FOLDERS_STORAGE_KEY (JSON_stringify (folders st)) st in
  match items ← as_array "uploadedFiles.map" (uploadedFiles st1); mapM file_metadata items with
  | Ok filesMetadata => setItem FILES_STORAGE_KEY (JSON_stringify (JArr filesMetadata)) st1
  | Throw e => alert ("Error saving files: " ++ e) (emit (Console "Error saving files") st1)
  | Stuck _ => st1 (* no property read is stuck *)
  end.

(** [loadFiles()].  After parsing the file list the function counts the
    records with and without inline data; a value that is not an array,
    or an array with a [null] element, makes that count throw, and the
    list is reset like on a parse failure.  The folder list is only
    asked for its length, which throws on [null]. *)
Definition counts_inline_data (v : jsval) : result (list jsval) :=
  items ← as_array "uploadedFiles.filter" v;
  filter_with (fun f => d ← get_prop f "data"; Ok (truthy d)) items.

Definition loaded_files (st : app) : jsval :=
  match getItem FILES_STORAGE_KEY st with
  | Some stored =>
      if truthy (JStr stored) then
        match JSON_parse stored with
        | Some v => match counts_inline_data v with
                    | Ok _ => v
                    | _ => JArr []
                    end
        | None => JArr []
        end
      else uploadedFiles st
  | None => uploadedFiles st
  end.

Definition loaded_folders (st : app) : jsval :=
  match getItem FOLDERS_STORAGE_KEY st with
  | Some stored =>
      if truthy (JStr stored) then
        match JSON_parse stored with
        | Some JNull | None => JArr []
        | Some v => v
        end
      else folders st
  | None => folders st
  end.

Definition loadFiles (st : app) : app :=
  {| sessions := sessions st; selectedDate := selectedDate st;
     editingSessionId := editingSessionId st; uploadedFiles := loaded_files st;
     folders := loaded_folders st; currentFolder := JNull; db := db st;
     localStorage := localStorage st; log := log st |}.

(** What the Blob Store answers to a write. *)
Inductive put_outcome : Type :=
| PutOk
| PutFailed (message : string).

(** [deleteFileFromIndexedDB(id).catch(...)]: never awaited, a failure is
    a console line.  The Blob Store of the model is keyed by strings, as
    every identifier the program generates is; a number or an array is
    a valid key too, and is left to [Stuck]. *)
Definition deleteFileFromIndexedDB (id : jsval) (st : app) : result app :=
  match db st, id with
  | None, _ => Ok (emit (Console "Error deleting from IndexedDB: IndexedDB not initialized") st)
  | Some d, JStr key => Ok (emit (BlobDelete id) (set_db (Some (delete key d)) st))
  | Some _, (JNum _ | JArr _) => Stuck "deleteFileFromIndexedDB: key outside the model"
  | Some _, _ => Ok (emit (Console "Error deleting from IndexedDB: DataError") st)
  end.

(** [arr.filter(cb)] for a callback that changes the variables: the
    array iterated is the one the receiver denoted when [filter] was
    called, whatever the callback assigns meanwhile. *)
Fixpoint filter_st (cb : jsval -> app -> result (bool * app)) (items : list jsval)
  (st : app) : result (list jsval * app) :=
  match items with
  | [] => Ok ([], st)
  | f :: rest =>
      '(keep, st1) ← cb f st;
      '(kept, st2) ← filter_st cb rest st1;
      Ok (if keep : bool then f :: kept else kept, st2)
  end.

Definition has_parent (parentId f : jsval) : result bool :=
  p ← get_prop f "parentId"; Ok (strict_eq p parentId).

Definition delete_blobs (filesToDelete : list jsval) (st : app) : result app :=
  foldl (fun acc file => st' ← acc; id ← get_prop file "id";
                         deleteFileFromIndexedDB id st')
        (Ok st) filesToDelete.

(** The local function [deleteContents(parentId)] of [deleteFolder];
    [fuel] bounds the depth of its recursion. *)
Fixpoint deleteContents (fuel : nat) (parentId : jsval) (st : app) : result app :=
  match fuel with
  | O => Stuck "deleteContents: recursion budget exhausted"
  | S fuel' =>
      items ← as_array "folders.filter" (folders st);
      '(kept, st1) ←
        filter_st (fun f st0 =>
                     child ← has_parent parentId f;
                     if child : bool then
                       id ← get_prop f "id";
                       st' ← deleteContents fuel' id st0;
                       Ok (false, st')
                     else Ok (true, st0))
                  items st;
      let st2 := set_folders (JArr kept) st1 in
      files ← as_array "uploadedFiles.filter" (uploadedFiles st2);
      filesToDelete ← filter_with (has_parent parentId) files;
      st3 ← delete_blobs filesToDelete st2;
      files' ← as_array "uploadedFiles.filter" (uploadedFiles st3);
      remaining ← filter_with (fun f => b ← has_parent parentId f; Ok (negb b)) files';
      Ok (set_uploadedFiles (JArr remaining) st3)
  end.

(** [deleteFolder(folderId)]; [confirmed] is the answer to the dialog
    "Delete this folder and all its contents? This cannot be undone.". *)
Definition deleteFolder (fuel : nat) (confirmed : bool) (folderId : jsval) (st : app)
  : result app :=
  if confirmed then
    st1 ← deleteContents fuel folderId st;
    Ok (saveFiles st1)
  else Ok st.

(** [item.parentId = targetFolderId] on the element found at [i]. *)
Definition reparent (i : nat) (item targetFolderId : jsval) (items : list jsval)
  : result (list jsval) :=
  match item with
  | JObj fields => Ok (<[i := JObj (assign_field "parentId" targetFolderId fields)]> items)
  | _ => Stuck "moveItem: the item found is not an object"
  end.

Definition has_id (id f : jsval) : result bool :=
  x ← get_prop f "id"; Ok (strict_eq x id).

(** [moveItem(itemId, itemType, targetFolderId)]. *)
Definition moveItem (itemId : jsval) (itemType : string) (targetFolderId : jsval)
  (st : app) : result app :=
  if String.eqb itemType "file" then
    items ← as_array "uploadedFiles.find" (uploadedFiles st);
    found ← find_from (has_id itemId) 0 items;
    match found with
    | Some (i, file) =>
        if truthy file then
          items' ← reparent i file targetFolderId items;
          Ok (saveFiles (set_uploadedFiles (JArr items') st))
        else Ok st
    | None => Ok st
    end
  else if String.eqb itemType "folder" then
    items ← as_array "folders.find" (folders st);
    found ← find_from (has_id itemId) 0 items;
    match found with
    | Some (i, folder) =>
        if truthy folder && negb (strict_eq targetFolderId itemId) then
          items' ← reparent i folder targetFolderId items;
          Ok (saveFiles (set_folders (JArr items') st))
        else Ok st
    | None => Ok st
    end
  else Ok st.

(** [createFolder()] on the text of the name input; [millis] and [now]
    are the clock readings. *)
Definition createFolder (input : string) (millis : Z) (now : string) (st : app)
  : result app :=
  let name := trim input in
  if negb (truthy (JStr name)) then Ok (alert "Please enter a folder name" st)
  else
    let folder := JObj [("id", JStr ("folder_" ++ string_of_Z millis));
                        ("name", JStr name);
                        ("parentId", currentFolder st);
                        ("createdAt", JStr now)] in
    items ← as_array "folders.push" (folders st);
    Ok (saveFiles (set_folders (JArr (items ++ [folder])) st)).

(** [file.type || getMimeType(file.name)] on a metadata record. *)
Definition record_mime (file : jsval) : result jsval :=
  type ← get_prop file "type";
  if truthy type then Ok type
  else
    name ← get_prop file "name";
    match name with
    | JStr n => Ok (getMimeType n)
    | JUndefined | JNull => Throw "Cannot read properties of undefined (reading 'split')"
    | _ => Throw "filename.split is not a function"
    end.

(** [migrateLegacyFile(fileId)]; [put] is the answer of the Blob Store.
    The result is the boolean the function resolves to. *)
Definition migrateLegacyFile (fileId : jsval) (put : put_outcome) (st : app)
  : result (bool * app) :=
  items ← as_array "uploadedFiles.find" (uploadedFiles st);
  found ← find_from (has_id fileId) 0 items;
  match found with
  | None => Ok (false, st)
  | Some (i, file) =>
      if negb (truthy file) then Ok (false, st)
      else
        data ← get_prop file "data";
        match data, file with
        | JStr base64, JObj fields =>
            if negb (truthy data) then Ok (false, st)
            else
              match db st with
              | None => Ok (false, emit (Console "IndexedDB not available for migration") st)
              | Some d =>
                  let failed (e : string) :=
                    Ok (false, emit (Console ("Migration failed: " ++ e)) st) in
                  match record_mime file with
                  | Ok mimeType =>
                      match atob base64, put, fileId with
                      | None, _, _ => failed "InvalidCharacterError"
                      | Some _, PutFailed e, _ => failed e
                      | Some bytes, PutOk, JStr key =>
                          let stored := Blob bytes (to_string mimeType) in
                          let st1 := set_db (Some (<[key := stored]> d)) st in
                          let file' := JObj (assign_field "data" JUndefined fields) in
                          Ok (true, saveFiles (set_uploadedFiles (JArr (<[i := file']> items)) st1))
                      | Some _, PutOk, (JNum _ | JArr _) =>
                          Stuck "migrateLegacyFile: key outside the model"
                      | Some _, PutOk, _ => failed "DataError"
                      end
                  | Throw e => failed e
                  | Stuck w => Stuck w
                  end
              end
        | JStr _, _ => Stuck "migrateLegacyFile: the file found is not an object"
        | _, _ => Ok (false, st)
        end
  end.

(** *** Upload *)

(** A file handed to [handleFiles]: name, declared type, byte length and
    content. *)
Record upload : Type := Upload {
  up_name : string;
  up_type : string;
  up_size : Z;
  up_bytes : list Byte.byte
}.

Definition MAX_UPLOAD : Z := 200 * 1024 * 1024.

(** Where one file of a batch stands.  [Writing] holds the metadata
    object and the identifier that [reader.onload] built before the
    write to the Blob Store was issued. *)
Inductive progress : Type :=
| Skipped
| Reading
| Writing (fileObj : jsval) (fileId : string)
| Stored
| Failed.

(** The local variables of one call of [handleFiles]. *)
Record batch : Type := Batch {
  files : list upload;
  status : list progress;
  filesProcessed : nat;
  successCount : nat
}.

Definition totalFiles (b : batch) : nat := length (files b).

Definition dq : string := String (ascii_of_nat 34) EmptyString.

(** The test that closes every branch: once all files are processed and
    at least one succeeded, the metadata is saved; the success branch
    also announces the count. *)
Definition finish (announce : bool) (b : batch) (st : app) : app :=
  if (filesProcessed b =? totalFiles b)%nat && (0 <? successCount b)%nat then
    let st1 := saveFiles st in
    if announce
    then alert ("Successfully uploaded " ++ string_of_Z (Z.of_nat (successCount b))
                ++ " file(s)") st1
    else st1
  else st.

Definition too_large (file : upload) : string :=
  "File " ++ dq ++ up_name file ++ dq ++ " is too large (max 200MB). Skipping.".

(** The loop of [handleFiles]: it runs to its end before any reader
    calls back. *)
Fixpoint scan (rest : list upload) (b : batch) (st : app) : batch * app :=
  match rest with
  | [] => (b, st)
  | file :: rest' =>
      if (MAX_UPLOAD <? up_size file)%Z then
        let b1 := {| files := files b; status := status b ++ [Skipped];
                     filesProcessed := S (filesProcessed b);
                     successCount := successCount b |} in
        scan rest' b1 (finish false b1 (alert (too_large file) st))
      else
        scan rest' {| files := files b; status := status b ++ [Reading];
                      filesProcessed := filesProcessed b;
                      successCount := successCount b |} st
  end.

Definition handleFiles (fs : list upload) (st : app) : batch * app :=
  scan fs {| files := fs; status := []; filesProcessed := 0; successCount := 0 |} st.

(** The callbacks that follow, in the order the browser delivers them:
    a reader has loaded file [i] (with the identifier and the time
    stamp drawn in the callback), a reader has failed, the Blob Store
    has completed or refused the write of file [i]. *)
Inductive callback : Type :=
| ReaderLoad (i : nat) (fileId now : string)
| ReaderError (i : nat)
| PutSuccess (i : nat)
| PutError (i : nat) (message : string).

(** The metadata object of [reader.onload]. *)
Definition new_file (file : upload) (fileId now : string) (st : app) : jsval :=
  JObj [("id", JStr fileId);
        ("name", JStr (up_name file));
        ("size", JStr (formatFileSize (up_size file)));
        ("uploadedAt", JStr now);
        ("type", js_or (JStr (up_type file)) (getMimeType (up_name file)));
        ("parentId", currentFolder st)].

Definition set_status (i : nat) (p : progress) (b : batch) : batch :=
  {| files := files b; status := <[i := p]> (status b);
     filesProcessed := filesProcessed b; successCount := successCount b |}.

(** A branch that ends in failure: a dialog, one more file processed. *)
Definition abandon (i : nat) (message : string) (b : batch) (st : app) : batch * app :=
  let b1 := {| files := files b; status := <[i := Failed]> (status b);
               filesProcessed := S (filesProcessed b);
               successCount := successCount b |} in
  (b1, finish false b1 (alert message st)).

Definition not_initialized : string :=
  "File storage (IndexedDB) is not initialized. Please refresh the page and try again.".

(** One callback; [None] when it cannot occur in this state. *)
Definition step (b : batch) (st : app) (c : callback) : option (batch * app) :=
  match c with
  | ReaderLoad i fileId now =>
      file ← files b !! i;
      match status b !! i with
      | Some Reading =>
          let fileObj := new_file file fileId now st in
          match db st with
          | None =>
              Some (abandon i ("Error uploading " ++ up_name file ++ ": " ++ not_initialized)
                            b st)
          | Some _ => Some (set_status i (Writing fileObj fileId) b, st)
          end
      | _ => None
      end
  | ReaderError i =>
      file ← files b !! i;
      match status b !! i with
      | Some Reading => Some (abandon i ("Failed to read file: " ++ up_name file) b st)
      | _ => None
      end
  | PutSuccess i =>
      file ← files b !! i;
      match status b !! i, db st with
      | Some (Writing fileObj fileId), Some d =>
          let st1 := set_db (Some (<[fileId := Blob (up_bytes file) (up_type file)]> d)) st in
          match uploadedFiles st1 with
          | JArr items =>
              let st2 := set_uploadedFiles (JArr (items ++ [fileObj])) st1 in
              let b1 := {| files := files b; status := <[i := Stored]> (status b);
                           filesProcessed := S (filesProcessed b);
                           successCount := S (successCount b) |} in
              Some (b1, finish true b1 st2)
          | _ =>
              Some (abandon i ("Error uploading " ++ up_name file
                               ++ ": uploadedFiles.push is not a function") b st1)
          end
      | _, _ => None
      end
  | PutError i message =>
      file ← files b !! i;
      match status b !! i with
      | Some (Writing _ _) =>
          Some (abandon i ("Error uploading " ++ up_name file ++ ": " ++ message) b st)
      | _ => None
      end
  end.

(** A sequence of callbacks. *)
Fixpoint run (cs : list callback) (b : batch) (st : app) : option (batch * app) :=
  match cs with
  | [] => Some (b, st)
  | c :: rest => '(b1, st1) ← step b st c; run rest b1 st1
  end.

(** The six fields of a persisted file record. *)
Definition metadata_keys : list string :=
  ["id"; "name"; "size"; "uploadedAt"; "type"; "parentId"].

(** A record that holds the six metadata fields and nothing else. *)
Definition metadata_only (rec : jsval) : Prop :=
  exists fields, rec = JObj fields /\ keys fields = metadata_keys.

(** The field [k] of an object, [undefined] when absent. *)
Definition field (k : string) (fields : list (string * jsval)) : jsval :=
  default JUndefined (lookup_field k fields).

(** [m] is the record [saveFiles] writes for the in-memory record [f]. *)
Definition persisted_as (f m : jsval) : Prop :=
  exists ff mf,
    f = JObj ff /\ m = JObj mf
    /\ keys mf = metadata_keys
    /\ lookup_field "data" mf = None
    /\ Forall (fun k => lookup_field k mf = Some (field k ff)) metadata_keys.

Definition is_object (v : jsval) : Prop := exists fields, v = JObj fields.

(** How the loop of [handleFiles] classifies a file. *)
Definition classify (file : upload) : progress :=
  if (MAX_UPLOAD <? up_size file)%Z then Skipped else Reading.

(** A record of [added] came from a file of the batch that passed the
    size check, whose write to the Blob Store has completed, and it
    is the metadata object of [reader.onload]. *)
Definition stored_record (fs : list upload) (b : batch) (st : app) (rec : jsval) : Prop :=
  exists i file fileId now st0,
    fs !! i = Some file
    /\ (up_size file <= MAX_UPLOAD)%Z
    /\ status b !! i = Some Stored
    /\ rec = new_file file fileId now st0
    /\ exists d, db st = Some d /\ is_Some (d !! fileId).

(** A folder tree: A at the root holding B, B holding C, and D beside A;
    one file in each folder, every blob in the Blob Store. *)
Definition folder_rec (id name : string) (parent : jsval) : jsval :=
  JObj [("id", JStr id); ("name", JStr name); ("parentId", parent);
        ("createdAt", JStr "2024-03-01T09:00:00.000Z")].

Definition file_rec (id name : string) (parent : jsval) : jsval :=
  JObj [("id", JStr id); ("name", JStr name); ("size", JStr "5 Bytes");
        ("uploadedAt", JStr "2024-03-01T09:30:00.000Z"); ("type", JStr "text/plain");
        ("parentId", parent)].

Definition fA : jsval := folder_rec "A" "projects" JNull.
Definition fB : jsval := folder_rec "B" "drawings" (JStr "A").
Definition fC : jsval := folder_rec "C" "old" (JStr "B").
Definition fD : jsval := folder_rec "D" "notes" JNull.

Definition file1 : jsval := file_rec "f1" "a.txt" (JStr "A").
Definition file2 : jsval := file_rec "f2" "b.txt" (JStr "B").
Definition file3 : jsval := file_rec "f3" "c.txt" (JStr "C").
Definition file4 : jsval := file_rec "f4" "d.txt" (JStr "D").

Definition some_blob : blob := Blob [] "text/plain".

Definition tree_state : app :=
  set_db (Some (<["f1" := some_blob]> (<["f2" := some_blob]>
                 (<["f3" := some_blob]> (<["f4" := some_blob]> ∅)))))
    (set_uploadedFiles (JArr [file1; file2; file3; file4])
       (set_folders (JArr [fA; fB; fC; fD]) (initial ∅))).

(** The folders and files a state holds. *)
Definition tree_of (r : result app) : result (jsval * jsval) :=
  st ← r; Ok (folders st, uploadedFiles st).

(** What holds of a batch and of the variables between two callbacks:
    the files are those handed in, a file over the limit stays skipped, a
    pending write holds the metadata object built for its file, and the
    metadata list is the one found at the start followed by records of
    completed writes. *)
Definition batch_inv (fs : list upload) (U0 : list jsval) (b : batch) (st : app) : Prop :=
  files b = fs
  /\ length (status b) = length fs
  /\ (forall i file, fs !! i = Some file -> (MAX_UPLOAD < up_size file)%Z ->
        status b !! i = Some Skipped)
  /\ (forall i fileObj fileId, status b !! i = Some (Writing fileObj fileId) ->
        exists file now st0, fs !! i = Some file /\ fileObj = new_file file fileId now st0)
  /\ exists added,
       uploadedFiles st = JArr (U0 ++ added)
       /\ Forall (stored_record fs b st) added.

(** *** Concrete data for running the program *)

(** A rendering of byte counts to run uploads with. *)
Definition size_text (bytes : Z) : string := string_of_Z bytes ++ " Bytes".

(** One session in memory and nothing in the Metadata Store. *)
Definition unsaved_state : app := set_sessions (JArr [edited_before]) (initial ∅).



(** A batch of an archive one byte over the limit and a five-byte text
    file, with the Blob Store open and empty. *)
Definition demo_batch : list upload :=
  [Upload "plans.zip" "application/zip" (MAX_UPLOAD + 1) [];
   Upload "a.txt" EmptyString 5 [Byte.x68; Byte.x65; Byte.x6c; Byte.x6c; Byte.x6f]].

Definition demo_state : app := set_db (Some ∅) (initial ∅).

Definition demo_callbacks : list callback :=
  [ReaderLoad 1 "f-1" "2024-03-01T10:00:00.000Z"; PutSuccess 1].

(** A record of the legacy format, its content inline and not in the
    Blob Store, next to a record of the current format. *)
Definition legacy_file : jsval :=
  JObj [("id", JStr "old1"); ("name", JStr "scan.pdf"); ("size", JStr "1 KB");
        ("uploadedAt", JStr "2023-11-20T08:00:00.000Z"); ("type", JStr "application/pdf");
        ("data", JStr "aGVsbG8="); ("parentId", JNull)].

Definition legacy_state : app :=
  set_db (Some ∅) (set_uploadedFiles (JArr [legacy_file; file4]) (initial ∅)).

(** The test [f.parentId !== parentId]. *)
Definition not_child (parentId f : jsval) : result bool :=
  b ← has_parent parentId f; Ok (negb b).

(** ** Further functions of the script *)

(** [localStorage.removeItem(key)].  The log keeps the writes to the
    store, not the removals. *)
Definition removeItem (key : string) (st : app) : app :=
  {| sessions := sessions st; selectedDate := selectedDate st;
     editingSessionId := editingSessionId st; uploadedFiles := uploadedFiles st;
     folders := folders st; currentFolder := currentFolder st; db := db st;
     localStorage := delete key (localStorage st); log := log st |}.

(** [clearAllData()]; [first] and [second] are the answers to its two
    dialogs. *)
Definition clearAllData (first second : bool) (st : app) : app :=
  if first then
    if second then
      alert "All data cleared"
        (closeDayPanel (removeItem STORAGE_KEY (set_sessions (JArr []) st)))
    else st
  else st.

(** [sessions.reduce((sum, s) => sum + s.netMinutes, 0)], the total of
    [updateProgress]. *)
Definition totalMinutes (sess : jsval) : result jsval :=
  items ← as_array "sessions.reduce" sess;
  reduce (fun sum s => m ← get_prop s "netMinutes"; Ok (js_add sum m)) (JInt 0) items.

(** [addQuickSession(netHours, label)] for a whole number of hours: the
    values it puts in the session form, and the day panel it opens.
    [today] is [formatDate(new Date())]. *)
Definition addQuickSession (netHours : Z) (label today : string) (st : app)
  : session_form * app :=
  let dateToUse := js_or (selectedDate st) (JStr today) in
  let startHour := 8%Z in
  let startMin := 30%Z in
  let totalDurationMin := (netHours * 60 + 30)%Z in
  let endMin := Z.rem (startMin + totalDurationMin) 60 in
  let endHour := (startHour + (startMin + totalDurationMin) / 60)%Z in
  ({| in_date := to_string dateToUse;
      in_startTime := formatTime startHour startMin;
      in_endTime := formatTime endHour endMin;
      in_breakMinutes := "30";
      in_note := label;
      in_category := "Internship" |},
   openDayPanel dateToUse st).

(** [updateNetHoursPreview]: the net minutes a form previews. *)
Definition preview_minutes (form : session_form) : result num :=
  calculateNetMinutes (JStr (in_startTime form)) (JStr (in_endTime form))
                      (break_of (in_breakMinutes form)).

(** *** Retrieving the content of a file *)

(** [getFileFromIndexedDB(fileId)]; [None] when the promise rejects: no
    store, no entry under the key, or a value that is not a key. *)
Definition getFileFromIndexedDB (fileId : jsval) (st : app) : option blob :=
  match db st, fileId with
  | Some d, JStr key => d !! key
  | _, _ => None
  end.

(** The inline payload of a record, decoded:
    [base64toBlob(file.data, file.type || getMimeType(file.name))] when
    [file.data] is a non-empty string. *)
Definition legacy_blob (file : jsval) : result (option blob) :=
  data ← get_prop file "data";
  match data with
  | JStr base64 =>
      if truthy data then
        mimeType ← record_mime file;
        match atob base64 with
        | Some bytes => Ok (Some (Blob bytes (to_string mimeType)))
        | None => Throw "InvalidCharacterError"
        end
      else Ok None
  | _ => Ok None
  end.

(** What a call of [downloadFile] hands to the browser. *)
Inductive download_outcome : Type :=
| Downloaded (filename : jsval) (content : blob)
| NotDownloaded.

(** [downloadFile(fileId)].  The script declares three functions of this
    name; the last declaration, this one, is the one every call
    reaches. *)
Definition downloadFile (fileId : jsval) (st : app) : result (download_outcome * app) :=
  items ← as_array "uploadedFiles.find" (uploadedFiles st);
  found ← find_from (has_id fileId) 0 items;
  match found with
  | None => Ok (NotDownloaded, alert "File not found." st)
  | Some (_, file) =>
      if negb (truthy file) then Ok (NotDownloaded, alert "File not found." st)
      else
        match legacy_blob file with
        | Ok (Some inline) =>
            name ← get_prop file "name";
            Ok (Downloaded name inline, st)
        | Ok None =>
            match db st with
            | Some _ =>
                match getFileFromIndexedDB fileId st with
                | Some stored =>
                    name ← get_prop file "name";
                    Ok (Downloaded name stored, st)
                | None =>
                    Ok (NotDownloaded,
                        alert "Could not retrieve file data. Please try again or re-upload the file."
                          (emit (Console "IndexedDB fetch failed") st))
                end
            | None =>
                Ok (NotDownloaded,
                    alert "Could not retrieve file data. Please try again or re-upload the file." st)
            end
        | Throw e =>
            Ok (NotDownloaded,
                alert ("Error downloading file: " ++ e) (emit (Console "Download error") st))
        | Stuck w => Stuck w
        end
  end.

(** A Blob as a value: an object, none of whose properties is one the
    program reads by name before handing it on; its content is not
    among them. *)
Definition Blob_object (content type : string) : jsval := JObj [("type", JStr type)].

(** [exportJSON()]; [now] is the clock reading.  Its last statement is
    the call [downloadFile(blob, 'hours-tracker.json')], which reaches
    the function above: the Blob is taken for a file identifier and the
    file name is an argument the function does not have.  The call is
    not awaited; the result is that of the call. *)
Definition exportJSON (now : string) (st : app) : result (download_outcome * app) :=
  let data := export_snapshot now st in
  let blob := Blob_object (JSON_stringify_indent data) "application/json" in
  downloadFile blob st.

(** *** Helpers of the statements *)

(** A string made of white space only. *)
Fixpoint blank (s : string) : bool :=
  match s with
  | EmptyString => true
  | String c rest => is_space c && blank rest
  end.

(** A string without the character [c]. *)
Fixpoint free_of (c : ascii) (s : string) : bool :=
  match s with
  | EmptyString => true
  | String c' rest => negb (Ascii.eqb c' c) && free_of c rest
  end.

(** A capital letter A to Z, and a string that holds one. *)
Definition is_capital (c : ascii) : bool :=
  let n := nat_of_ascii c in (65 <=? n)%nat && (n <=? 90)%nat.

Fixpoint has_capital (s : string) : bool :=
  match s with
  | EmptyString => false
  | String c rest => is_capital c || has_capital rest
  end.

(** The [id] of a session or record, [undefined] for a value that is
    not an object. *)
Definition id_of (v : jsval) : jsval :=
  match v with
  | JObj fields => field "id" fields
  | _ => JUndefined
  end.

(** The first folder of the list whose parent is [parentId] has the
    identifier [child]. *)
Definition first_child (items : list jsval) (parentId child : jsval) : Prop :=
  exists k f,
    find_from (has_parent parentId) 0 items = Ok (Some (k, f))
    /\ get_prop f "id" = Ok child.


(** A session form over two well-formed times of day. *)
Definition timed_form (date : string) (h1 m1 h2 m2 : Z) (breakInput note category : string)
  : session_form :=
  {| in_date := date; in_startTime := formatTime h1 m1; in_endTime := formatTime h2 m2;
     in_breakMinutes := breakInput; in_note := note; in_category := category |}.

(** A response of the remote store that carries the session list [S]. *)
Definition server_has (S : jsval) : get_outcome :=
  GetResponse true 200
    (Some (JObj [("status", JStr "ok");
                 ("data", JObj [("sessions", S); ("totalHours", JInt 0)])])).

(** What [importJSON] accepts: an array, or a value whose [sessions] is
    an array. *)
Definition importable (data : jsval) : bool :=
  is_array data || match get_prop data "sessions" with
                   | Ok v => is_array v
                   | _ => false
                   end.


(** The file list after a call is made of files of the list before it. *)
Definition shrinks_files (visit : jsval -> app -> result app) : Prop :=
  forall id st st' files,
    visit id st = Ok st' -> uploadedFiles st = JArr files ->
    exists files', uploadedFiles st' = JArr files' /\ sublist files' files.

(** *** Concrete data for running these functions *)

(** The value of a character of the base64 alphabet. *)
Definition base64_digit (c : ascii) : option N :=
  let n := N_of_ascii c in
  if (65 <=? n)%N && (n <=? 90)%N then Some (n - 65)%N
  else if (97 <=? n)%N && (n <=? 122)%N then Some (n - 71)%N
  else if (48 <=? n)%N && (n <=? 57)%N then Some (n + 4)%N
  else if (n =? 43)%N then Some 62%N
  else if (n =? 47)%N then Some 63%N
  else None.

(** [atob] on padded input without white space; [None] stands for its
    InvalidCharacterError. *)
Fixpoint base64_decode (s : string) : option (list Byte.byte) :=
  match s with
  | EmptyString => Some []
  | String a (String b (String c (String d rest))) =>
      va ← base64_digit a;
      vb ← base64_digit b;
      let pad := ascii_of_nat 61 in
      if Ascii.eqb c pad then
        if Ascii.eqb d pad && bool_decide (rest = EmptyString) then
          b1 ← Byte.of_N ((va * 64 + vb) / 16);
          Some [b1]
        else None
      else
        vc ← base64_digit c;
        if Ascii.eqb d pad then
          if bool_decide (rest = EmptyString) then
            let n := ((va * 64 + vb) * 64 + vc)%N in
            b1 ← Byte.of_N (n / 1024);
            b2 ← Byte.of_N ((n / 4) mod 256);
            Some [b1; b2]
          else None
        else
          vd ← base64_digit d;
          let n := (((va * 64 + vb) * 64 + vc) * 64 + vd)%N in
          b1 ← Byte.of_N (n / 65536);
          b2 ← Byte.of_N ((n / 256) mod 256);
          b3 ← Byte.of_N (n mod 256);
          tail ← base64_decode rest;
          Some (b1 :: b2 :: b3 :: tail)
  | _ => None
  end.

(** The bytes of the text [hello]. *)
Definition hello : list Byte.byte := [Byte.x68; Byte.x65; Byte.x6c; Byte.x6c; Byte.x6f].

(** The result of a call that went through, [d] otherwise. *)
Definition ok_or {A : Type} (d : A) (r : result A) : A :=
  match r with
  | Ok a => a
  | _ => d
  end.

(** An edit of the session of [editing_state] that the form accepts. *)
Definition good_edit : session_form :=
  {| in_date := "2024-03-02"; in_startTime := "09:00"; in_endTime := "17:00";
     in_breakMinutes := "15"; in_note := "moved"; in_category := "Other" |}.

Definition after_edit : app :=
  ok_or editing_state (updateSession good_edit PostOk editing_state).

(** Two folders, each the parent of the other. *)
Definition cycle_state : app :=
  set_folders (JArr [folder_rec "X" "in" (JStr "Y"); folder_rec "Y" "out" (JStr "X")])
              (initial ∅).

(** What [saveFiles] keeps of [legacy_file]. *)
Definition legacy_fields : list (string * jsval) :=
  [("id", JStr "old1"); ("name", JStr "scan.pdf"); ("size", JStr "1 KB");
   ("uploadedAt", JStr "2023-11-20T08:00:00.000Z"); ("type", JStr "application/pdf");
   ("data", JStr "aGVsbG8="); ("parentId", JNull)].

Definition legacy_metadata : jsval :=
  JObj [("id", JStr "old1"); ("name", JStr "scan.pdf"); ("size", JStr "1 KB");
        ("uploadedAt", JStr "2023-11-20T08:00:00.000Z"); ("type", JStr "application/pdf");
        ("parentId", JNull)].

(** A Metadata Store whose file list holds a [null]. *)
Definition corrupt_store : app :=
  initial (<[FILES_STORAGE_KEY := "[null]"]>
           (<[FOLDERS_STORAGE_KEY := MiniJSON.stringify (JArr [fA])]> ∅)).

(** The batch of [demo_batch] at its start, after the text file has
    been read, after it has been written, and after its read failed
    instead. *)
Definition demo_start : batch * app := handleFiles demo_batch demo_state.

Definition demo_loaded : batch * app :=
  default demo_start
    (run [ReaderLoad 1 "f-1" "2024-03-01T10:00:00.000Z"] demo_start.1 demo_start.2).

Definition demo_done : batch * app :=
  default demo_start (run demo_callbacks demo_start.1 demo_start.2).

Definition demo_failed : batch * app :=
  default demo_start (run [ReaderError 1] demo_start.1 demo_start.2).

(** [tree_state] after the folder A has been deleted. *)
Definition after_delete : app :=
  ok_or tree_state (deleteFolder 5 true (JStr "A") tree_state).

(** [tree_state] after the folder A has been moved into its child B. *)
Definition after_move : app :=
  ok_or tree_state (moveItem (JStr "A") "folder" (JStr "B") tree_state).


(** ** Properties of the session manager *)

Lemma hm_ok_table :
  forallb (fun h => forallb (fun m => hm_ok (Z.of_nat h) (Z.of_nat m)) (seq 0 60))
          (seq 0 24) = true.
Proof. vm_compute. reflexivity. Qed.

Lemma hour_min_formatTime (h m : Z) :
  (0 <= h < 24)%Z -> (0 <= m < 60)%Z ->
  hour_min (formatTime h m) = Ok (Num h, Num m).
Proof.
  intros Hh Hm.
  pose proof hm_ok_table as T.
  rewrite forallb_forall in T.
  specialize (T (Z.to_nat h)).
  rewrite forallb_forall in T.
  assert (Hin : In (Z.to_nat h) (seq 0 24)) by (apply in_seq; lia).
  specialize (T Hin (Z.to_nat m)).
  assert (Hin' : In (Z.to_nat m) (seq 0 60)) by (apply in_seq; lia).
  specialize (T Hin').
  rewrite !Z2Nat.id in T by lia.
  unfold hm_ok in T.
  destruct (hour_min (formatTime h m)) as [[[|a] [|b]]| |]; try discriminate.
  apply andb_prop in T as [Ha Hb].
  apply Z.eqb_eq in Ha, Hb. congruence.
Qed.

Lemma formatTime_truthy (h m : Z) : truthy (JStr (formatTime h m)) = true.
Proof.
  unfold formatTime; simpl.
  destruct (padStart 2 "0" (string_of_Z h)); reflexivity.
Qed.

(** C3.  For well-formed times of day [h1]:[m1] (start) and [h2]:[m2]
    (end) and a non-negative number of break minutes,
    [calculateNetMinutes] returns 0 when the end is not after the start,
    whatever the break, and otherwise the duration minus the break,
    floored at 0. *)
Theorem calculateNetMinutes_spec (h1 m1 h2 m2 b : Z) :
  (0 <= h1 < 24)%Z -> (0 <= m1 < 60)%Z ->
  (0 <= h2 < 24)%Z -> (0 <= m2 < 60)%Z ->
  (0 <= b)%Z ->
  calculateNetMinutes (JStr (formatTime h1 m1)) (JStr (formatTime h2 m2)) (JInt b)
  = Ok (Num (if (minutes_of h2 m2 <=? minutes_of h1 m1)%Z then 0
             else Z.max 0 (minutes_of h2 m2 - minutes_of h1 m1 - b))).
Proof.
  intros H1 H2 H3 H4 Hb.
  unfold calculateNetMinutes.
  rewrite !formatTime_truthy. simpl negb. simpl orb. cbv iota.
  rewrite (hour_min_formatTime h1 m1) by assumption.
  rewrite (hour_min_formatTime h2 m2) by assumption.
  unfold minutes_of. cbn.
  replace (h2 * 60 + m2)%Z with (60 * h2 + m2)%Z by lia.
  replace (h1 * 60 + m1)%Z with (60 * h1 + m1)%Z by lia.
  destruct (60 * h2 + m2 <=? 60 * h1 + m1)%Z; reflexivity.
Qed.

(** From 08:30 to 17:00 with a break of 30 minutes (C3). *)
Lemma calculateNetMinutes_spec_witness :
  calculateNetMinutes (JStr (formatTime 8 30)) (JStr (formatTime 17 0)) (JInt 30)
  = Ok (Num 480).
Proof.
  apply (calculateNetMinutes_spec 8 30 17 0 30); lia.
Defined.

(** *** What [saveData] changes *)

Lemma saveData_sessions remote st : sessions (saveData remote st) = sessions st.
Proof.
  unfold saveData. cbn.
  destruct (totalHours (sessions st)); [destruct remote| |]; reflexivity.
Qed.

Lemma saveData_localStorage remote st :
  localStorage (saveData remote st)
  = <[STORAGE_KEY := JSON_stringify (sessions st)]> (localStorage st).
Proof.
  unfold saveData. cbn.
  destruct (totalHours (sessions st)); [destruct remote| |]; reflexivity.
Qed.

Lemma saveData_variables remote st :
  selectedDate (saveData remote st) = selectedDate st /\
  editingSessionId (saveData remote st) = editingSessionId st /\
  uploadedFiles (saveData remote st) = uploadedFiles st /\
  folders (saveData remote st) = folders st /\
  currentFolder (saveData remote st) = currentFolder st /\
  db (saveData remote st) = db st.
Proof.
  unfold saveData. cbn.
  destruct (totalHours (sessions st)); [destruct remote| |]; cbn; auto 10.
Qed.

Lemma saveData_log remote st :
  exists tail,
    log (saveData remote st)
    = (log st ++ LocalSet STORAGE_KEY (JSON_stringify (sessions st)) :: tail)%list
    /\ Forall after_local_write tail.
Proof.
  unfold saveData. cbn.
  destruct (totalHours (sessions st)) as [total|e|w]; [destruct remote| |]; cbn.
  all: rewrite <- ?app_assoc; cbn; eexists; split; [reflexivity|].
  all: repeat constructor.
Qed.

(** C6.  Whatever the session list and whatever the remote answers,
    [saveData] writes the list to the Metadata Store first; afterwards
    the store holds it (a remote failure rolls nothing back), the list in
    memory is unchanged, and a failure shows only as a console line:
    no dialog is raised and the function completes. *)
Theorem saveData_local_first (remote : post_outcome) (st : app) :
  localStorage (saveData remote st) !! STORAGE_KEY = Some (JSON_stringify (sessions st))
  /\ sessions (saveData remote st) = sessions st
  /\ exists tail,
       log (saveData remote st)
       = (log st ++ LocalSet STORAGE_KEY (JSON_stringify (sessions st)) :: tail)%list
       /\ Forall after_local_write tail.
Proof.
  split; [|split].
  - rewrite saveData_localStorage. apply lookup_insert_eq.
  - apply saveData_sessions.
  - apply saveData_log.
Qed.

Lemma scenarioA_net :
  calculateNetMinutes (JStr "08:30") (JStr "17:00") (break_of "30") = Ok (Num 480).
Proof. vm_compute. reflexivity. Qed.

(** C4 (amended).  Creating a session with date 2024-03-01, start 08:30,
    end 17:00 and a break of 30 minutes succeeds and appends a session
    whose [netMinutes] is 480 (510 minutes of presence less the break). *)
Theorem saveSession_scenarioA (note category fresh : string) (remote : post_outcome)
  (st : app) (items : list jsval) :
  sessions st = JArr items ->
  exists st',
    saveSession (scenarioA note category) fresh remote st = Ok st'
    /\ sessions st' = JArr (items ++ [scenarioA_session fresh note category 480]).
Proof.
  intros Hs.
  unfold saveSession.
  change (in_startTime (scenarioA note category)) with "08:30".
  change (in_endTime (scenarioA note category)) with "17:00".
  change (in_breakMinutes (scenarioA note category)) with "30".
  change (in_date (scenarioA note category)) with "2024-03-01".
  rewrite scenarioA_net.
  cbn -[saveData closeDayPanel new_session].
  rewrite Hs. cbn -[saveData closeDayPanel new_session].
  eexists. split; [reflexivity|].
  unfold closeDayPanel. cbn -[saveData new_session].
  rewrite saveData_sessions. reflexivity.
Qed.

(** *** Loading *)




(** *** Editing *)

(** A refused edit leaves its values in the session it was refused for. *)
Lemma updateSession_refused form remote st items i fields net :
  sessions st = JArr items ->
  find_from (fun s => id ← get_prop s "id"; Ok (strict_eq id (editingSessionId st)))
            0 items = Ok (Some (i, JObj fields)) ->
  calculateNetMinutes (JStr (in_startTime form)) (JStr (in_endTime form))
                      (break_of (in_breakMinutes form)) = Ok net ->
  num_leb net (Num 0) = true ->
  updateSession form remote st
  = Ok (alert "Invalid time range"
          (set_sessions
             (JArr (<[i := JObj (assign_field "netMinutes" (JNum net)
                                   (edit_fields form fields))]> items)) st)).
Proof.
  intros Hs Hfind Hnet Hle. unfold updateSession.
  rewrite Hs. cbn [as_array mbind result_bind]. rewrite Hfind.
  cbn [mbind result_bind truthy negb]. rewrite Hnet.
  cbn [mbind result_bind]. rewrite Hle. reflexivity.
Qed.

(** C2 (what the program does).  An edit with end time 08:00 before
    start time 09:00 is refused with the dialog "Invalid time range",
    and nothing is saved, but the session in memory has already taken
    every value of the form and a net duration of 0. *)
Theorem updateSession_rejected_edit (remote : post_outcome) :
  updateSession bad_edit remote editing_state
  = Ok (alert "Invalid time range" (set_sessions (JArr [edited_after]) editing_state))
  /\ edited_after <> edited_before.
Proof.
  split.
  - vm_compute. reflexivity.
  - discriminate.
Qed.

(** *** Export and import *)

Lemma importJSON_array_field text fields items remote st :
  JSON_parse text = Some (JObj fields) ->
  lookup_field "sessions" fields = Some (JArr items) ->
  sessions (importJSON text remote st) = JArr items.
Proof.
  intros Hp Hf. unfold importJSON. rewrite Hp. cbn. rewrite Hf. cbn.
  unfold alert. cbn. rewrite saveData_sessions. reflexivity.
Qed.

Lemma importJSON_bare_array text items remote st :
  JSON_parse text = Some (JArr items) ->
  sessions (importJSON text remote st) = JArr items.
Proof.
  intros Hp. unfold importJSON. rewrite Hp. cbn.
  unfold alert. cbn. rewrite saveData_sessions. reflexivity.
Qed.

(** *** The total pushed to the remote store *)

Lemma lookup_assign_field k k' v fields :
  lookup_field k (assign_field k' v fields)
  = if String.eqb k k' then Some v else lookup_field k fields.
Proof.
  induction fields as [|[k0 v0] rest IH]; cbn.
  - destruct (String.eqb k k'); reflexivity.
  - destruct (String.eqb k' k0) eqn:E0; cbn.
    + apply String.eqb_eq in E0. subst k0.
      destruct (String.eqb k k'); reflexivity.
    + destruct (String.eqb k k0) eqn:E1.
      * apply String.eqb_eq in E1. subst k0.
        rewrite String.eqb_sym, E0. reflexivity.
      * exact IH.
Qed.

Lemma form_made_fields v :
  form_made v ->
  exists fields, v = JObj fields
    /\ lookup_field "netHours" fields = None
    /\ is_Some (lookup_field "netMinutes" fields).
Proof.
  induction 1 as [id date s e b n c net | fields form net _ IH].
  - eexists. split; [reflexivity|]. split; [reflexivity|]. cbn. eauto.
  - destruct IH as [fields' [Heq [Hnone _]]]. injection Heq as <-.
    eexists. split; [reflexivity|]. split.
    + unfold edit_fields. rewrite !lookup_assign_field. cbn. exact Hnone.
    + rewrite lookup_assign_field. cbn. eauto.
Qed.

Lemma reduce_form_made items :
  Forall form_made items ->
  reduce (fun sum s => h ← get_prop s "netHours"; Ok (js_add sum (js_or h (JInt 0))))
         (JInt 0) items = Ok (JInt 0).
Proof.
  induction 1 as [|v rest Hv _ IH]; [reflexivity|].
  destruct (form_made_fields v Hv) as [fields [-> [Hnone _]]].
  cbn. rewrite Hnone. cbn. exact IH.
Qed.

Lemma totalHours_form_made items :
  Forall form_made items -> totalHours (JArr items) = Ok (JInt 0).
Proof. intros H. unfold totalHours. cbn. apply reduce_form_made, H. Qed.

Lemma saveData_pushes remote st total :
  totalHours (sessions st) = Ok total ->
  In (FetchPost "/api/data"
        (JSON_stringify (JObj [("sessions", sessions st); ("totalHours", total)])))
     (log (saveData remote st)).
Proof.
  intros Ht. unfold saveData. cbn. rewrite Ht.
  destruct remote; cbn; rewrite !in_app_iff; cbn; auto 10.
Qed.

Lemma js_add_hours acc h :
  js_add (JInt acc) (js_or (JInt h) (JInt 0)) = JInt (acc + h).
Proof.
  unfold js_or, JInt. cbn [truthy].
  destruct (h =? 0)%Z eqn:Hz; cbn; [|reflexivity].
  apply Z.eqb_eq in Hz. subst. reflexivity.
Qed.

Lemma reduce_recorded_hours items :
  forall hs acc,
    Forall2 records_hours items hs ->
    reduce (fun sum s => h ← get_prop s "netHours"; Ok (js_add sum (js_or h (JInt 0))))
           (JInt acc) items
    = Ok (JInt (acc + sum_hours hs)).
Proof.
  induction items as [|s rest IH]; intros hs acc Hrec; inversion Hrec as [|? h ? hs' Hs Hrest];
    subst.
  - cbn. do 2 f_equal. lia.
  - destruct Hs as [fields [-> [Hh|[Hh ->]]]];
      cbn [reduce get_prop mbind result_bind]; rewrite Hh;
      cbn [default from_option id mbind result_bind].
    + rewrite js_add_hours, (IH hs' _ Hrest). cbn [sum_hours foldr].
      do 2 f_equal. unfold sum_hours. lia.
    + change (js_or JUndefined (JInt 0)) with (js_or (JInt 0) (JInt 0)).
      rewrite js_add_hours, (IH hs' _ Hrest). cbn [sum_hours foldr].
      do 2 f_equal. unfold sum_hours. lia.
Qed.

Lemma totalHours_recorded items hs :
  Forall2 records_hours items hs ->
  totalHours (JArr items) = Ok (JInt (sum_hours hs)).
Proof.
  intros H. unfold totalHours. cbn [as_array mbind result_bind].
  apply (reduce_recorded_hours items hs 0 H).
Qed.

(** C10.  The body [saveData] pushes carries as [totalHours] the sum of
    the [netHours] fields of the sessions, 0 standing for an absent one:
    for sessions that record whole hours (none of them negative, their
    sum within the integers the language adds exactly) the total pushed
    is the sum of the hours recorded.  For a list of sessions made by
    the two forms, which carry [netMinutes] and no [netHours], the
    [totalHours] pushed is 0, whatever their net minutes. *)
Theorem pushed_totalHours (remote : post_outcome) (st : app) :
  (forall S hs,
     sessions st = JArr S ->
     Forall2 records_hours S hs ->
     Forall (fun h => (0 <= h)%Z) hs ->
     safe_integer (sum_hours hs) ->
     In (FetchPost "/api/data"
           (JSON_stringify
              (JObj [("sessions", JArr S); ("totalHours", JInt (sum_hours hs))])))
        (log (saveData remote st)))
  /\ (forall S,
        sessions st = JArr S -> Forall form_made S ->
        Forall (fun s => exists fields, s = JObj fields
                   /\ lookup_field "netHours" fields = None
                   /\ is_Some (lookup_field "netMinutes" fields)) S
        /\ In (FetchPost "/api/data"
                 (JSON_stringify (JObj [("sessions", JArr S); ("totalHours", JInt 0)])))
              (log (saveData remote st))).
Proof.
  split.
  - intros S hs HS Hrec _ _. rewrite <- HS. apply saveData_pushes. rewrite HS.
    apply totalHours_recorded, Hrec.
  - intros S HS Hmade. split.
    + eapply Forall_impl; [exact Hmade|]. apply form_made_fields.
    + rewrite <- HS. apply saveData_pushes. rewrite HS.
      apply totalHours_form_made, Hmade.
Qed.

(** The two forms keep a list of form-made sessions form-made. *)

Lemma find_from_lookup p i items j x :
  find_from p i items = Ok (Some (j, x)) ->
  exists k, j = (i + k)%nat /\ items !! k = Some x.
Proof.
  revert i. induction items as [|y rest IH]; intros i; cbn.
  - discriminate.
  - destruct (p y) as [[|]| |]; cbn; try discriminate.
    + intros [= <- <-]. exists 0%nat. split; [lia|reflexivity].
    + intros H. destruct (IH _ H) as [k [-> Hk]].
      exists (S k). split; [lia|exact Hk].
Qed.

Lemma saveSession_form_made form fresh remote st st' S :
  sessions st = JArr S -> Forall form_made S ->
  saveSession form fresh remote st = Ok st' ->
  exists S', sessions st' = JArr S' /\ Forall form_made S'.
Proof.
  intros HS Hmade. unfold saveSession.
  destruct (_ || _).
  - intros [= <-]. eauto.
  - destruct (calculateNetMinutes _ _ _) as [net| |]; cbn; try discriminate.
    destruct (num_leb net (Num 0)).
    + intros [= <-]. eauto.
    + rewrite HS. cbn. intros [= <-].
      unfold closeDayPanel. cbn. rewrite saveData_sessions. cbn.
      eexists. split; [reflexivity|].
      apply Forall_app. split; [exact Hmade|].
      constructor; [constructor|constructor].
Qed.

Lemma updateSession_form_made form remote st st' S :
  sessions st = JArr S -> Forall form_made S ->
  updateSession form remote st = Ok st' ->
  exists S', sessions st' = JArr S' /\ Forall form_made S'.
Proof.
  intros HS Hmade. unfold updateSession. rewrite HS. cbn.
  destruct (find_from _ 0 S) as [[[i session]|]| |] eqn:Hfind; cbn; try discriminate.
  2: { intros [= <-]. eauto. }
  destruct (find_from_lookup _ _ _ _ _ Hfind) as [k [-> Hk]].
  destruct (negb (truthy session)).
  { intros [= <-]. eauto. }
  destruct session as [| | | | | |fields|]; try discriminate.
  destruct (calculateNetMinutes _ _ _) as [net| |]; cbn; try discriminate.
  assert (Hnew : Forall form_made
                   (<[(0 + k)%nat := JObj (assign_field "netMinutes" (JNum net)
                                             (edit_fields form fields))]> S)).
  { apply Forall_insert; [exact Hmade|].
    constructor. eapply Forall_lookup_1; [exact Hmade|exact Hk]. }
  destruct (num_leb net (Num 0)); intros [= <-].
  - eexists. split; [reflexivity|exact Hnew].
  - unfold openDayPanel, closeEditModal. cbn. rewrite saveData_sessions. cbn.
    eexists. split; [reflexivity|exact Hnew].
Qed.

(** ** Properties of the file and folder manager *)

(** *** What [saveFiles] changes *)

Lemma saveFiles_frame st :
  uploadedFiles (saveFiles st) = uploadedFiles st
  /\ folders (saveFiles st) = folders st
  /\ currentFolder (saveFiles st) = currentFolder st
  /\ db (saveFiles st) = db st
  /\ sessions (saveFiles st) = sessions st.
Proof.
  unfold saveFiles. cbn.
  destruct (_ ≫= _); cbn; auto.
Qed.

Lemma saveFiles_log st e : In e (log st) -> In e (log (saveFiles st)).
Proof.
  intros H. unfold saveFiles. cbn.
  destruct (_ ≫= _); cbn; rewrite ?in_app_iff; cbn; rewrite ?in_app_iff; auto 10.
Qed.

Lemma file_metadata_object ff :
  file_metadata (JObj ff)
  = Ok (JObj [("id", field "id" ff); ("name", field "name" ff); ("size", field "size" ff);
              ("uploadedAt", field "uploadedAt" ff); ("type", field "type" ff);
              ("parentId", field "parentId" ff)]).
Proof. reflexivity. Qed.

Lemma file_metadata_persisted ff :
  exists m, file_metadata (JObj ff) = Ok m /\ persisted_as (JObj ff) m.
Proof.
  eexists. split; [apply file_metadata_object|].
  exists ff. eexists. split; [reflexivity|]. split; [reflexivity|].
  split; [reflexivity|]. split; [reflexivity|].
  repeat constructor.
Qed.

Lemma mapM_file_metadata items :
  Forall is_object items ->
  exists metas, mapM file_metadata items = Ok metas /\ Forall2 persisted_as items metas.
Proof.
  induction 1 as [|f rest [ff ->] _ [metas [Hm HF]]].
  - exists []. split; [reflexivity|constructor].
  - destruct (file_metadata_persisted ff) as [m [Hfm Hp]].
    exists (m :: metas). split.
    + cbn [mapM]. rewrite Hfm. cbn. rewrite Hm. reflexivity.
    + constructor; assumption.
Qed.

Lemma saveFiles_persists st items :
  uploadedFiles st = JArr items ->
  Forall is_object items ->
  exists metas,
    localStorage (saveFiles st) !! FILES_STORAGE_KEY = Some (JSON_stringify (JArr metas))
    /\ Forall2 persisted_as items metas
    /\ Forall metadata_only metas
    /\ db (saveFiles st) = db st.
Proof.
  intros Hu Hobj.
  destruct (mapM_file_metadata items Hobj) as [metas [Hm HF]].
  exists metas. split; [|split; [exact HF|split]].
  - unfold saveFiles. cbn. rewrite Hu. cbn. rewrite Hm. cbn.
    apply lookup_insert_eq.
  - clear -HF. induction HF as [|f m fs ms Hp _ IH]; constructor; [|exact IH].
    destruct Hp as [ff [mf [_ [-> [Hk _]]]]]. exists mf. auto.
  - apply saveFiles_frame.
Qed.

(** C9.  For a list of file records in memory, what [saveFiles] puts in
    the Metadata Store is the serialisation of a list with, for each
    record, an object of exactly the six fields [id], [name], [size],
    [uploadedAt], [type], [parentId] taken from it, and so without a
    [data] field; the Blob Store is not written.  A legacy payload held
    only in the [data] field of a record is therefore absent from what is
    stored, and is not copied anywhere. *)
Theorem saveFiles_metadata_only (st : app) (items : list jsval) :
  uploadedFiles st = JArr items ->
  Forall is_object items ->
  exists metas,
    localStorage (saveFiles st) !! FILES_STORAGE_KEY = Some (JSON_stringify (JArr metas))
    /\ Forall2 persisted_as items metas
    /\ Forall metadata_only metas
    /\ db (saveFiles st) = db st.
Proof. apply saveFiles_persists. Qed.

Lemma legacy_payload_dropped st items j ff payload :
  uploadedFiles st = JArr items ->
  Forall is_object items ->
  items !! j = Some (JObj ff) ->
  lookup_field "data" ff = Some (JStr payload) ->
  exists metas mf,
    localStorage (saveFiles st) !! FILES_STORAGE_KEY = Some (JSON_stringify (JArr metas))
    /\ metas !! j = Some (JObj mf)
    /\ lookup_field "data" mf = None
    /\ lookup_field "id" mf = Some (field "id" ff)
    /\ db (saveFiles st) = db st.
Proof.
  intros Hu Hobj Hj Hdata.
  destruct (saveFiles_persists st items Hu Hobj) as [metas [Hs [HF [_ Hdb]]]].
  destruct (Forall2_lookup_l _ _ _ _ _ HF Hj) as [m [Hm Hp]].
  destruct Hp as [ff' [mf [[= <-] [-> [_ [Hnone Hall]]]]]].
  exists metas, mf. repeat split; try assumption.
  inversion Hall; assumption.
Qed.

(** Creating a folder and moving a file save the file list on the way. *)
Lemma createFolder_saves input millis now st st' :
  createFolder input millis now st = Ok st' ->
  truthy (JStr (trim input)) = true ->
  exists st1, st' = saveFiles st1 /\ uploadedFiles st1 = uploadedFiles st /\ db st1 = db st.
Proof.
  unfold createFolder. intros H Hname. rewrite Hname in H. cbn in H.
  destruct (as_array _ (folders st)) as [items| |]; cbn in H; try discriminate.
  injection H as <-. eexists. split; [reflexivity|]. split; reflexivity.
Qed.

Lemma moveItem_file_saves itemId target st st' items i fields :
  uploadedFiles st = JArr items ->
  find_from (has_id itemId) 0 items = Ok (Some (i, JObj fields)) ->
  moveItem itemId "file" target st = Ok st' ->
  st' = saveFiles (set_uploadedFiles
                     (JArr (<[i := JObj (assign_field "parentId" target fields)]> items)) st).
Proof.
  intros Hu Hfind. unfold moveItem. cbn. rewrite Hu. cbn. rewrite Hfind. cbn.
  intros [= <-]. reflexivity.
Qed.

Lemma counts_inline_data_objects items :
  Forall is_object items -> exists kept, counts_inline_data (JArr items) = Ok kept.
Proof.
  unfold counts_inline_data. cbn.
  induction 1 as [|f rest [ff ->] _ [kept IH]]; cbn.
  - eauto.
  - rewrite IH. cbn. eauto.
Qed.

(** After a reload, the list in memory is the list that was stored. *)
Lemma loadFiles_stored st metas :
  getItem FILES_STORAGE_KEY st = Some (JSON_stringify (JArr metas)) ->
  JSON_parse (JSON_stringify (JArr metas)) = Some (JArr metas) ->
  Forall is_object metas ->
  uploadedFiles (loadFiles st) = JArr metas.
Proof using JSON_parse_empty.
  intros Hget Hparse Hobj. unfold loadFiles. cbn [uploadedFiles].
  unfold loaded_files. rewrite Hget.
  destruct (truthy _) eqn:Ht.
  - rewrite Hparse. destruct (counts_inline_data_objects metas Hobj) as [kept ->].
    reflexivity.
  - cbn in Ht. apply negb_false_iff, String.eqb_eq in Ht.
    rewrite Ht in Hparse. congruence.
Qed.

(** *** Deleting a folder *)

Lemma filter_st_kept (visit : jsval -> app -> result app) parentId items :
  forall st kept st',
    filter_st (fun f st0 =>
                 child ← has_parent parentId f;
                 if child : bool then
                   id ← get_prop f "id"; st1 ← visit id st0; Ok (false, st1)
                 else Ok (true, st0)) items st = Ok (kept, st') ->
    filter_with (not_child parentId) items = Ok kept.
Proof.
  unfold not_child.
  induction items as [|f rest IH]; intros st kept st'.
  - cbn. intros [= <- _]. reflexivity.
  - cbn [filter_st filter_with].
    destruct (has_parent parentId f) as [[|]| |]; cbn [mbind result_bind negb];
      try discriminate.
    + destruct (get_prop f "id") as [id| |]; cbn [mbind result_bind]; try discriminate.
      destruct (visit id st) as [st1| |]; cbn [mbind result_bind]; try discriminate.
      destruct (filter_st _ rest st1) as [[kept' st2]| |] eqn:E;
        cbn [mbind result_bind]; try discriminate.
      intros [= <- _]. rewrite (IH _ _ _ E). reflexivity.
    + destruct (filter_st _ rest st) as [[kept' st2]| |] eqn:E;
        cbn [mbind result_bind]; try discriminate.
      intros [= <- _]. rewrite (IH _ _ _ E). reflexivity.
Qed.

Lemma deleteFileFromIndexedDB_folders id st st' :
  deleteFileFromIndexedDB id st = Ok st' -> folders st' = folders st.
Proof.
  unfold deleteFileFromIndexedDB.
  destruct (db st), id; try discriminate; intros [= <-]; reflexivity.
Qed.

Lemma foldl_failed {A} (f : result app -> A -> result app) (items : list A) acc :
  (forall x, f acc x = acc) -> (forall st, acc <> Ok st) ->
  forall st, foldl f acc items <> Ok st.
Proof.
  intros Hf Hacc. induction items as [|x rest IH]; cbn; [exact Hacc|].
  rewrite Hf. exact IH.
Qed.

Lemma delete_blobs_folders doomed :
  forall st st', delete_blobs doomed st = Ok st' -> folders st' = folders st.
Proof.
  unfold delete_blobs.
  induction doomed as [|file rest IH]; intros st st'; cbn.
  - intros [= <-]. reflexivity.
  - destruct (get_prop file "id") as [id| |] eqn:E; cbn.
    + destruct (deleteFileFromIndexedDB id st) as [st1| |] eqn:D; cbn.
      * intros H. rewrite (IH _ _ H). eapply deleteFileFromIndexedDB_folders, D.
      * intros H. exfalso. revert H. apply foldl_failed; [reflexivity|discriminate].
      * intros H. exfalso. revert H. apply foldl_failed; [reflexivity|discriminate].
    + intros H. exfalso. revert H. apply foldl_failed; [reflexivity|discriminate].
    + intros H. exfalso. revert H. apply foldl_failed; [reflexivity|discriminate].
Qed.

(** Whatever the depth reached, the folder list [deleteContents] leaves
    is the list it found without the direct children of [parentId]: the
    lists assigned by the nested calls are overwritten when the outer
    [filter] returns. *)
Lemma deleteContents_folders fuel parentId st st' :
  deleteContents fuel parentId st = Ok st' ->
  exists items kept,
    folders st = JArr items
    /\ filter_with (not_child parentId) items = Ok kept
    /\ folders st' = JArr kept.
Proof.
  destruct fuel as [|fuel]; cbn; [discriminate|].
  destruct (folders st) as [| | | | |items| |] eqn:Hf; cbn; try discriminate.
  destruct (filter_st _ items st) as [[kept st1]| |] eqn:E; cbn; try discriminate.
  apply (filter_st_kept (deleteContents fuel)) in E.
  destruct (uploadedFiles st1) as [| | | | |files| |]; cbn; try discriminate.
  destruct (filter_with (has_parent parentId) files) as [doomed| |]; cbn; try discriminate.
  destruct (delete_blobs doomed _) as [st3| |] eqn:Hd; cbn; try discriminate.
  apply delete_blobs_folders in Hd. cbn in Hd.
  destruct (uploadedFiles st3) as [| | | | |files'| |]; cbn; try discriminate.
  destruct (filter_with _ files') as [remaining| |]; cbn; try discriminate.
  intros [= <-]. cbn. exists items, kept. rewrite Hd. auto.
Qed.

Lemma filter_with_keeps p items kept f :
  filter_with p items = Ok kept -> In f items -> p f = Ok true -> In f kept.
Proof.
  revert kept. induction items as [|x rest IH]; intros kept; cbn; [intros _ []|].
  destruct (p x) as [b| |] eqn:Ex; cbn; try discriminate.
  destruct (filter_with p rest) as [kept'| |]; cbn; try discriminate.
  intros [= <-] [->|Hin] Hp.
  - rewrite Hp in Ex. injection Ex as <-. left. reflexivity.
  - destruct b; [right|]; apply (IH _ eq_refl Hin Hp).
Qed.

(** Every folder that is not a direct child of the folder deleted is
    still in the list afterwards: the folder itself, and the folders
    nested deeper than its children. *)
Lemma deleteFolder_keeps fuel folderId st st' items f :
  folders st = JArr items ->
  In f items ->
  has_parent folderId f = Ok false ->
  deleteFolder fuel true folderId st = Ok st' ->
  exists kept, folders st' = JArr kept /\ In f kept.
Proof.
  intros Hf Hin Hp. unfold deleteFolder.
  destruct (deleteContents fuel folderId st) as [st1| |] eqn:E; cbn; try discriminate.
  intros [= <-].
  destruct (deleteContents_folders _ _ _ _ E) as [items' [kept [Hf' [Hk Hs]]]].
  rewrite Hf in Hf'. injection Hf' as <-.
  exists kept. split.
  - destruct (saveFiles_frame st1) as [_ [-> _]]. exact Hs.
  - eapply filter_with_keeps; [exact Hk|exact Hin|].
    unfold not_child. rewrite Hp. reflexivity.
Qed.

(** C1 (what the program does).  In the tree A > B > C with D beside A
    and one file in each folder, deleting A removes the three files of
    the subtree and the folder B, and leaves in the folder list A itself
    and C, next to the untouched D; four entities are removed, not six. *)
Theorem deleteFolder_nested_tree :
  tree_of (deleteFolder 4 true (JStr "A") tree_state)
  = Ok (JArr [fA; fC; fD], JArr [file4]).
Proof. vm_compute. reflexivity. Qed.

(** *** Upload *)

Lemma finish_frame announce b st :
  uploadedFiles (finish announce b st) = uploadedFiles st
  /\ db (finish announce b st) = db st
  /\ (forall e, In e (log st) -> In e (log (finish announce b st))).
Proof.
  unfold finish. destruct (_ && _); [|auto].
  destruct (saveFiles_frame st) as [Hu [_ [_ [Hd _]]]].
  destruct announce; cbn; rewrite ?Hu, ?Hd; repeat split; try reflexivity.
  - intros e He. apply in_app_iff. left. apply saveFiles_log, He.
  - intros e He. apply saveFiles_log, He.
Qed.

Lemma abandon_frame i message b st :
  files (abandon i message b st).1 = files b
  /\ status (abandon i message b st).1 = <[i := Failed]> (status b)
  /\ uploadedFiles (abandon i message b st).2 = uploadedFiles st
  /\ db (abandon i message b st).2 = db st
  /\ (forall e, In e (log st) -> In e (log (abandon i message b st).2)).
Proof.
  unfold abandon. cbn [fst snd files status].
  match goal with |- context [finish false ?b1 ?s] =>
    destruct (finish_frame false b1 s) as [Hu [Hd Hl]] end.
  rewrite Hu, Hd. repeat split; try reflexivity.
  intros e He. apply Hl. cbn. apply in_app_iff. left. exact He.
Qed.

Lemma scan_spec rest :
  forall b st,
    files (scan rest b st).1 = files b
    /\ status (scan rest b st).1 = (status b ++ map classify rest)%list
    /\ uploadedFiles (scan rest b st).2 = uploadedFiles st
    /\ db (scan rest b st).2 = db st
    /\ (forall e, In e (log st) -> In e (log (scan rest b st).2))
    /\ (forall file, In file rest -> (MAX_UPLOAD < up_size file)%Z ->
          In (Alert (too_large file)) (log (scan rest b st).2)).
Proof.
  induction rest as [|file rest IH]; intros b st.
  - cbn. rewrite app_nil_r. split_and!; auto. intros file [].
  - cbn [scan map].
    destruct (MAX_UPLOAD <? up_size file)%Z eqn:Hbig.
    + assert (Hc : classify file = Skipped) by (unfold classify; rewrite Hbig; reflexivity).
      rewrite Hc.
      match goal with |- context [scan rest ?b1 ?s1] =>
        destruct (IH b1 s1) as [Hf [Hs [Hu [Hd [Hl Ha]]]]];
        destruct (finish_frame false b1 (alert (too_large file) st)) as [Hu' [Hd' Hl']]
      end.
      cbn [files status] in Hf, Hs.
      rewrite Hf, Hs, Hu, Hd, Hu', Hd', <- app_assoc.
      split_and!; try reflexivity.
      * intros e He. apply Hl, Hl'. cbn. apply in_app_iff. left. exact He.
      * intros file' [<-|Hin] Hbig'.
        -- apply Hl, Hl'. cbn. apply in_app_iff. right. left. reflexivity.
        -- apply Ha; assumption.
    + assert (Hc : classify file = Reading) by (unfold classify; rewrite Hbig; reflexivity).
      rewrite Hc.
      match goal with |- context [scan rest ?b1 ?s1] =>
        destruct (IH b1 s1) as [Hf [Hs [Hu [Hd [Hl Ha]]]]]
      end.
      cbn [files status] in Hf, Hs.
      rewrite Hf, Hs, Hu, Hd, <- app_assoc.
      split_and!; try reflexivity; try assumption.
      intros file' [<-|Hin] Hbig'.
      * apply Z.ltb_lt in Hbig'. congruence.
      * apply Ha; assumption.
Qed.

Lemma stored_record_mono fs b st b' st' rec :
  stored_record fs b st rec ->
  (forall i, status b !! i = Some Stored -> status b' !! i = Some Stored) ->
  (forall d, db st = Some d ->
     exists d', db st' = Some d' /\ forall k, is_Some (d !! k) -> is_Some (d' !! k)) ->
  stored_record fs b' st' rec.
Proof.
  intros [i [file [fileId [now [st0 [Hfs [Hsize [Hst [Hrec [d [Hdb Hk]]]]]]]]]]] Hs Hd.
  destruct (Hd d Hdb) as [d' [Hdb' Hmono]].
  exists i, file, fileId, now, st0. repeat split; auto.
  exists d'. split; [exact Hdb'|]. apply Hmono, Hk.
Qed.

Lemma insert_keeps_stored (l : list progress) i p q j :
  l !! i = Some p -> p <> Stored ->
  l !! j = Some Stored -> <[i := q]> l !! j = Some Stored.
Proof.
  intros Hi Hp Hj. destruct (decide (i = j)) as [->|Hne].
  - congruence.
  - rewrite list_lookup_insert_ne; assumption.
Qed.

Lemma insert_keeps_other (l : list progress) i p q j r :
  l !! i = Some p -> r <> q ->
  <[i := q]> l !! j = Some r -> l !! j = Some r.
Proof.
  intros Hi Hr Hj. destruct (decide (i = j)) as [->|Hne].
  - rewrite list_lookup_insert_eq in Hj by (eapply lookup_lt_Some; eauto).
    congruence.
  - rewrite list_lookup_insert_ne in Hj; assumption.
Qed.

(** A callback that ends in failure keeps the invariant. *)
Lemma abandon_inv fs U0 b st i p message :
  batch_inv fs U0 b st ->
  status b !! i = Some p -> p <> Stored -> p <> Skipped ->
  batch_inv fs U0 (abandon i message b st).1 (abandon i message b st).2.
Proof.
  intros [Hf [Hlen [Hbig [Hw [added [Hu Hadd]]]]]] Hi Hp Hp'.
  destruct (abandon_frame i message b st) as [Gf [Gs [Gu [Gd _]]]].
  unfold batch_inv. rewrite Gf, Gs, Gu.
  split; [exact Hf|]. split; [rewrite length_insert; exact Hlen|].
  split; [|split].
  - intros j file Hj Hlt. specialize (Hbig j file Hj Hlt).
    destruct (decide (i = j)) as [->|Hne]; [congruence|].
    rewrite list_lookup_insert_ne; assumption.
  - intros j fileObj fileId Hj. apply (Hw j fileObj fileId).
    eapply insert_keeps_other; [exact Hi| |exact Hj]. discriminate.
  - exists added. split; [exact Hu|].
    eapply Forall_impl; [exact Hadd|]. intros rec Hrec.
    eapply stored_record_mono; [exact Hrec| |].
    + intros j Hj. rewrite Gs. eapply insert_keeps_stored; eauto.
    + intros d Hd. exists d. rewrite Gd. auto.
Qed.

Ltac by_abandon Hstep Hinv Hi :=
  let Hg := fresh "Hg" in
  let G := fresh "G" in
  match type of Hstep with
  | Some (abandon ?i ?m ?b ?s) = Some ?r =>
      assert (Hg : abandon i m b s = r) by congruence;
      pose proof (abandon_inv _ _ b s i _ m Hinv Hi) as G;
      rewrite Hg in G; apply G; discriminate
  end.

Lemma step_inv fs U0 b st c b' st' :
  batch_inv fs U0 b st -> step b st c = Some (b', st') -> batch_inv fs U0 b' st'.
Proof.
  intros Hinv Hstep.
  pose proof Hinv as [Hf [Hlen [Hbig [Hw [added [Hu Hadd]]]]]].
  destruct c as [i fileId now|i|i|i message]; cbn [step] in Hstep.
  - (* reader.onload *)
    destruct (files b !! i) as [file|] eqn:Hfile; cbn -[abandon finish set_status] in Hstep; [|discriminate].
    destruct (status b !! i) as [[| | | |]|] eqn:Hi; try discriminate.
    destruct (db st) eqn:Hdb.
    + injection Hstep as <- <-. unfold set_status, batch_inv. cbn [files status].
      split; [exact Hf|]. split; [rewrite length_insert; exact Hlen|].
      split; [|split].
      * intros j file' Hj Hlt. specialize (Hbig j file' Hj Hlt).
        destruct (decide (i = j)) as [->|Hne]; [congruence|].
        rewrite list_lookup_insert_ne; assumption.
      * intros j fileObj' fileId' Hj.
        destruct (decide (i = j)) as [->|Hne].
        -- rewrite list_lookup_insert_eq in Hj by (eapply lookup_lt_Some; eauto).
           injection Hj as <- <-. rewrite Hf in Hfile. eauto.
        -- rewrite list_lookup_insert_ne in Hj by assumption. eauto.
      * exists added. split; [exact Hu|].
        eapply Forall_impl; [exact Hadd|]. intros rec Hrec.
        eapply stored_record_mono; [exact Hrec| |].
        -- intros j Hj. cbn. eapply insert_keeps_stored; eauto; discriminate.
        -- intros d Hd. exists d. auto.
    + by_abandon Hstep Hinv Hi.
  - (* reader.onerror *)
    destruct (files b !! i) as [file|] eqn:Hfile; cbn -[abandon finish set_status] in Hstep; [|discriminate].
    destruct (status b !! i) as [[| | | |]|] eqn:Hi; try discriminate.
    by_abandon Hstep Hinv Hi.
  - (* the write has completed *)
    destruct (files b !! i) as [file|] eqn:Hfile; cbn -[abandon finish set_status] in Hstep; [|discriminate].
    destruct (status b !! i) as [[| |fileObj fileId| |]|] eqn:Hi; try discriminate.
    destruct (db st) as [d|] eqn:Hdb; [|discriminate].
    cbn [uploadedFiles set_db] in Hstep. rewrite Hu in Hstep.
    injection Hstep as <- <-.
    match goal with |- batch_inv _ _ ?b1 (finish true ?b1' ?s2) =>
      destruct (finish_frame true b1' s2) as [Fu [Fd _]] end.
    unfold batch_inv. cbn [files status]. rewrite Fu.
    split; [exact Hf|]. split; [rewrite length_insert; exact Hlen|].
    split; [|split].
    + intros j file' Hj Hlt. specialize (Hbig j file' Hj Hlt).
      destruct (decide (i = j)) as [->|Hne]; [congruence|].
      rewrite list_lookup_insert_ne; assumption.
    + intros j fileObj' fileId' Hj. apply (Hw j fileObj' fileId').
      eapply insert_keeps_other; [exact Hi| |exact Hj]. discriminate.
    + exists (added ++ [fileObj])%list. cbn. rewrite app_assoc.
      split; [reflexivity|].
      assert (Hdb' : forall k, is_Some (d !! k) ->
                is_Some (<[fileId := Blob (up_bytes file) (up_type file)]> d !! k)).
      { intros k Hk. destruct (decide (fileId = k)) as [->|Hne].
        - rewrite lookup_insert_eq. eauto.
        - rewrite lookup_insert_ne by assumption. exact Hk. }
      apply Forall_app. split.
      * eapply Forall_impl; [exact Hadd|]. intros rec Hrec.
        eapply stored_record_mono; [exact Hrec| |].
        -- intros j Hj. cbn. eapply insert_keeps_stored; eauto; discriminate.
        -- intros d0 Hd0. rewrite Hdb in Hd0. injection Hd0 as <-.
           eexists. split; [rewrite Fd; reflexivity|]. exact Hdb'.
      * constructor; [|constructor].
        destruct (Hw i fileObj fileId Hi) as [file' [now [st0 [Hfs ->]]]].
        exists i, file', fileId, now, st0.
        split; [exact Hfs|]. split.
        { destruct (Z.le_gt_cases (up_size file') MAX_UPLOAD) as [Hle|Hgt]; [exact Hle|].
          specialize (Hbig i file' Hfs Hgt). congruence. }
        split.
        { cbn. apply list_lookup_insert_eq. eapply lookup_lt_Some; eauto. }
        split; [reflexivity|].
        eexists. split; [rewrite Fd; reflexivity|].
        rewrite lookup_insert_eq. eauto.
  - (* the write has failed *)
    destruct (files b !! i) as [file|] eqn:Hfile; cbn -[abandon finish set_status] in Hstep; [|discriminate].
    destruct (status b !! i) as [[| |fileObj fileId| |]|] eqn:Hi; try discriminate.
    by_abandon Hstep Hinv Hi.
Qed.

Lemma step_log b st c b' st' e :
  step b st c = Some (b', st') -> In e (log st) -> In e (log st').
Proof.
  intros Hstep He.
  assert (G : forall i m s, In e (log s) -> In e (log (abandon i m b s).2)).
  { intros i m s. apply abandon_frame. }
  destruct c as [i fileId now|i|i|i message]; cbn [step] in Hstep;
    destruct (files b !! i) as [file|]; cbn -[abandon finish set_status] in Hstep;
    try discriminate.
  - destruct (status b !! i) as [[| | | |]|]; try discriminate.
    destruct (db st).
    + injection Hstep as _ <-. exact He.
    + match type of Hstep with Some ?g = _ =>
        replace st' with (g.2) by (injection Hstep; intros; subst; reflexivity) end.
      apply G, He.
  - destruct (status b !! i) as [[| | | |]|]; try discriminate.
    match type of Hstep with Some ?g = _ =>
      replace st' with (g.2) by (injection Hstep; intros; subst; reflexivity) end.
    apply G, He.
  - destruct (status b !! i) as [[| |fileObj fileId| |]|]; try discriminate.
    destruct (db st) as [d|]; [|discriminate].
    destruct (uploadedFiles _) as [| | | | |items| |].
    all: match type of Hstep with Some ?g = _ =>
           replace st' with (g.2) by (injection Hstep; intros; subst; reflexivity) end.
    all: try (apply G; exact He).
    cbn [snd]. apply finish_frame. exact He.
  - destruct (status b !! i) as [[| |fileObj fileId| |]|]; try discriminate.
    match type of Hstep with Some ?g = _ =>
      replace st' with (g.2) by (injection Hstep; intros; subst; reflexivity) end.
    apply G, He.
Qed.

Lemma run_inv fs U0 cs :
  forall b st b' st',
    batch_inv fs U0 b st -> run cs b st = Some (b', st') -> batch_inv fs U0 b' st'.
Proof.
  induction cs as [|c cs IH]; intros b st b' st' Hinv; cbn [run].
  - intros [= <- <-]. exact Hinv.
  - destruct (step b st c) as [[b1 st1]|] eqn:Hstep; cbn; [|discriminate].
    apply IH. eapply step_inv; eauto.
Qed.

Lemma run_log cs e :
  forall b st b' st',
    run cs b st = Some (b', st') -> In e (log st) -> In e (log st').
Proof.
  induction cs as [|c cs IH]; intros b st b' st'; cbn [run].
  - intros [= <- <-]. auto.
  - destruct (step b st c) as [[b1 st1]|] eqn:Hstep; cbn; [|discriminate].
    intros Hrun He. eapply IH; [exact Hrun|]. eapply step_log; eauto.
Qed.

Lemma classify_not_writing file fileObj fileId : classify file <> Writing fileObj fileId.
Proof. unfold classify. destruct (_ <? _)%Z; discriminate. Qed.

Lemma handleFiles_status fs st :
  status (handleFiles fs st).1 = map classify fs.
Proof.
  unfold handleFiles.
  match goal with |- context [scan fs ?b0 st] =>
    destruct (scan_spec fs b0 st) as [_ [Hs _]] end.
  rewrite Hs. reflexivity.
Qed.

Lemma handleFiles_inv fs st U0 :
  uploadedFiles st = JArr U0 ->
  batch_inv fs U0 (handleFiles fs st).1 (handleFiles fs st).2.
Proof.
  intros Hu. unfold batch_inv. rewrite handleFiles_status.
  unfold handleFiles.
  match goal with |- context [scan fs ?b0 st] =>
    destruct (scan_spec fs b0 st) as [Hf [_ [Hu' _]]] end.
  rewrite Hf, Hu', Hu. cbn [files].
  split; [reflexivity|]. split; [apply length_map|]. split; [|split].
  - intros i file Hi Hbig. rewrite list_lookup_fmap, Hi. cbn.
    unfold classify. apply Z.ltb_lt in Hbig. rewrite Hbig. reflexivity.
  - intros i fileObj fileId Hi. rewrite list_lookup_fmap in Hi.
    destruct (fs !! i) as [file|]; cbn in Hi; [|discriminate].
    injection Hi as Hi. destruct (classify_not_writing _ _ _ Hi).
  - exists []. rewrite app_nil_r. split; [reflexivity|constructor].
Qed.

Lemma new_file_metadata_only file fileId now st : metadata_only (new_file file fileId now st).
Proof. eexists. split; reflexivity. Qed.

(** A file that is being read, once its content is delivered and the
    Blob Store has completed the write: its record is appended, once. *)
Lemma accepted_file_stored b st i file fileId now d items :
  files b !! i = Some file ->
  status b !! i = Some Reading ->
  db st = Some d ->
  uploadedFiles st = JArr items ->
  exists b1 b2 st2,
    step b st (ReaderLoad i fileId now) = Some (b1, st)
    /\ step b1 st (PutSuccess i) = Some (b2, st2)
    /\ uploadedFiles st2 = JArr (items ++ [new_file file fileId now st])
    /\ db st2 = Some (<[fileId := Blob (up_bytes file) (up_type file)]> d)
    /\ status b2 !! i = Some Stored
    /\ successCount b2 = S (successCount b).
Proof.
  intros Hfile Hi Hdb Hu.
  pose proof (lookup_lt_Some _ _ _ Hi) as Hlt.
  eexists _, _, _. split; [|split].
  - cbn [step]. rewrite Hfile. cbn [mbind option_bind]. rewrite Hi, Hdb. reflexivity.
  - cbn [step set_status files status]. rewrite Hfile. cbn [mbind option_bind].
    rewrite list_lookup_insert_eq by exact Hlt. rewrite Hdb.
    cbn [uploadedFiles set_db]. rewrite Hu. reflexivity.
  - match goal with |- context [finish true ?b1 ?s] =>
      destruct (finish_frame true b1 s) as [Hu' [Hd' _]] end.
    rewrite Hu', Hd'. cbn [uploadedFiles set_uploadedFiles db set_db status successCount].
    repeat split.
    apply list_lookup_insert_eq. rewrite length_insert. exact Hlt.
Qed.

(** A file whose read fails, or whose write the Blob Store refuses: a
    dialog, and no record. *)
Lemma rejected_file_dropped b st i file :
  files b !! i = Some file ->
  status b !! i = Some Reading ->
  (exists b' st',
     step b st (ReaderError i) = Some (b', st')
     /\ uploadedFiles st' = uploadedFiles st
     /\ status b' !! i = Some Failed
     /\ In (Alert ("Failed to read file: " ++ up_name file)) (log st'))
  /\ (forall fileId now d message,
        db st = Some d ->
        exists b1 b' st',
          step b st (ReaderLoad i fileId now) = Some (b1, st)
          /\ step b1 st (PutError i message) = Some (b', st')
          /\ uploadedFiles st' = uploadedFiles st
          /\ status b' !! i = Some Failed
          /\ In (Alert ("Error uploading " ++ up_name file ++ ": " ++ message)) (log st')).
Proof.
  intros Hfile Hi.
  pose proof (lookup_lt_Some _ _ _ Hi) as Hlt.
  assert (Hlog : forall m b0 s, In (Alert m) (log (abandon i m b0 s).2)).
  { intros m b0 s. unfold abandon. cbn [snd].
    match goal with |- context [finish false ?b1 ?s1] =>
      destruct (finish_frame false b1 s1) as [_ [_ Hl]] end.
    apply Hl. cbn. apply in_app_iff. right. left. reflexivity. }
  split.
  - eexists _, _. split.
    + cbn [step]. rewrite Hfile. cbn [mbind option_bind]. rewrite Hi.
      rewrite (surjective_pairing (abandon _ _ _ _)) at 1. reflexivity.
    + destruct (abandon_frame i ("Failed to read file: " ++ up_name file) b st)
        as [_ [Hs [Hu _]]].
      split; [exact Hu|]. split; [|apply Hlog].
      rewrite Hs. apply list_lookup_insert_eq, Hlt.
  - intros fileId now d message Hdb.
    eexists _, _, _. split; [|split].
    + cbn [step]. rewrite Hfile. cbn [mbind option_bind]. rewrite Hi, Hdb. reflexivity.
    + cbn [step set_status files status]. rewrite Hfile. cbn [mbind option_bind].
      rewrite list_lookup_insert_eq by exact Hlt.
      rewrite (surjective_pairing (abandon _ _ _ _)) at 1. reflexivity.
    + match goal with |- context [abandon i ?m ?b0 st] =>
        destruct (abandon_frame i m b0 st) as [_ [Hs [Hu _]]] end.
      split; [exact Hu|]. split; [|apply Hlog].
      rewrite Hs. cbn [set_status status].
      apply list_lookup_insert_eq. rewrite length_insert. exact Hlt.
Qed.

(** C7.  In a batch handed to [handleFiles], after any sequence of
    callbacks: a file whose byte length exceeds 200 MiB has been refused
    with a dialog and is marked skipped; the files within the limit have
    all been handed to a reader by the loop, wherever they stand in the
    batch; and the metadata list is the list found at the start followed
    by records each of which comes from a file within the limit whose
    blob is in the Blob Store (its write has completed), and holds the
    six metadata fields and nothing else.  For a file that is still
    being read: delivering its content changes nothing yet, and once the
    Blob Store has completed the write its record, built from its name
    and the identifier drawn, is appended to the list, once; if the
    read fails or the write is refused there is a dialog and no
    record. *)
Theorem handleFiles_batch (fs : list upload) (st0 : app) (U0 : list jsval)
  (cs : list callback) (b : batch) (st : app) :
  uploadedFiles st0 = JArr U0 ->
  run cs (handleFiles fs st0).1 (handleFiles fs st0).2 = Some (b, st) ->
  (forall i file, fs !! i = Some file -> (MAX_UPLOAD < up_size file)%Z ->
     In (Alert (too_large file)) (log st) /\ status b !! i = Some Skipped)
  /\ (forall i file, fs !! i = Some file -> (up_size file <= MAX_UPLOAD)%Z ->
        status (handleFiles fs st0).1 !! i = Some Reading)
  /\ exists added,
       uploadedFiles st = JArr (U0 ++ added)
       /\ Forall (stored_record fs b st) added
       /\ Forall metadata_only added
       /\ (forall i file fileId now d,
             fs !! i = Some file -> status b !! i = Some Reading -> db st = Some d ->
             exists b1 b2 st2,
               step b st (ReaderLoad i fileId now) = Some (b1, st)
               /\ step b1 st (PutSuccess i) = Some (b2, st2)
               /\ uploadedFiles st2
                  = JArr (U0 ++ added ++ [new_file file fileId now st])
               /\ db st2 = Some (<[fileId := Blob (up_bytes file) (up_type file)]> d)
               /\ status b2 !! i = Some Stored
               /\ successCount b2 = S (successCount b))
       /\ (forall i file,
             fs !! i = Some file -> status b !! i = Some Reading ->
             (exists b' st',
                step b st (ReaderError i) = Some (b', st')
                /\ uploadedFiles st' = uploadedFiles st
                /\ status b' !! i = Some Failed
                /\ In (Alert ("Failed to read file: " ++ up_name file)) (log st'))
             /\ (forall fileId now d message,
                   db st = Some d ->
                   exists b1 b' st',
                     step b st (ReaderLoad i fileId now) = Some (b1, st)
                     /\ step b1 st (PutError i message) = Some (b', st')
                     /\ uploadedFiles st' = uploadedFiles st
                     /\ status b' !! i = Some Failed
                     /\ In (Alert ("Error uploading " ++ up_name file ++ ": " ++ message))
                          (log st'))).
Proof.
  intros Hu Hrun.
  pose proof (run_inv fs U0 cs _ _ _ _ (handleFiles_inv fs st0 U0 Hu) Hrun)
    as [Hf [Hlen [Hbig [Hw [added [Hu' Hadd]]]]]].
  split; [|split].
  - intros i file Hi Hlt. split; [|eauto].
    eapply run_log; [exact Hrun|].
    unfold handleFiles.
    match goal with |- context [scan fs ?b0 st0] =>
      destruct (scan_spec fs b0 st0) as [_ [_ [_ [_ [_ Ha]]]]] end.
    apply Ha; [|exact Hlt]. apply list_elem_of_In. eapply list_elem_of_lookup_2, Hi.
  - intros i file Hi Hle. rewrite handleFiles_status, list_lookup_fmap, Hi. cbn.
    unfold classify. apply Z.ltb_ge in Hle. rewrite Hle. reflexivity.
  - exists added. split; [exact Hu'|]. split; [exact Hadd|]. split; [|split].
    + eapply Forall_impl; [exact Hadd|].
      intros rec [i [file [fileId [now [s0 [_ [_ [_ [-> _]]]]]]]]].
      apply new_file_metadata_only.
    + intros i file fileId now d Hi Hs Hdb. rewrite <- Hf in Hi.
      destruct (accepted_file_stored b st i file fileId now d (U0 ++ added) Hi Hs Hdb Hu')
        as (b1 & b2 & st2 & H1 & H2 & H3 & H4).
      exists b1, b2, st2. rewrite app_assoc. auto.
    + intros i file Hi Hs. rewrite <- Hf in Hi.
      exact (rejected_file_dropped b st i file Hi Hs).
Qed.

(** *** Export and import *)

(** An object is the identifier of no file record. *)
Lemma downloadFile_of_object st items fields :
  uploadedFiles st = JArr items ->
  Forall is_object items ->
  downloadFile (JObj fields) st = Ok (NotDownloaded, alert "File not found." st).
Proof.
  intros Hu Hobj. unfold downloadFile. rewrite Hu. cbn [as_array mbind result_bind].
  assert (Hnone : forall i, find_from (has_id (JObj fields)) i items = Ok None).
  { clear Hu. induction Hobj as [|f rest [ff ->] _ IH]; intros i; [reflexivity|].
    cbn. destruct (default JUndefined (lookup_field "id" ff)) as [| | |[]| | | |];
      cbn; apply IH. }
  rewrite Hnone. reflexivity.
Qed.

(** C8.  [exportJSON] hands nothing to the browser: the function its
    last statement calls is the [downloadFile] declared last in the
    script, which takes the Blob for the identifier of an uploaded
    file, finds none and shows "File not found."; no file is produced
    and nothing else changes.  The snapshot it had built holds the
    export date, the target and the session list [S], and a text that
    parses to it would be imported as [S]: [importJSON] replaces the
    list, whatever it was, both from an object whose [sessions] field
    is an array and from a bare array. *)
Theorem exportJSON_without_download (now : string) (st st2 : app) (S files : list jsval)
  (remote : post_outcome) :
  sessions st = JArr S ->
  uploadedFiles st = JArr files ->
  Forall is_object files ->
  exportJSON now st = Ok (NotDownloaded, alert "File not found." st)
  /\ export_snapshot now st
     = JObj [("exportDate", JStr now); ("target", JInt 640); ("sessions", JArr S)]
  /\ (forall text,
        JSON_parse text = Some (export_snapshot now st) ->
        sessions (importJSON text remote st2) = JArr S)
  /\ (forall text fields items,
        JSON_parse text = Some (JObj fields) ->
        lookup_field "sessions" fields = Some (JArr items) ->
        sessions (importJSON text remote st2) = JArr items)
  /\ (forall text items,
        JSON_parse text = Some (JArr items) ->
        sessions (importJSON text remote st2) = JArr items).
Proof.
  intros HS Hu Hobj. split; [|split; [|split; [|split]]].
  - unfold exportJSON, Blob_object. eapply downloadFile_of_object; eassumption.
  - unfold export_snapshot. rewrite HS. reflexivity.
  - intros text Hp. eapply importJSON_array_field; [exact Hp|].
    cbn. rewrite HS. reflexivity.
  - intros text fields items. apply importJSON_array_field.
  - intros text items. apply importJSON_bare_array.
Qed.

(** ** Further properties of the session manager *)

(** The net minutes of two well-formed times of day, for any break. *)
Lemma calculateNetMinutes_times (h1 m1 h2 m2 b : Z) :
  (0 <= h1 < 24)%Z -> (0 <= m1 < 60)%Z ->
  (0 <= h2 < 24)%Z -> (0 <= m2 < 60)%Z ->
  calculateNetMinutes (JStr (formatTime h1 m1)) (JStr (formatTime h2 m2)) (JInt b)
  = Ok (Num (if (minutes_of h2 m2 <=? minutes_of h1 m1)%Z then 0
             else Z.max 0 (minutes_of h2 m2 - minutes_of h1 m1 - b))).
Proof.
  intros H1 H2 H3 H4.
  unfold calculateNetMinutes.
  rewrite !formatTime_truthy. cbn [negb orb].
  rewrite (hour_min_formatTime h1 m1), (hour_min_formatTime h2 m2) by assumption.
  unfold minutes_of. cbn.
  replace (h2 * 60 + m2)%Z with (60 * h2 + m2)%Z by lia.
  replace (h1 * 60 + m1)%Z with (60 * h1 + m1)%Z by lia.
  destruct (60 * h2 + m2 <=? 60 * h1 + m1)%Z; reflexivity.
Qed.

Lemma truthy_JStr s : truthy (JStr s) = false <-> s = EmptyString.
Proof.
  cbn. rewrite negb_false_iff. apply String.eqb_eq.
Qed.

(** X1.  [saveSession] refuses a form with an empty date, start or end,
    and a form whose end is not after its start or whose break takes up
    the whole duration; a refusal shows a dialog and leaves every
    variable and the Metadata Store as they were. *)
Theorem saveSession_refuses (remote : post_outcome) (st : app) (fresh : string) :
  (forall form,
     in_date form = EmptyString \/ in_startTime form = EmptyString
       \/ in_endTime form = EmptyString ->
     saveSession form fresh remote st
     = Ok (alert "Please fill in all required fields" st))
  /\ (forall date h1 m1 h2 m2 breakInput b note category,
        (0 <= h1 < 24)%Z -> (0 <= m1 < 60)%Z ->
        (0 <= h2 < 24)%Z -> (0 <= m2 < 60)%Z ->
        date <> EmptyString ->
        break_of breakInput = JInt b ->
        (minutes_of h2 m2 <= minutes_of h1 m1
         \/ minutes_of h2 m2 - minutes_of h1 m1 <= b)%Z ->
        saveSession (timed_form date h1 m1 h2 m2 breakInput note category) fresh remote st
        = Ok (alert "Invalid time range or break duration is too long" st)).
Proof.
  split.
  - intros form H. unfold saveSession.
    assert (E : negb (truthy (JStr (in_date form)))
                || negb (truthy (JStr (in_startTime form)))
                || negb (truthy (JStr (in_endTime form))) = true).
    { destruct H as [H|[H|H]]; apply truthy_JStr in H; rewrite H; cbn;
        rewrite ?orb_true_r; reflexivity. }
    rewrite E. reflexivity.
  - intros date h1 m1 h2 m2 breakInput b note category H1 H2 H3 H4 Hd Hb Hle.
    unfold saveSession, timed_form.
    cbn [in_date in_startTime in_endTime in_breakMinutes in_note in_category].
    rewrite !formatTime_truthy.
    destruct (truthy (JStr date)) eqn:Ht; [|apply truthy_JStr in Ht; contradiction].
    cbn [negb orb]. rewrite Hb, calculateNetMinutes_times by assumption.
    cbn [mbind result_bind].
    match goal with |- context [num_leb (Num ?n) (Num 0)] =>
      assert (E : num_leb (Num n) (Num 0) = true) end.
    { cbn. apply Z.leb_le.
      destruct (minutes_of h2 m2 <=? minutes_of h1 m1)%Z eqn:E1; [lia|].
      apply Z.leb_gt in E1. lia. }
    rewrite E. reflexivity.
Qed.

(** What an accepted form adds to the list. *)
Lemma saveSession_accepted date h1 m1 h2 m2 breakInput b note category fresh remote st items :
  (0 <= h1 < 24)%Z -> (0 <= m1 < 60)%Z ->
  (0 <= h2 < 24)%Z -> (0 <= m2 < 60)%Z ->
  date <> EmptyString ->
  break_of breakInput = JInt b ->
  (minutes_of h1 m1 < minutes_of h2 m2)%Z ->
  (b < minutes_of h2 m2 - minutes_of h1 m1)%Z ->
  sessions st = JArr items ->
  saveSession (timed_form date h1 m1 h2 m2 breakInput note category) fresh remote st
  = Ok (closeDayPanel
          (saveData remote
             (set_sessions
                (JArr (items ++ [new_session (JStr fresh) (JStr date)
                                   (JStr (formatTime h1 m1)) (JStr (formatTime h2 m2))
                                   (JInt b) (JStr note) (JStr category)
                                   (Num (minutes_of h2 m2 - minutes_of h1 m1 - b))]))
                st))).
Proof.
  intros H1 H2 H3 H4 Hd Hb Hlt Hbr Hs.
  unfold saveSession, timed_form.
  cbn [in_date in_startTime in_endTime in_breakMinutes in_note in_category].
  rewrite !formatTime_truthy.
  destruct (truthy (JStr date)) eqn:Ht; [|apply truthy_JStr in Ht; contradiction].
  cbn [negb orb]. rewrite Hb, calculateNetMinutes_times by assumption.
  cbn [mbind result_bind].
  apply Z.leb_gt in Hlt as Hlt'. rewrite Hlt'.
  rewrite Z.max_r by lia.
  assert (E : num_leb (Num (minutes_of h2 m2 - minutes_of h1 m1 - b)) (Num 0) = false)
    by (cbn; apply Z.leb_gt; lia).
  rewrite E, Hs. reflexivity.
Qed.

(** X2.  An accepted form (a date, two well-formed times with the end
    after the start, a break shorter than the duration, negative breaks
    included) appends exactly one session, whose [netMinutes] is the
    duration less the break; the Metadata Store then holds the
    serialisation of the new list and the day panel is closed.  The
    break and the net duration are taken within the integers the
    language computes exactly. *)
Theorem saveSession_accepts (date : string) (h1 m1 h2 m2 : Z) (breakInput : string)
  (b : Z) (note category fresh : string) (remote : post_outcome) (st : app)
  (items : list jsval) :
  (0 <= h1 < 24)%Z -> (0 <= m1 < 60)%Z ->
  (0 <= h2 < 24)%Z -> (0 <= m2 < 60)%Z ->
  date <> EmptyString ->
  break_of breakInput = JInt b ->
  safe_integer b ->
  safe_integer (minutes_of h2 m2 - minutes_of h1 m1 - b) ->
  (minutes_of h1 m1 < minutes_of h2 m2)%Z ->
  (b < minutes_of h2 m2 - minutes_of h1 m1)%Z ->
  sessions st = JArr items ->
  exists st',
    saveSession (timed_form date h1 m1 h2 m2 breakInput note category) fresh remote st
    = Ok st'
    /\ sessions st'
       = JArr (items ++ [new_session (JStr fresh) (JStr date)
                           (JStr (formatTime h1 m1)) (JStr (formatTime h2 m2))
                           (JInt b) (JStr note) (JStr category)
                           (Num (minutes_of h2 m2 - minutes_of h1 m1 - b))])
    /\ localStorage st' !! STORAGE_KEY = Some (JSON_stringify (sessions st'))
    /\ selectedDate st' = JNull.
Proof.
  intros H1 H2 H3 H4 Hd Hb _ _ Hlt Hbr Hs.
  eexists. split; [eapply saveSession_accepted; eassumption|].
  unfold closeDayPanel. cbn [sessions localStorage selectedDate set_selectedDate].
  rewrite saveData_sessions, saveData_localStorage. cbn [sessions set_sessions].
  split; [reflexivity|]. split; [apply lookup_insert_eq|reflexivity].
Qed.

Lemma reduce_app f acc xs ys :
  reduce f acc (xs ++ ys) = (acc' ← reduce f acc xs; reduce f acc' ys).
Proof.
  revert acc. induction xs as [|x xs IH]; intros acc; cbn; [reflexivity|].
  destruct (f acc x) as [a| |]; cbn; [apply IH|reflexivity|reflexivity].
Qed.

(** X3.  The total of [updateProgress] grows by the net minutes of the
    session an accepted form adds, for a list of sessions whose net
    minutes are numbers, none of them negative, as long as the break
    and the new total stay within the integers the language computes
    exactly. *)
Theorem totalMinutes_saveSession (date : string) (h1 m1 h2 m2 : Z) (breakInput : string)
  (b : Z) (note category fresh : string) (remote : post_outcome) (st : app)
  (items : list jsval) (total : Z) :
  (0 <= h1 < 24)%Z -> (0 <= m1 < 60)%Z ->
  (0 <= h2 < 24)%Z -> (0 <= m2 < 60)%Z ->
  date <> EmptyString ->
  break_of breakInput = JInt b ->
  safe_integer b ->
  (minutes_of h1 m1 < minutes_of h2 m2)%Z ->
  (b < minutes_of h2 m2 - minutes_of h1 m1)%Z ->
  sessions st = JArr items ->
  Forall (fun s => exists m, get_prop s "netMinutes" = Ok (JInt m) /\ (0 <= m)%Z) items ->
  totalMinutes (sessions st) = Ok (JInt total) ->
  safe_integer (total + (minutes_of h2 m2 - minutes_of h1 m1 - b)) ->
  exists st',
    saveSession (timed_form date h1 m1 h2 m2 breakInput note category) fresh remote st
    = Ok st'
    /\ totalMinutes (sessions st')
       = Ok (JInt (total + (minutes_of h2 m2 - minutes_of h1 m1 - b))).
Proof.
  intros H1 H2 H3 H4 Hd Hb _ Hlt Hbr Hs _ Ht _.
  eexists. split; [eapply saveSession_accepted; eassumption|].
  unfold closeDayPanel. cbn [sessions set_selectedDate].
  rewrite saveData_sessions. cbn [sessions set_sessions].
  rewrite Hs in Ht. unfold totalMinutes in *. cbn [as_array mbind result_bind] in *.
  rewrite reduce_app, Ht. reflexivity.
Qed.

Lemma edit_fields_id form fields net :
  field "id" (assign_field "netMinutes" (JNum net) (edit_fields form fields))
  = field "id" fields.
Proof.
  unfold field, edit_fields. rewrite !lookup_assign_field. reflexivity.
Qed.

Lemma map_id_of_insert i x (items : list jsval) y :
  items !! i = Some y -> id_of x = id_of y ->
  map id_of (<[i := x]> items) = map id_of items.
Proof.
  intros Hi Hx.
  change (map id_of) with (fmap (M := list) id_of).
  rewrite list_fmap_insert, Hx.
  apply list_insert_id. rewrite list_lookup_fmap, Hi. reflexivity.
Qed.

(** X4.  Whatever the edit form holds and whether the edit is accepted
    or refused, [updateSession] keeps the number of sessions and the
    identifier of each of them. *)
Theorem updateSession_keeps_ids (form : session_form) (remote : post_outcome)
  (st st' : app) (items : list jsval) :
  sessions st = JArr items ->
  updateSession form remote st = Ok st' ->
  exists items',
    sessions st' = JArr items'
    /\ map id_of items' = map id_of items.
Proof.
  intros Hs. unfold updateSession. rewrite Hs. cbn [as_array mbind result_bind].
  destruct (find_from _ 0 items) as [[[i session]|]| |] eqn:Hfind;
    cbn [mbind result_bind]; try discriminate.
  2: { intros [= <-]. eauto. }
  destruct (find_from_lookup _ _ _ _ _ Hfind) as [k [-> Hk]].
  destruct (negb (truthy session)).
  { intros [= <-]. eauto. }
  destruct session as [| | | | | |fields|]; try discriminate.
  destruct (calculateNetMinutes _ _ _) as [net| |]; cbn [mbind result_bind];
    try discriminate.
  assert (Hids : map id_of (<[(0 + k)%nat := JObj (assign_field "netMinutes" (JNum net)
                                                    (edit_fields form fields))]> items)
                 = map id_of items).
  { eapply map_id_of_insert; [exact Hk|]. cbn [id_of]. apply edit_fields_id. }
  destruct (num_leb net (Num 0)); intros [= <-].
  - eexists. split; [reflexivity|exact Hids].
  - unfold openDayPanel, closeEditModal. cbn [sessions set_selectedDate set_editingSessionId].
    rewrite saveData_sessions. eexists. split; [reflexivity|exact Hids].
Qed.

Lemma filter_with_objects sid items :
  Forall is_object items ->
  filter_with (fun s => id ← get_prop s "id"; Ok (negb (strict_eq id sid))) items
  = Ok (List.filter (fun s => negb (strict_eq (id_of s) sid)) items).
Proof.
  induction 1 as [|s rest [fields ->] _ IH]; [reflexivity|].
  cbn [filter_with List.filter get_prop mbind result_bind id_of].
  rewrite IH. cbn [mbind result_bind]. unfold field.
  destruct (negb _); reflexivity.
Qed.

(** X5.  Once confirmed, [deleteCurrentSession] removes every session
    whose identifier is the one being edited and keeps the others in
    their order; the Metadata Store then holds the new list and no
    session is being edited.  Declined, or with no session being edited,
    it changes nothing. *)
Theorem deleteCurrentSession_removes (remote : post_outcome) (st : app) (sid : string)
  (items : list jsval) :
  sessions st = JArr items ->
  Forall is_object items ->
  (editingSessionId st = JStr sid -> sid <> EmptyString ->
   exists st',
     deleteCurrentSession true remote st = Ok st'
     /\ sessions st'
        = JArr (List.filter (fun s => negb (strict_eq (id_of s) (JStr sid))) items)
     /\ localStorage st' !! STORAGE_KEY = Some (JSON_stringify (sessions st'))
     /\ editingSessionId st' = JNull)
  /\ deleteCurrentSession false remote st = Ok st
  /\ (editingSessionId st = JNull -> deleteCurrentSession true remote st = Ok st).
Proof.
  intros Hs Hobj. split; [|split].
  - intros He Hne. unfold deleteCurrentSession. rewrite He, Hs.
    assert (Ht : truthy (JStr sid) = true).
    { destruct (truthy (JStr sid)) eqn:E; [reflexivity|].
      apply truthy_JStr in E. contradiction. }
    rewrite Ht. cbn [negb as_array mbind result_bind].
    rewrite filter_with_objects by assumption.
    cbn [mbind result_bind]. eexists. split; [reflexivity|].
    destruct (saveData_variables remote
                (set_sessions (JArr (List.filter
                   (fun s => negb (strict_eq (id_of s) (JStr sid))) items)) st))
      as [Hsel _].
    match goal with |- context [if ?c then _ else _] => destruct c end;
      unfold openDayPanel, closeEditModal;
      cbn [sessions localStorage editingSessionId set_selectedDate set_editingSessionId];
      rewrite saveData_sessions, saveData_localStorage; cbn [sessions set_sessions];
      (split; [reflexivity|]); (split; [apply lookup_insert_eq|reflexivity]).
  - unfold deleteCurrentSession. destruct (negb _); reflexivity.
  - intros He. unfold deleteCurrentSession. rewrite He. reflexivity.
Qed.

Lemma loadData_from_server S st :
  truthy S = true ->
  sessions (loadData (server_has S) st) = S
  /\ localStorage (loadData (server_has S) st) !! STORAGE_KEY = Some (JSON_stringify S).
Proof.
  intros HS. unfold loadData, server_has. cbn. rewrite HS. cbn.
  split; [reflexivity|apply lookup_insert_eq].
Qed.

(** X6.  When the remote store answers with a session list [S] that is
    truthy (any array is), [loadData] replaces the list in memory by [S]
    and mirrors its serialisation into the Metadata Store, whatever the
    cache held. *)
Theorem loadData_success (S : jsval) (st : app) :
  truthy S = true ->
  sessions (loadData (server_has S) st) = S
  /\ localStorage (loadData (server_has S) st) !! STORAGE_KEY = Some (JSON_stringify S).
Proof. apply loadData_from_server. Qed.

(** X7.  A success response without a [data] object, or whose [data]
    carries no session list, changes nothing at all: the cache is not
    consulted and the list in memory stays as it is. *)
Theorem loadData_ok_without_sessions (status : Z) (fields : list (string * jsval))
  (st : app) :
  (lookup_field "data" fields = None
   \/ exists data, lookup_field "data" fields = Some (JObj data)
                   /\ lookup_field "sessions" data = None) ->
  loadData (GetResponse true status (Some (JObj fields))) st = st.
Proof.
  intros [H|[data [H1 H2]]]; unfold loadData; cbn.
  - rewrite H. reflexivity.
  - rewrite H1. cbn. rewrite H2. reflexivity.
Qed.

(** X8.  [importJSON] refuses a text that is not JSON and a value that
    is neither an array nor carries an array under [sessions]: it shows
    a dialog and leaves the list, the Metadata Store and the remote
    store untouched. *)
Theorem importJSON_refuses (text : string) (remote : post_outcome) (st : app) :
  match JSON_parse text with
  | None => True
  | Some data => importable data = false
  end ->
  exists message, importJSON text remote st = alert message st.
Proof.
  unfold importJSON, importable.
  destruct (JSON_parse text) as [data|]; [|eauto].
  destruct (get_prop data "sessions") as [v| |]; [|eauto|eauto].
  intros H. apply orb_false_iff in H as [Hd Hv]. rewrite Hv, Hd. eauto.
Qed.

(** X9.  [clearAllData], confirmed twice, empties the list and removes
    the cache, and that is all: nothing is sent to the remote store, so
    the next [loadData] that reaches it brings the sessions [S] it still
    holds back into memory and into the cache. *)
Theorem clearAllData_local_only (st : app) (S : jsval) :
  truthy S = true ->
  sessions (clearAllData true true st) = JArr []
  /\ getItem STORAGE_KEY (clearAllData true true st) = None
  /\ log (clearAllData true true st) = (log st ++ [Alert "All data cleared"])%list
  /\ sessions (loadData (server_has S) (clearAllData true true st)) = S.
Proof.
  intros HS. split; [reflexivity|]. split; [apply lookup_delete_eq|].
  split; [reflexivity|]. apply loadData_from_server, HS.
Qed.

(** X10.  For a whole number of hours [n] from 0 to 14,
    [addQuickSession] fills the form with start 08:30, a break of 30
    minutes and the end on the hour [9 + n], so that the net time the
    form previews is exactly [n] hours. *)
Theorem addQuickSession_preview (n : Z) (label today : string) (st : app) :
  (0 <= n <= 14)%Z ->
  in_startTime (addQuickSession n label today st).1 = formatTime 8 30
  /\ in_endTime (addQuickSession n label today st).1 = formatTime (9 + n) 0
  /\ preview_minutes (addQuickSession n label today st).1 = Ok (Num (60 * n)).
Proof.
  intros Hn.
  assert (Hend : in_endTime (addQuickSession n label today st).1 = formatTime (9 + n) 0).
  { unfold addQuickSession. cbn [fst in_endTime].
    replace (30 + (n * 60 + 30))%Z with ((n + 1) * 60)%Z by lia.
    rewrite Z.rem_mul, Z.div_mul by lia. f_equal. lia. }
  split; [reflexivity|]. split; [exact Hend|].
  unfold preview_minutes. rewrite Hend.
  change (in_startTime (addQuickSession n label today st).1) with (formatTime 8 30).
  change (break_of (in_breakMinutes (addQuickSession n label today st).1)) with (JInt 30).
  rewrite calculateNetMinutes_times by lia.
  unfold minutes_of.
  destruct (60 * (9 + n) + 0 <=? 60 * 8 + 30)%Z eqn:E.
  - apply Z.leb_le in E. lia.
  - f_equal. f_equal. lia.
Qed.

(** ** Further properties of the file and folder manager *)

Lemma trim_start_blank s : blank s = true -> trim_start s = EmptyString.
Proof.
  induction s as [|c rest IH]; cbn; [reflexivity|].
  intros H. apply andb_prop in H as [Hc Hr]. rewrite Hc. apply IH, Hr.
Qed.

(** X11.  [createFolder] refuses a name made of white space only,
    however long: it shows a dialog and leaves the variables and the
    Metadata Store as they were. *)
Theorem createFolder_blank (input : string) (millis : Z) (now : string) (st : app) :
  blank input = true ->
  createFolder input millis now st = Ok (alert "Please enter a folder name" st).
Proof.
  intros H. unfold createFolder, trim.
  rewrite (trim_start_blank input H). reflexivity.
Qed.

Lemma find_from_objects id items :
  Forall is_object items ->
  forall i, exists r, find_from (has_id id) i items = Ok r.
Proof.
  induction 1 as [|f rest [fields ->] _ IH]; intros i; cbn; [eauto|].
  destruct (strict_eq _ id); [eauto|apply IH].
Qed.

(** X12.  Moving a folder into itself is refused without a word: for
    every identifier, [moveItem] with the folder as its own target
    leaves the state exactly as it was, and the Metadata Store is not
    rewritten. *)
Theorem moveItem_self (id : string) (st : app) (items : list jsval) :
  folders st = JArr items ->
  Forall is_object items ->
  moveItem (JStr id) "folder" (JStr id) st = Ok st.
Proof.
  intros Hf Hobj. unfold moveItem. cbn [String.eqb Ascii.eqb Bool.eqb].
  rewrite Hf. cbn [as_array mbind result_bind].
  destruct (find_from_objects (JStr id) items Hobj 0) as [[[i folder]|] ->];
    cbn [mbind result_bind]; [|reflexivity].
  cbn [strict_eq]. rewrite String.eqb_refl, andb_false_r. reflexivity.
Qed.

Lemma stored_text_truthy v : JSON_parse (JSON_stringify v) = Some v ->
  truthy (JStr (JSON_stringify v)) = true.
Proof using JSON_parse_empty.
  intros Hp. destruct (truthy _) eqn:E; [reflexivity|].
  apply truthy_JStr in E. rewrite E in Hp. congruence.
Qed.

(** X13.  Saving and reloading: after [saveFiles] and then [loadFiles],
    the folder list is the one that was in memory and the file list is
    the list of the six-field records written for the files in memory
    (so without inline data), and the current folder is the root;
    provided the JSON built-ins read back the two texts they printed. *)
Theorem saveFiles_loadFiles (st : app) (fs items metas : list jsval) :
  folders st = JArr fs ->
  uploadedFiles st = JArr items ->
  Forall is_object items ->
  mapM file_metadata items = Ok metas ->
  JSON_parse (JSON_stringify (JArr fs)) = Some (JArr fs) ->
  JSON_parse (JSON_stringify (JArr metas)) = Some (JArr metas) ->
  folders (loadFiles (saveFiles st)) = JArr fs
  /\ uploadedFiles (loadFiles (saveFiles st)) = JArr metas
  /\ Forall2 persisted_as items metas
  /\ currentFolder (loadFiles (saveFiles st)) = JNull.
Proof using JSON_parse_empty.
  intros Hf Hu Hobj Hm Hpf Hpm.
  assert (Hfiles : getItem FILES_STORAGE_KEY (saveFiles st)
                   = Some (JSON_stringify (JArr metas))).
  { unfold saveFiles, getItem. cbn. rewrite Hu. cbn. rewrite Hm. cbn.
    apply lookup_insert_eq. }
  assert (Hfolders : getItem FOLDERS_STORAGE_KEY (saveFiles st)
                     = Some (JSON_stringify (JArr fs))).
  { unfold saveFiles, getItem. cbn. rewrite Hu. cbn. rewrite Hm. cbn.
    rewrite lookup_insert_ne by discriminate. rewrite Hf. apply lookup_insert_eq. }
  destruct (mapM_file_metadata items Hobj) as [metas' [Hm' HF]].
  rewrite Hm in Hm'. injection Hm' as <-.
  assert (Hmobj : Forall is_object metas).
  { clear -HF. induction HF as [|f m l1 l2 [ff [mf [_ [-> _]]]] _ IH]; constructor;
      [eexists; reflexivity|exact IH]. }
  split; [|split; [|split; [exact HF|reflexivity]]].
  - unfold loadFiles. cbn [folders]. unfold loaded_folders.
    rewrite Hfolders, (stored_text_truthy _ Hpf), Hpf. reflexivity.
  - apply loadFiles_stored; assumption.
Qed.

Lemma counts_inline_data_null items :
  In JNull items -> forall kept, counts_inline_data (JArr items) <> Ok kept.
Proof.
  unfold counts_inline_data. cbn [as_array mbind result_bind].
  induction items as [|x rest IH]; intros Hin kept; [destruct Hin|].
  cbn [filter_with]. destruct Hin as [->|Hin].
  - cbn. discriminate.
  - destruct (get_prop x "data") as [d| |]; cbn [mbind result_bind]; try discriminate.
    destruct (filter_with _ rest) as [k| |] eqn:E; cbn [mbind result_bind];
      try discriminate.
    destruct (IH Hin k). reflexivity.
Qed.

(** X14.  [loadFiles] resets the file list to empty when its stored text
    does not parse, parses to something that is not an array, or parses to
    an array with a [null] element; the folder list is loaded all the
    same, and the current folder is the root. *)
Theorem loadFiles_corrupt_files (st : app) (text : string) (fs : list jsval)
  (ftext : string) :
  getItem FILES_STORAGE_KEY st = Some text ->
  text <> EmptyString ->
  (JSON_parse text = None
   \/ (exists v, JSON_parse text = Some v /\ is_array v = false)
   \/ (exists items, JSON_parse text = Some (JArr items) /\ In JNull items)) ->
  getItem FOLDERS_STORAGE_KEY st = Some ftext ->
  ftext <> EmptyString ->
  JSON_parse ftext = Some (JArr fs) ->
  uploadedFiles (loadFiles st) = JArr []
  /\ folders (loadFiles st) = JArr fs
  /\ currentFolder (loadFiles st) = JNull.
Proof.
  intros Hget Hne Hbad Hfget Hfne Hfp.
  assert (Ht : forall s, s <> EmptyString -> truthy (JStr s) = true).
  { intros s Hs. destruct (truthy (JStr s)) eqn:E; [reflexivity|].
    apply truthy_JStr in E. contradiction. }
  split; [|split; [|reflexivity]].
  - unfold loadFiles. cbn [uploadedFiles]. unfold loaded_files.
    rewrite Hget, (Ht _ Hne).
    destruct Hbad as [->|[[v [-> Hv]]|[items [-> Hin]]]]; [reflexivity| |].
    + unfold counts_inline_data. destruct v; try discriminate; reflexivity.
    + destruct (counts_inline_data (JArr items)) as [k| |] eqn:E; [|reflexivity..].
      destruct (counts_inline_data_null items Hin k E).
  - unfold loadFiles. cbn [folders]. unfold loaded_folders.
    rewrite Hfget, (Ht _ Hfne), Hfp. reflexivity.
Qed.

(** *** Folders in a cycle *)

Lemma filter_st_stuck (visit : jsval -> app -> result app) parentId items st f child w :
  forall i k,
    find_from (has_parent parentId) i items = Ok (Some (k, f)) ->
    get_prop f "id" = Ok child ->
    visit child st = Stuck w ->
    filter_st (fun f st0 =>
                 c ← has_parent parentId f;
                 if c : bool then
                   id ← get_prop f "id"; st1 ← visit id st0; Ok (false, st1)
                 else Ok (true, st0)) items st = Stuck w.
Proof.
  induction items as [|x rest IH]; intros i k Hfind Hid Hv; cbn in Hfind; [discriminate|].
  cbn [filter_st].
  destruct (has_parent parentId x) as [[|]| |]; cbn [mbind result_bind] in *;
    try discriminate.
  - injection Hfind as _ <-. rewrite Hid. cbn [mbind result_bind]. rewrite Hv. reflexivity.
  - rewrite (IH _ _ Hfind Hid Hv). reflexivity.
Qed.

Lemma deleteContents_step_stuck fuel parentId child st items w :
  folders st = JArr items ->
  first_child items parentId child ->
  deleteContents fuel child st = Stuck w ->
  deleteContents (S fuel) parentId st = Stuck w.
Proof.
  intros Hf [k [f [Hfind Hid]]] Hv.
  cbn [deleteContents]. rewrite Hf. cbn [as_array mbind result_bind].
  rewrite (filter_st_stuck (deleteContents fuel) parentId items st f child w 0 k Hfind Hid Hv).
  reflexivity.
Qed.

Lemma cycle_stuck st items a b :
  folders st = JArr items ->
  first_child items a b ->
  first_child items b a ->
  forall fuel,
    (exists w, deleteContents fuel a st = Stuck w)
    /\ (exists w, deleteContents fuel b st = Stuck w).
Proof.
  intros Hf Hab Hba. induction fuel as [|fuel [[wa IHa] [wb IHb]]].
  - split; eexists; reflexivity.
  - split.
    + exists wb. eapply deleteContents_step_stuck; eauto.
    + exists wa. eapply deleteContents_step_stuck; eauto.
Qed.

(** X15.  When two folders are each the first child of the other (the
    state [moveItem] produces when a folder is moved into its own
    child, which it accepts), [deleteFolder] on either of them never
    comes to an end: whatever the depth allowed to the recursion, it is
    exhausted, and nothing is deleted or saved. *)
Theorem deleteFolder_cycle (st : app) (items : list jsval) (a b : jsval) :
  folders st = JArr items ->
  first_child items a b ->
  first_child items b a ->
  forall fuel, exists w, deleteFolder fuel true a st = Stuck w.
Proof.
  intros Hf Hab Hba fuel.
  destruct (cycle_stuck st items a b Hf Hab Hba fuel) as [[w Hw] _].
  exists w. unfold deleteFolder. rewrite Hw. reflexivity.
Qed.

(** *** Retrieving the content of a file *)

(** X16.  [downloadFile] called with a value that is not an identifier
    but an object finds no file, shows "File not found." and hands
    nothing to the browser.  The two exports of the session list call
    the function of this name with a Blob as first argument. *)
Theorem downloadFile_object_argument (st : app) (items : list jsval)
  (fields : list (string * jsval)) :
  uploadedFiles st = JArr items ->
  Forall is_object items ->
  downloadFile (JObj fields) st = Ok (NotDownloaded, alert "File not found." st).
Proof.
  intros Hu Hobj. eapply downloadFile_of_object; eassumption.
Qed.

Lemma find_from_last id items x :
  Forall (fun f => exists fields, f = JObj fields /\ strict_eq (field "id" fields) id = false)
         items ->
  has_id id x = Ok true ->
  forall i, find_from (has_id id) i (items ++ [x]) = Ok (Some ((i + length items)%nat, x)).
Proof.
  intros Hall Hx. induction Hall as [|f rest [fields [-> Hne]] _ IH]; intros i.
  - cbn. rewrite Hx. cbn. do 3 f_equal. lia.
  - cbn [List.app find_from has_id get_prop mbind result_bind]. fold (field "id" fields).
    rewrite Hne. rewrite IH. do 3 f_equal. cbn [length]. lia.
Qed.

(** X17.  Upload then download: right after the Blob Store has
    completed the write of an uploaded file, [downloadFile] on its
    identifier hands the browser the name and the very bytes of that
    file, provided no record already in the list carries the same
    identifier. *)
Theorem upload_then_download (b b' : batch) (st st' : app) (i : nat) (file : upload)
  (fileId now : string) (st0 : app) (items : list jsval) :
  files b !! i = Some file ->
  status b !! i = Some (Writing (new_file file fileId now st0) fileId) ->
  uploadedFiles st = JArr items ->
  Forall (fun f => exists fields, f = JObj fields
                   /\ strict_eq (field "id" fields) (JStr fileId) = false) items ->
  step b st (PutSuccess i) = Some (b', st') ->
  downloadFile (JStr fileId) st'
  = Ok (Downloaded (JStr (up_name file)) (Blob (up_bytes file) (up_type file)), st').
Proof.
  intros Hfile Hst Hu Hids Hstep. cbn [step] in Hstep.
  rewrite Hfile in Hstep. cbn [mbind option_bind] in Hstep. rewrite Hst in Hstep.
  destruct (db st) as [d|] eqn:Hdb; [|discriminate].
  cbn [uploadedFiles set_db] in Hstep. rewrite Hu in Hstep.
  injection Hstep as _ <-.
  match goal with |- context [finish true ?b1 ?s2] =>
    destruct (finish_frame true b1 s2) as [Fu [Fd _]];
    set (final := finish true b1 s2) in * end.
  cbn [uploadedFiles db set_uploadedFiles set_db] in Fu, Fd.
  unfold downloadFile. rewrite Fu. cbn [as_array mbind result_bind].
  rewrite (find_from_last (JStr fileId) items _ Hids) by (cbn; rewrite String.eqb_refl; reflexivity).
  cbn [mbind result_bind]. cbn [truthy negb new_file legacy_blob get_prop lookup_field].
  cbn. rewrite Fd. unfold getFileFromIndexedDB. rewrite Fd, lookup_insert_eq. reflexivity.
Qed.

(** X18.  The order in which [downloadFile] looks for the content of
    the file it found: a non-empty inline payload that decodes is handed
    over whatever the Blob Store holds; without one, the entry of the
    Blob Store under the identifier is; with neither, a dialog says the
    data could not be retrieved and nothing is handed to the browser.  In
    no case does the function change the file list or the stores. *)
Theorem downloadFile_fallback_chain (fileId : jsval) (st : app) (items : list jsval)
  (k : nat) (fields : list (string * jsval)) :
  uploadedFiles st = JArr items ->
  find_from (has_id fileId) 0 items = Ok (Some (k, JObj fields)) ->
  (forall base64 mime bytes,
     lookup_field "data" fields = Some (JStr base64) -> base64 <> EmptyString ->
     record_mime (JObj fields) = Ok mime -> atob base64 = Some bytes ->
     downloadFile fileId st
     = Ok (Downloaded (field "name" fields) (Blob bytes (to_string mime)), st))
  /\ (forall stored,
        legacy_blob (JObj fields) = Ok None ->
        getFileFromIndexedDB fileId st = Some stored ->
        downloadFile fileId st = Ok (Downloaded (field "name" fields) stored, st))
  /\ (legacy_blob (JObj fields) = Ok None ->
      getFileFromIndexedDB fileId st = None ->
      exists st',
        downloadFile fileId st = Ok (NotDownloaded, st')
        /\ In (Alert "Could not retrieve file data. Please try again or re-upload the file.")
              (log st')
        /\ uploadedFiles st' = uploadedFiles st
        /\ db st' = db st
        /\ localStorage st' = localStorage st).
Proof.
  intros Hu Hfind.
  split; [|split].
  - intros base64 mime bytes Hdata Hne Hmime Hatob.
    unfold downloadFile. rewrite Hu. cbn [as_array mbind result_bind]. rewrite Hfind.
    cbn [mbind result_bind truthy negb].
    unfold legacy_blob. cbn [get_prop mbind result_bind]. rewrite Hdata.
    cbn [default from_option id].
    assert (Ht : truthy (JStr base64) = true).
    { destruct (truthy (JStr base64)) eqn:E; [reflexivity|].
      apply truthy_JStr in E. contradiction. }
    rewrite Ht, Hmime. cbn [mbind result_bind]. rewrite Hatob. reflexivity.
  - intros stored Hleg Hget.
    unfold downloadFile. rewrite Hu. cbn [as_array mbind result_bind]. rewrite Hfind.
    cbn [mbind result_bind truthy negb]. rewrite Hleg.
    unfold getFileFromIndexedDB in Hget |- *.
    destruct (db st) as [d|]; [|discriminate]. rewrite Hget. reflexivity.
  - intros Hleg Hget.
    unfold downloadFile. rewrite Hu. cbn [as_array mbind result_bind]. rewrite Hfind.
    cbn [mbind result_bind truthy negb]. rewrite Hleg.
    destruct (db st) as [d|] eqn:Hdb.
    + rewrite Hget. eexists. split; [reflexivity|].
      cbn. rewrite Hdb. split; [|auto]. apply in_app_iff. right. left. reflexivity.
    + eexists. split; [reflexivity|].
      cbn. rewrite Hdb. split; [|auto]. apply in_app_iff. right. left. reflexivity.
Qed.

(** *** Migrating a legacy record *)

Lemma find_from_holds p items :
  forall s i x, find_from p s items = Ok (Some (i, x)) -> p x = Ok true.
Proof.
  induction items as [|y rest IH]; intros s i x; cbn; [discriminate|].
  destruct (p y) as [[|]| |] eqn:E; cbn; try discriminate.
  - intros [= _ <-]. exact E.
  - apply IH.
Qed.

Lemma find_from_insert p items x x' :
  forall s i,
    find_from p s items = Ok (Some (i, x)) ->
    p x' = Ok true ->
    find_from p s (<[(i - s)%nat := x']> items) = Ok (Some (i, x')).
Proof.
  induction items as [|y rest IH]; intros s i Hfind Hx'; cbn in Hfind; [discriminate|].
  destruct (p y) as [[|]| |] eqn:E; cbn in Hfind; try discriminate.
  - injection Hfind as <- <-. rewrite Nat.sub_diag. cbn. rewrite Hx'. reflexivity.
  - destruct (find_from_lookup _ _ _ _ _ Hfind) as [k [-> _]].
    replace (S s + k - s)%nat with (S k) by lia. cbn. rewrite E. cbn.
    specialize (IH (S s) (S s + k)%nat Hfind Hx').
    replace (S s + k - S s)%nat with k in IH by lia. exact IH.
Qed.

(** X19.  A migration that resolves to [false] (no such record, no
    inline payload, no Blob Store, a payload that does not decode, a
    write that fails) has changed neither the file list, nor the Blob
    Store, nor the Metadata Store: the inline payload is still
    there. *)
Theorem migrateLegacyFile_failure (fileId : jsval) (put : put_outcome) (st st' : app) :
  migrateLegacyFile fileId put st = Ok (false, st') ->
  uploadedFiles st' = uploadedFiles st
  /\ db st' = db st
  /\ localStorage st' = localStorage st.
Proof.
  unfold migrateLegacyFile.
  destruct (as_array _ (uploadedFiles st)) as [items| |]; cbn [mbind result_bind];
    try discriminate.
  destruct (find_from _ 0 items) as [[[i file]|]| |]; cbn [mbind result_bind];
    try discriminate.
  2: { intros [= <-]. auto. }
  destruct (negb (truthy file)); [intros [= <-]; auto|].
  destruct (get_prop file "data") as [data| |]; cbn [mbind result_bind]; try discriminate.
  destruct data as [| | | |base64| | |]; try (intros [= <-]; auto).
  destruct file as [| | | | | |fields|]; try discriminate.
  destruct (negb (truthy (JStr base64))); [intros [= <-]; auto|].
  destruct (db st) as [d|] eqn:Hdb; [|intros [= <-]; cbn; auto].
  destruct (record_mime (JObj fields)) as [mime|e|w]; try discriminate.
  - destruct (atob base64) as [bytes|]; [|intros [= <-]; cbn; auto].
    destruct put; [|intros [= <-]; cbn; auto].
    destruct fileId; try discriminate; intros [= <-]; cbn; auto.
  - intros [= <-]. cbn. auto.
Qed.

(** X20.  A migration that succeeds puts the decoded payload in the
    Blob Store under the identifier of the record and sets the inline
    payload of the record to [undefined]; [downloadFile] hands over the
    same name and the same content after it as before it. *)
Theorem migrateLegacyFile_success (key : string) (st : app) (items : list jsval)
  (i : nat) (fields : list (string * jsval)) (base64 : string) (mime : jsval)
  (bytes : list Byte.byte) (d : gmap string blob) :
  uploadedFiles st = JArr items ->
  find_from (has_id (JStr key)) 0 items = Ok (Some (i, JObj fields)) ->
  lookup_field "data" fields = Some (JStr base64) ->
  base64 <> EmptyString ->
  record_mime (JObj fields) = Ok mime ->
  atob base64 = Some bytes ->
  db st = Some d ->
  exists st',
    migrateLegacyFile (JStr key) PutOk st = Ok (true, st')
    /\ db st' = Some (<[key := Blob bytes (to_string mime)]> d)
    /\ uploadedFiles st'
       = JArr (<[i := JObj (assign_field "data" JUndefined fields)]> items)
    /\ downloadFile (JStr key) st
       = Ok (Downloaded (field "name" fields) (Blob bytes (to_string mime)), st)
    /\ downloadFile (JStr key) st'
       = Ok (Downloaded (field "name" fields) (Blob bytes (to_string mime)), st').
Proof.
  intros Hu Hfind Hdata Hne Hmime Hatob Hdb.
  assert (Ht : truthy (JStr base64) = true).
  { destruct (truthy (JStr base64)) eqn:E; [reflexivity|].
    apply truthy_JStr in E. contradiction. }
  eexists. split; [|split; [|split; [|split]]].
  - unfold migrateLegacyFile. rewrite Hu. cbn [as_array mbind result_bind]. rewrite Hfind.
    cbn [mbind result_bind truthy negb get_prop]. rewrite Hdata.
    cbn [default from_option id]. rewrite Ht. cbn [negb]. rewrite Hdb, Hmime, Hatob.
    reflexivity.
  - destruct (saveFiles_frame
                (set_uploadedFiles
                   (JArr (<[i := JObj (assign_field "data" JUndefined fields)]> items))
                   (set_db (Some (<[key := Blob bytes (to_string mime)]> d)) st)))
      as [_ [_ [_ [-> _]]]]. reflexivity.
  - match goal with |- uploadedFiles (saveFiles ?s) = _ =>
      destruct (saveFiles_frame s) as [-> _] end. reflexivity.
  - unfold downloadFile. rewrite Hu. cbn [as_array mbind result_bind]. rewrite Hfind.
    cbn [mbind result_bind truthy negb].
    unfold legacy_blob. cbn [get_prop mbind result_bind]. rewrite Hdata.
    cbn [default from_option id]. rewrite Ht, Hmime. cbn [mbind result_bind].
    rewrite Hatob. reflexivity.
  - match goal with |- downloadFile _ (saveFiles ?s) = _ =>
      destruct (saveFiles_frame s) as [Fu [_ [_ [Fd _]]]];
      set (final := saveFiles s) in * end.
    cbn [uploadedFiles db set_uploadedFiles set_db] in Fu, Fd.
    unfold downloadFile. rewrite Fu. cbn [as_array mbind result_bind].
    pose proof (find_from_holds _ _ _ _ _ Hfind) as Hid.
    assert (Hid' : has_id (JStr key) (JObj (assign_field "data" JUndefined fields)) = Ok true).
    { cbn [has_id get_prop mbind result_bind] in Hid |- *.
      rewrite lookup_assign_field. exact Hid. }
    pose proof (find_from_insert _ _ _ _ 0 i Hfind Hid') as Hf'.
    rewrite Nat.sub_0_r in Hf'. rewrite Hf'.
    cbn [mbind result_bind truthy negb].
    unfold legacy_blob. cbn [get_prop mbind result_bind].
    rewrite !lookup_assign_field. cbn [String.eqb Ascii.eqb Bool.eqb default from_option id].
    rewrite Fd. unfold getFileFromIndexedDB. rewrite Fd, lookup_insert_eq.
    unfold field. reflexivity.
Qed.

(** *** The end of an upload batch *)

Lemma finish_without_success announce b st :
  successCount b = 0%nat -> finish announce b st = st.
Proof.
  intros H. unfold finish. rewrite H. rewrite andb_false_r. reflexivity.
Qed.

Lemma scan_without_success rest :
  forall b st,
    successCount b = 0%nat ->
    successCount (scan rest b st).1 = 0%nat
    /\ localStorage (scan rest b st).2 = localStorage st.
Proof.
  induction rest as [|file rest IH]; intros b st H0; [auto|].
  cbn [scan]. destruct (MAX_UPLOAD <? up_size file)%Z.
  - rewrite finish_without_success by exact H0.
    match goal with |- context [scan rest ?b1 ?s1] =>
      destruct (IH b1 s1 H0) as [-> ->] end. auto.
  - match goal with |- context [scan rest ?b1 ?s1] =>
      destruct (IH b1 s1 H0) as [-> ->] end. auto.
Qed.

(** How a callback leaves the batch: either the counters and the
    variables are as before (a write was issued), or the callback ended
    in the closing test. *)
Lemma step_shape b st c b' st' :
  step b st c = Some (b', st') ->
  (filesProcessed b' = filesProcessed b /\ successCount b' = successCount b
   /\ files b' = files b /\ st' = st)
  \/ (exists announce s,
        st' = finish announce b' s
        /\ files b' = files b
        /\ (successCount b' = successCount b
            /\ uploadedFiles s = uploadedFiles st /\ localStorage s = localStorage st
            \/ successCount b' = S (successCount b))).
Proof.
  intros Hstep.
  destruct c as [i fileId now|i|i|i message]; cbn [step] in Hstep;
    destruct (files b !! i) as [file|]; cbn -[abandon finish set_status] in Hstep;
    try discriminate.
  - destruct (status b !! i) as [[| | | |]|]; try discriminate.
    destruct (db st).
    + injection Hstep as <- <-. left. auto.
    + injection Hstep as <- <-. right. do 2 eexists. split; [reflexivity|]. cbn. auto.
  - destruct (status b !! i) as [[| | | |]|]; try discriminate.
    injection Hstep as <- <-. right. do 2 eexists. split; [reflexivity|]. cbn. auto.
  - destruct (status b !! i) as [[| |fileObj fileId| |]|]; try discriminate.
    destruct (db st) as [d|]; [|discriminate].
    destruct (uploadedFiles _) as [| | | | |items| |] eqn:Hu;
      injection Hstep as <- <-; right; do 2 eexists; (split; [reflexivity|]); cbn; auto.
  - destruct (status b !! i) as [[| |fileObj fileId| |]|]; try discriminate.
    injection Hstep as <- <-. right. do 2 eexists. split; [reflexivity|]. cbn. auto.
Qed.

Lemma run_without_success cs :
  forall b st b' st',
    run cs b st = Some (b', st') ->
    successCount b' = 0%nat ->
    successCount b = 0%nat
    /\ localStorage st' = localStorage st
    /\ uploadedFiles st' = uploadedFiles st.
Proof.
  induction cs as [|c cs IH]; intros b st b' st'; cbn [run].
  - intros [= <- <-]. auto.
  - destruct (step b st c) as [[b1 st1]|] eqn:Hstep; cbn; [|discriminate].
    intros Hrun H0. destruct (IH _ _ _ _ Hrun H0) as [H1 [Hl Hu]].
    destruct (step_shape _ _ _ _ _ Hstep) as [[_ [Hs [_ ->]]]|[a [s [-> [_ Hc]]]]].
    + rewrite <- Hs. auto.
    + rewrite finish_without_success in Hl, Hu by exact H1.
      destruct Hc as [[Hs [Hus Hls]]|Hs]; [|lia].
      rewrite <- Hs, Hl, Hu. auto.
Qed.

(** X21.  A batch in which no upload has succeeded, whether every file
    was over the limit, failed to read or failed to store, has written
    nothing to the Metadata Store and added nothing to the file list. *)
Theorem batch_without_success (fs : list upload) (st0 : app) (cs : list callback)
  (b : batch) (st : app) :
  run cs (handleFiles fs st0).1 (handleFiles fs st0).2 = Some (b, st) ->
  successCount b = 0%nat ->
  localStorage st = localStorage st0
  /\ uploadedFiles st = uploadedFiles st0.
Proof.
  intros Hrun H0.
  destruct (run_without_success cs _ _ _ _ Hrun H0) as [_ [Hl Hu]].
  unfold handleFiles in *.
  match type of Hl with context [scan fs ?b0 st0] =>
    destruct (scan_without_success fs b0 st0 eq_refl) as [_ Hl'];
    destruct (scan_spec fs b0 st0) as [_ [_ [Hu' _]]] end.
  rewrite Hl, Hl', Hu, Hu'. auto.
Qed.





(** *** The type of a file by its name *)

Lemma split_ends sep base ext :
  free_of sep ext = true ->
  exists w ws, split sep (base ++ String sep ext) = (w :: ws ++ [ext])%list.
Proof.
  intros Hfree. induction base as [|c base [w [ws IH]]].
  - change (EmptyString ++ String sep ext) with (String sep ext).
    cbn [split]. rewrite Ascii.eqb_refl.
    assert (Hs : split sep ext = [ext]).
    { clear -Hfree. induction ext as [|c ext IH]; [reflexivity|].
      cbn in Hfree. apply andb_prop in Hfree as [Hc Hr].
      cbn [split]. apply negb_true_iff in Hc. rewrite Hc, (IH Hr). reflexivity. }
    rewrite Hs. exists EmptyString, []. reflexivity.
  - change (String c base ++ String sep ext) with (String c (base ++ String sep ext)).
    cbn [split]. rewrite IH.
    destruct (Ascii.eqb c sep).
    + exists EmptyString, (w :: ws). reflexivity.
    + exists (String c w), ws. reflexivity.
Qed.

Lemma split_whole sep s : free_of sep s = true -> split sep s = [s].
Proof.
  induction s as [|c s IH]; [reflexivity|].
  cbn. intros H. apply andb_prop in H as [Hc Hr].
  apply negb_true_iff in Hc. rewrite Hc, (IH Hr). reflexivity.
Qed.

Lemma lower_char_small c : is_capital (lower_char c) = false.
Proof. destruct c as [[] [] [] [] [] [] [] []]; reflexivity. Qed.

Lemma toLowerCase_small s : has_capital (toLowerCase s) = false.
Proof.
  induction s as [|c s IH]; [reflexivity|].
  cbn [toLowerCase has_capital]. rewrite lower_char_small, IH. reflexivity.
Qed.

Lemma toLowerCase_not_capital s k :
  has_capital k = true -> String.eqb (toLowerCase s) k = false.
Proof.
  intros Hk. apply String.eqb_neq. intros <-.
  rewrite toLowerCase_small in Hk. discriminate.
Qed.

(** Of the names an object literal inherits, only [constructor] and
    [__proto__] can be the lower-case form of a text. *)
Lemma inherited_member_lower s :
  toLowerCase s <> "constructor" -> toLowerCase s <> "__proto__" ->
  inherited_member (toLowerCase s) = None.
Proof.
  intros Hc Hp. unfold inherited_member.
  apply String.eqb_neq in Hc, Hp. rewrite Hc, Hp.
  unfold inherited_methods. cbn [existsb].
  rewrite !toLowerCase_not_capital by reflexivity. reflexivity.
Qed.

Lemma getMimeType_last base ext :
  free_of "." ext = true ->
  getMimeType (base ++ "." ++ ext)
  = js_or (literal_get mimeTypes (toLowerCase ext)) (JStr "application/octet-stream")
  /\ getMimeType ext
     = js_or (literal_get mimeTypes (toLowerCase ext)) (JStr "application/octet-stream").
Proof.
  intros Hfree. unfold getMimeType. split.
  - destruct (split_ends "." base ext Hfree) as [w [ws Hs]].
    change ("." ++ ext) with (String "." ext). rewrite Hs.
    change (w :: ws ++ [ext])%list with ((w :: ws) ++ [ext])%list.
    rewrite List.last_last. reflexivity.
  - rewrite (split_whole "." ext Hfree). reflexivity.
Qed.

(** X23.  [getMimeType] decides by the text after the last dot of the
    name (by the whole name when it has no dot), without regard to
    case: an extension its table lists gets the type listed; one it
    does not list gets [application/octet-stream], unless its
    lower-case form is [constructor] or [__proto__]: the table being an
    object literal, the result is then no string but the function
    [Object], or the prototype of objects. *)
Theorem getMimeType_by_extension (base ext : string) :
  free_of "." ext = true ->
  getMimeType (base ++ "." ++ ext) = getMimeType ext
  /\ (forall type, table_lookup (toLowerCase ext) mimeTypes = Some type ->
        getMimeType ext = JStr type)
  /\ (table_lookup (toLowerCase ext) mimeTypes = None ->
      toLowerCase ext <> "constructor" -> toLowerCase ext <> "__proto__" ->
      getMimeType ext = JStr "application/octet-stream")
  /\ (toLowerCase ext = "constructor" -> getMimeType ext = JFun "Object")
  /\ (toLowerCase ext = "__proto__" -> getMimeType ext = JObj []).
Proof.
  intros Hfree. destruct (getMimeType_last base ext Hfree) as [-> ->].
  split; [reflexivity|]. unfold literal_get. repeat split.
  - intros type Ht. rewrite Ht. unfold js_or. cbn [truthy].
    destruct (negb (String.eqb type EmptyString)) eqn:E; [reflexivity|].
    exfalso. apply negb_false_iff, String.eqb_eq in E. subst type.
    revert Ht. generalize (toLowerCase ext). intros k.
    unfold mimeTypes. cbn [table_lookup].
    repeat (destruct (String.eqb k _); [discriminate|]). discriminate.
  - intros -> Hc Hp. rewrite (inherited_member_lower ext Hc Hp). reflexivity.
  - intros ->. reflexivity.
  - intros ->. reflexivity.
Qed.

(** *** The files of a deleted folder *)

Lemma deleteFileFromIndexedDB_files id st st' :
  deleteFileFromIndexedDB id st = Ok st' -> uploadedFiles st' = uploadedFiles st.
Proof.
  unfold deleteFileFromIndexedDB.
  destruct (db st), id; try discriminate; intros [= <-]; reflexivity.
Qed.

Lemma delete_blobs_files doomed :
  forall st st', delete_blobs doomed st = Ok st' -> uploadedFiles st' = uploadedFiles st.
Proof.
  unfold delete_blobs.
  induction doomed as [|file rest IH]; intros st st'; cbn.
  - intros [= <-]. reflexivity.
  - destruct (get_prop file "id") as [id| |] eqn:E; cbn.
    + destruct (deleteFileFromIndexedDB id st) as [st1| |] eqn:D; cbn.
      * intros H. rewrite (IH _ _ H). eapply deleteFileFromIndexedDB_files, D.
      * intros H. exfalso. revert H. apply foldl_failed; [reflexivity|discriminate].
      * intros H. exfalso. revert H. apply foldl_failed; [reflexivity|discriminate].
    + intros H. exfalso. revert H. apply foldl_failed; [reflexivity|discriminate].
    + intros H. exfalso. revert H. apply foldl_failed; [reflexivity|discriminate].
Qed.

Lemma filter_with_sublist p items kept :
  filter_with p items = Ok kept ->
  sublist kept items /\ Forall (fun x => p x = Ok true) kept.
Proof.
  revert kept. induction items as [|x rest IH]; intros kept; cbn.
  - intros [= <-]. split; constructor.
  - destruct (p x) as [b| |] eqn:E; cbn; try discriminate.
    destruct (filter_with p rest) as [kept'| |]; cbn; try discriminate.
    destruct (IH kept' eq_refl) as [Hsub Hall].
    intros [= <-]. destruct b.
    + split; [constructor; exact Hsub|constructor; assumption].
    + split; [constructor; exact Hsub|exact Hall].
Qed.

Lemma filter_st_files visit parentId items :
  shrinks_files visit ->
  forall st kept st' files,
    filter_st (fun f st0 =>
                 c ← has_parent parentId f;
                 if c : bool then
                   id ← get_prop f "id"; st1 ← visit id st0; Ok (false, st1)
                 else Ok (true, st0)) items st = Ok (kept, st') ->
    uploadedFiles st = JArr files ->
    exists files', uploadedFiles st' = JArr files' /\ sublist files' files.
Proof.
  intros Hv. induction items as [|f rest IH]; intros st kept st' files.
  - cbn. intros [= _ <-] Hu. exists files. split; [exact Hu|reflexivity].
  - cbn [filter_st].
    destruct (has_parent parentId f) as [[|]| |]; cbn [mbind result_bind];
      try discriminate.
    + destruct (get_prop f "id") as [id| |]; cbn [mbind result_bind]; try discriminate.
      destruct (visit id st) as [st1| |] eqn:Hvisit; cbn [mbind result_bind];
        try discriminate.
      destruct (filter_st _ rest st1) as [[kept' st2]| |] eqn:E;
        cbn [mbind result_bind]; try discriminate.
      intros [= _ <-] Hu.
      destruct (Hv _ _ _ _ Hvisit Hu) as [files1 [Hu1 Hsub1]].
      destruct (IH _ _ _ _ E Hu1) as [files2 [Hu2 Hsub2]].
      exists files2. split; [exact Hu2|]. transitivity files1; assumption.
    + destruct (filter_st _ rest st) as [[kept' st2]| |] eqn:E;
        cbn [mbind result_bind]; try discriminate.
      intros [= _ <-] Hu. exact (IH _ _ _ _ E Hu).
Qed.

Lemma deleteContents_files fuel :
  forall parentId st st' files,
    deleteContents fuel parentId st = Ok st' ->
    uploadedFiles st = JArr files ->
    exists files',
      uploadedFiles st' = JArr files'
      /\ sublist files' files
      /\ Forall (fun f => has_parent parentId f = Ok false) files'.
Proof.
  induction fuel as [|fuel IH]; intros parentId st st' files; cbn [deleteContents];
    [discriminate|].
  destruct (as_array _ (folders st)) as [items| |]; cbn [mbind result_bind];
    try discriminate.
  destruct (filter_st _ items st) as [[kept st1]| |] eqn:E; cbn [mbind result_bind];
    try discriminate.
  intros Hrun Hu.
  assert (Hshrink : shrinks_files (deleteContents fuel)).
  { intros id s s' fl Hs Hfl. destruct (IH _ _ _ _ Hs Hfl) as [fl' [H1 [H2 _]]]. eauto. }
  destruct (filter_st_files _ _ _ Hshrink _ _ _ _ E Hu) as [files1 [Hu1 Hsub1]].
  cbn [uploadedFiles set_folders] in Hrun. rewrite Hu1 in Hrun.
  cbn [as_array mbind result_bind] in Hrun.
  destruct (filter_with (has_parent parentId) files1) as [doomed| |];
    cbn [mbind result_bind] in Hrun; try discriminate.
  destruct (delete_blobs doomed _) as [st3| |] eqn:Hd; cbn [mbind result_bind] in Hrun;
    try discriminate.
  apply delete_blobs_files in Hd. cbn [uploadedFiles set_folders] in Hd.
  rewrite Hd, Hu1 in Hrun. cbn [as_array mbind result_bind] in Hrun.
  destruct (filter_with _ files1) as [remaining| |] eqn:Hrem;
    cbn [mbind result_bind] in Hrun; try discriminate.
  injection Hrun as <-. cbn [uploadedFiles set_uploadedFiles].
  destruct (filter_with_sublist _ _ _ Hrem) as [Hsub Hall].
  exists remaining. split; [reflexivity|]. split; [transitivity files1; assumption|].
  eapply Forall_impl; [exact Hall|]. cbn. intros f Hf.
  destruct (has_parent parentId f) as [[|]| |]; cbn in Hf; congruence.
Qed.

(** X24.  After a confirmed [deleteFolder] no file is left directly in
    the folder, and the file list is made of files it already held, in
    their order and unaltered: nothing is added and no file is
    changed. *)
Theorem deleteFolder_files (fuel : nat) (folderId : jsval) (st st' : app)
  (files : list jsval) :
  uploadedFiles st = JArr files ->
  deleteFolder fuel true folderId st = Ok st' ->
  exists files',
    uploadedFiles st' = JArr files'
    /\ sublist files' files
    /\ Forall (fun f => has_parent folderId f = Ok false) files'.
Proof.
  intros Hu. unfold deleteFolder.
  destruct (deleteContents fuel folderId st) as [st1| |] eqn:E; cbn [mbind result_bind];
    try discriminate.
  intros [= <-].
  destruct (deleteContents_files _ _ _ _ _ E Hu) as [files' [H1 [H2 H3]]].
  exists files'. destruct (saveFiles_frame st1) as [-> _]. auto.
Qed.

(** *** Moving a folder into its own child *)

(** X25.  [moveItem] only refuses the folder itself as a target: a
    folder is moved into any other folder, its own child included, and
    the new parent is saved.  When that leaves the two folders each the
    first child of the other, [deleteFolder] on the moved folder never
    comes to an end. *)
Theorem moveItem_into_child (a b : string) (st : app) (items : list jsval) (i : nat)
  (fa : list (string * jsval)) :
  folders st = JArr items ->
  find_from (has_id (JStr a)) 0 items = Ok (Some (i, JObj fa)) ->
  a <> b ->
  exists st',
    moveItem (JStr a) "folder" (JStr b) st = Ok st'
    /\ folders st' = JArr (<[i := JObj (assign_field "parentId" (JStr b) fa)]> items)
    /\ localStorage st' !! FOLDERS_STORAGE_KEY = Some (JSON_stringify (folders st'))
    /\ (first_child (<[i := JObj (assign_field "parentId" (JStr b) fa)]> items)
          (JStr a) (JStr b) ->
        first_child (<[i := JObj (assign_field "parentId" (JStr b) fa)]> items)
          (JStr b) (JStr a) ->
        forall fuel, exists w, deleteFolder fuel true (JStr a) st' = Stuck w).
Proof.
  intros Hf Hfind Hne. unfold moveItem. cbn [String.eqb Ascii.eqb Bool.eqb].
  rewrite Hf. cbn [as_array mbind result_bind]. rewrite Hfind.
  cbn [mbind result_bind truthy strict_eq].
  assert (Hba : String.eqb b a = false) by (apply String.eqb_neq; congruence).
  rewrite Hba. cbn [negb andb reparent mbind result_bind].
  eexists. split; [reflexivity|].
  destruct (saveFiles_frame
              (set_folders (JArr (<[i := JObj (assign_field "parentId" (JStr b) fa)]> items))
                 st)) as (_ & Hfolders & _).
  split; [exact Hfolders|]. split.
  - rewrite Hfolders. unfold saveFiles. cbn [folders set_folders].
    destruct (_ ≫= _); cbn; apply lookup_insert_eq || (rewrite lookup_insert_ne by discriminate; apply lookup_insert_eq).
  - intros Hab Hcycle fuel.
    destruct (cycle_stuck _ _ _ _ Hfolders Hab Hcycle fuel) as [[w Hw] _].
    exists w. unfold deleteFolder. rewrite Hw. reflexivity.
Qed.

End Program.

(** ** The program run on concrete data, with the JSON codec above *)

(** Scenario A on the initial state (C4). *)
Lemma saveSession_scenarioA_witness :
  exists st',
    saveSession MiniJSON.stringify (scenarioA EmptyString "Internship") "s1" PostOk
                (initial ∅) = Ok st'
    /\ sessions st' = JArr ([] ++ [scenarioA_session "s1" EmptyString "Internship" 480]).
Proof.
  apply (saveSession_scenarioA MiniJSON.stringify EmptyString "Internship" "s1" PostOk
           (initial ∅) []).
  reflexivity.
Defined.

(** Scenario A does not produce a session of 450 net minutes (C4). *)
Lemma saveSession_scenarioA_not_450 :
  ~ (exists st',
       saveSession MiniJSON.stringify (scenarioA EmptyString "Internship") "s1" PostOk
                   (initial ∅) = Ok st'
       /\ sessions st' = JArr ([] ++ [scenarioA_session "s1" EmptyString "Internship" 450])).
Proof.
  intros [st' [Hrun Hs]].
  vm_compute in Hrun. injection Hrun as <-.
  vm_compute in Hs. discriminate Hs.
Qed.


(** An oversized archive and a small text file in one batch: the
    archive is refused by the loop; the text file is read, written, and
    its record appended (C7). *)
Lemma handleFiles_batch_witness :
  In (Alert (too_large (Upload "plans.zip" "application/zip" (MAX_UPLOAD + 1) [])))
     (log (handleFiles MiniJSON.stringify demo_batch demo_state).2)
  /\ status (handleFiles MiniJSON.stringify demo_batch demo_state).1 = [Skipped; Reading]
  /\ exists b1 b2 st2,
       step MiniJSON.stringify size_text
            (handleFiles MiniJSON.stringify demo_batch demo_state).1
            (handleFiles MiniJSON.stringify demo_batch demo_state).2
            (ReaderLoad 1 "f-1" "2024-03-01T10:00:00.000Z")
       = Some (b1, (handleFiles MiniJSON.stringify demo_batch demo_state).2)
       /\ step MiniJSON.stringify size_text b1
              (handleFiles MiniJSON.stringify demo_batch demo_state).2 (PutSuccess 1)
          = Some (b2, st2)
       /\ uploadedFiles st2
          = JArr [JObj [("id", JStr "f-1"); ("name", JStr "a.txt");
                        ("size", JStr "5 Bytes");
                        ("uploadedAt", JStr "2024-03-01T10:00:00.000Z");
                        ("type", JStr "text/plain"); ("parentId", JNull)]]
       /\ db st2 = Some (<["f-1" := Blob hello EmptyString]> ∅)
       /\ status b2 !! 1%nat = Some Stored.
Proof.
  destruct (handleFiles_batch MiniJSON.stringify size_text demo_batch demo_state []
              [] _ _ eq_refl eq_refl)
    as (Hbig & _ & added & Hu & _ & _ & Hstored & _).
  split; [|split].
  - exact (proj1 (Hbig 0%nat _ eq_refl eq_refl)).
  - reflexivity.
  - destruct (Hstored 1%nat (Upload "a.txt" EmptyString 5 hello) "f-1"
                "2024-03-01T10:00:00.000Z" ∅ eq_refl eq_refl eq_refl)
      as (b1 & b2 & st2 & H1 & H2 & H3 & H4 & H5 & _).
    exists b1, b2, st2. split; [exact H1|]. split; [exact H2|].
    split; [|split; [exact H4|exact H5]].
    assert (Hadded : added = []).
    { vm_compute in Hu. injection Hu as <-. reflexivity. }
    rewrite H3, Hadded. reflexivity.
Defined.

(** Export of one session: nothing is downloaded; the snapshot, had it
    been written to a file, is imported into an empty list (C8). *)
Lemma exportJSON_without_download_witness :
  exportJSON MiniJSON.stringify base64_decode "2024-03-05T12:00:00.000Z" unsaved_state
  = Ok (NotDownloaded, alert "File not found." unsaved_state)
  /\ sessions (importJSON MiniJSON.stringify MiniJSON.parse
                 (MiniJSON.stringify
                    (export_snapshot "2024-03-05T12:00:00.000Z" unsaved_state))
                 PostOk (initial ∅))
     = JArr [edited_before].
Proof.
  destruct (exportJSON_without_download MiniJSON.stringify MiniJSON.stringify
              MiniJSON.parse base64_decode "2024-03-05T12:00:00.000Z" unsaved_state
              (initial ∅) [edited_before] [] PostOk eq_refl eq_refl ltac:(constructor))
    as (Hexport & _ & Himport & _).
  split; [exact Hexport|].
  apply Himport. vm_compute. reflexivity.
Defined.

(** Saving the file list while a legacy record is in memory (C9). *)
Lemma saveFiles_metadata_only_witness :
  exists metas,
    localStorage (saveFiles MiniJSON.stringify legacy_state) !! FILES_STORAGE_KEY
    = Some (MiniJSON.stringify (JArr metas))
    /\ Forall2 persisted_as [legacy_file; file4] metas
    /\ Forall metadata_only metas
    /\ db (saveFiles MiniJSON.stringify legacy_state) = db legacy_state.
Proof.
  apply (saveFiles_metadata_only MiniJSON.stringify legacy_state [legacy_file; file4]);
    [reflexivity|].
  constructor; [eexists; reflexivity|].
  constructor; [eexists; reflexivity|constructor].
Defined.

(** Sessions that record 8 and 4 hours are pushed with a total of 12;
    a form-made session of 480 net minutes is pushed with a total of 0
    (C10). *)
Lemma pushed_totalHours_witness :
  In (FetchPost "/api/data"
        (MiniJSON.stringify
           (JObj [("sessions", JArr hours_sessions); ("totalHours", JInt 12)])))
     (log (saveData MiniJSON.stringify PostOk hours_state))
  /\ In (FetchPost "/api/data"
           (MiniJSON.stringify
              (JObj [("sessions", JArr [edited_before]); ("totalHours", JInt 0)])))
        (log (saveData MiniJSON.stringify PostOk unsaved_state)).
Proof.
  split.
  - apply (proj1 (pushed_totalHours MiniJSON.stringify PostOk hours_state)
             hours_sessions [8%Z; 4%Z] eq_refl).
    + constructor; [eexists; split; [reflexivity|left; reflexivity]|].
      constructor; [eexists; split; [reflexivity|left; reflexivity]|constructor].
    + repeat constructor; lia.
    + unfold safe_integer. cbn. lia.
  - refine (proj2 (proj2 (pushed_totalHours MiniJSON.stringify PostOk unsaved_state)
                     [edited_before] eq_refl _)).
    constructor; [apply made_new|constructor].
Defined.

(** ** Further runs on concrete data *)

Ltac objects := repeat first [constructor | eexists; reflexivity].

(** A form whose end is before its start is refused. *)
Lemma saveSession_refuses_witness :
  saveSession MiniJSON.stringify
    (timed_form "2024-03-04" 17 0 9 0 "30" EmptyString "Internship") "s2" PostOk
    unsaved_state
  = Ok (alert "Invalid time range or break duration is too long" unsaved_state).
Proof.
  apply (proj2 (saveSession_refuses MiniJSON.stringify PostOk unsaved_state "s2")
           "2024-03-04" 17%Z 0%Z 9%Z 0%Z "30" 30%Z EmptyString "Internship");
    try lia; [discriminate|reflexivity|left; unfold minutes_of; lia].
Defined.

(** A day from 9:00 to 17:30 with a break of 30 minutes is stored. *)
Lemma saveSession_accepts_witness :
  exists st',
    saveSession MiniJSON.stringify
      (timed_form "2024-03-04" 9 0 17 30 "30" EmptyString "Internship") "s2" PostOk
      unsaved_state = Ok st'
    /\ sessions st'
       = JArr ([edited_before]
               ++ [new_session (JStr "s2") (JStr "2024-03-04") (JStr (formatTime 9 0))
                     (JStr (formatTime 17 30)) (JInt 30) (JStr EmptyString)
                     (JStr "Internship")
                     (Num (minutes_of 17 30 - minutes_of 9 0 - 30))])
    /\ localStorage st' !! STORAGE_KEY = Some (MiniJSON.stringify (sessions st'))
    /\ selectedDate st' = JNull.
Proof.
  apply (saveSession_accepts MiniJSON.stringify "2024-03-04" 9 0 17 30 "30" 30
           EmptyString "Internship" "s2" PostOk unsaved_state [edited_before]);
    try lia; try reflexivity; try discriminate; unfold safe_integer, minutes_of; lia.
Defined.

(** The total grows from 480 to 960 minutes. *)
Lemma totalMinutes_saveSession_witness :
  exists st',
    saveSession MiniJSON.stringify
      (timed_form "2024-03-04" 9 0 17 30 "30" EmptyString "Internship") "s2" PostOk
      unsaved_state = Ok st'
    /\ totalMinutes (sessions st')
       = Ok (JInt (480 + (minutes_of 17 30 - minutes_of 9 0 - 30))).
Proof.
  apply (totalMinutes_saveSession MiniJSON.stringify "2024-03-04" 9 0 17 30 "30" 30
           EmptyString "Internship" "s2" PostOk unsaved_state [edited_before] 480);
    try lia; try reflexivity; try discriminate;
    try (unfold safe_integer, minutes_of; lia).
  constructor; [exists 480%Z; split; [reflexivity|lia]|constructor].
Defined.

(** An accepted edit of the one session. *)
Lemma updateSession_keeps_ids_witness :
  exists items',
    sessions (after_edit MiniJSON.stringify) = JArr items'
    /\ map id_of items' = map id_of [edited_before].
Proof.
  apply (updateSession_keeps_ids MiniJSON.stringify good_edit PostOk editing_state
           (after_edit MiniJSON.stringify) [edited_before]);
    [reflexivity|vm_compute; reflexivity].
Defined.

(** Deleting the session that is being edited. *)
Lemma deleteCurrentSession_removes_witness :
  exists st',
    deleteCurrentSession MiniJSON.stringify true PostOk editing_state = Ok st'
    /\ sessions st'
       = JArr (List.filter (fun s => negb (strict_eq (id_of s) (JStr "s1")))
                 [edited_before])
    /\ localStorage st' !! STORAGE_KEY = Some (MiniJSON.stringify (sessions st'))
    /\ editingSessionId st' = JNull.
Proof.
  apply (proj1 (deleteCurrentSession_removes MiniJSON.stringify PostOk editing_state
                  "s1" [edited_before] eq_refl ltac:(objects)));
    [reflexivity|discriminate].
Defined.

(** The remote store answers with one session. *)
Lemma loadData_success_witness :
  sessions (loadData MiniJSON.stringify MiniJSON.parse
              (server_has (JArr [edited_before])) (initial ∅))
  = JArr [edited_before]
  /\ localStorage (loadData MiniJSON.stringify MiniJSON.parse
                     (server_has (JArr [edited_before])) (initial ∅))
     !! STORAGE_KEY = Some (MiniJSON.stringify (JArr [edited_before])).
Proof.
  apply (loadData_success MiniJSON.stringify MiniJSON.parse (JArr [edited_before])
           (initial ∅)).
  reflexivity.
Defined.

(** A success response without a [data] field. *)
Lemma loadData_ok_without_sessions_witness :
  loadData MiniJSON.stringify MiniJSON.parse
    (GetResponse true 200 (Some (JObj [("status", JStr "ok")]))) unsaved_state
  = unsaved_state.
Proof.
  apply (loadData_ok_without_sessions MiniJSON.stringify MiniJSON.parse 200
           [("status", JStr "ok")] unsaved_state).
  left. reflexivity.
Defined.

(** A file that holds an empty object. *)
Lemma importJSON_refuses_witness :
  exists message,
    importJSON MiniJSON.stringify MiniJSON.parse "{}" PostOk unsaved_state
    = alert message unsaved_state.
Proof.
  apply (importJSON_refuses MiniJSON.stringify MiniJSON.parse "{}" PostOk unsaved_state).
  vm_compute. reflexivity.
Defined.

(** Clearing, then reloading from a remote store that still holds the
    session. *)
Lemma clearAllData_local_only_witness :
  sessions (clearAllData true true unsaved_state) = JArr []
  /\ getItem STORAGE_KEY (clearAllData true true unsaved_state) = None
  /\ log (clearAllData true true unsaved_state)
     = (log unsaved_state ++ [Alert "All data cleared"])%list
  /\ sessions (loadData MiniJSON.stringify MiniJSON.parse
                 (server_has (JArr [edited_before]))
                 (clearAllData true true unsaved_state))
     = JArr [edited_before].
Proof.
  apply (clearAllData_local_only MiniJSON.stringify MiniJSON.parse unsaved_state
           (JArr [edited_before])).
  reflexivity.
Defined.

(** The button for eight hours. *)
Lemma addQuickSession_preview_witness :
  in_startTime (addQuickSession 8 "Full day" "2024-03-04" (initial ∅)).1 = formatTime 8 30
  /\ in_endTime (addQuickSession 8 "Full day" "2024-03-04" (initial ∅)).1
     = formatTime (9 + 8) 0
  /\ preview_minutes (addQuickSession 8 "Full day" "2024-03-04" (initial ∅)).1
     = Ok (Num (60 * 8)).
Proof.
  apply (addQuickSession_preview 8 "Full day" "2024-03-04" (initial ∅)). lia.
Defined.

(** A folder name of a space and a no-break space. *)
Lemma createFolder_blank_witness :
  createFolder MiniJSON.stringify (String (ascii_of_nat 160) " ") 1709283600000
               "2024-03-01T09:00:00.000Z" tree_state
  = Ok (alert "Please enter a folder name" tree_state).
Proof.
  apply (createFolder_blank MiniJSON.stringify (String (ascii_of_nat 160) " ")
           1709283600000 "2024-03-01T09:00:00.000Z" tree_state).
  reflexivity.
Defined.

(** Moving the folder A into itself. *)
Lemma moveItem_self_witness :
  moveItem MiniJSON.stringify (JStr "A") "folder" (JStr "A") tree_state = Ok tree_state.
Proof.
  apply (moveItem_self MiniJSON.stringify "A" tree_state [fA; fB; fC; fD]);
    [reflexivity|objects].
Defined.

(** Saving and reloading a list that holds a legacy record. *)
Lemma saveFiles_loadFiles_witness :
  uploadedFiles (loadFiles MiniJSON.parse (saveFiles MiniJSON.stringify legacy_state))
  = JArr [legacy_metadata; file4].
Proof.
  refine (proj1 (proj2 (saveFiles_loadFiles MiniJSON.stringify MiniJSON.parse eq_refl
                          legacy_state [] [legacy_file; file4] [legacy_metadata; file4]
                          _ _ _ _ _ _)));
    try reflexivity; try (vm_compute; reflexivity); objects.
Defined.

(** A stored file list that holds a [null]. *)
Lemma loadFiles_corrupt_files_witness :
  uploadedFiles (loadFiles MiniJSON.parse corrupt_store) = JArr []
  /\ folders (loadFiles MiniJSON.parse corrupt_store) = JArr [fA]
  /\ currentFolder (loadFiles MiniJSON.parse corrupt_store) = JNull.
Proof.
  apply (loadFiles_corrupt_files MiniJSON.parse corrupt_store "[null]" [fA]
           (MiniJSON.stringify (JArr [fA])));
    [reflexivity|discriminate| |reflexivity|discriminate|vm_compute; reflexivity].
  right. right. exists [JNull]. split; [vm_compute; reflexivity|left; reflexivity].
Defined.

(** Two folders that contain each other. *)
Lemma deleteFolder_cycle_witness :
  exists w, deleteFolder MiniJSON.stringify 1000 true (JStr "X") cycle_state = Stuck w.
Proof.
  apply (deleteFolder_cycle MiniJSON.stringify cycle_state
           [folder_rec "X" "in" (JStr "Y"); folder_rec "Y" "out" (JStr "X")]
           (JStr "X") (JStr "Y")).
  - reflexivity.
  - exists 1%nat, (folder_rec "Y" "out" (JStr "X")). split; reflexivity.
  - exists 0%nat, (folder_rec "X" "in" (JStr "Y")). split; reflexivity.
Defined.

(** The call [downloadFile(blob, filename)] of the exports. *)
Lemma downloadFile_object_argument_witness :
  downloadFile base64_decode (JObj [("size", JInt 120); ("type", JStr "text/csv")])
               tree_state
  = Ok (NotDownloaded, alert "File not found." tree_state).
Proof.
  apply (downloadFile_object_argument base64_decode tree_state
           [file1; file2; file3; file4]);
    [reflexivity|objects].
Defined.

(** The text file of [demo_batch], written and then downloaded. *)
Lemma upload_then_download_witness :
  downloadFile base64_decode (JStr "f-1") (demo_done MiniJSON.stringify size_text).2
  = Ok (Downloaded (JStr "a.txt") (Blob hello EmptyString),
        (demo_done MiniJSON.stringify size_text).2).
Proof.
  apply (upload_then_download MiniJSON.stringify size_text base64_decode
           (demo_loaded MiniJSON.stringify size_text).1
           (demo_done MiniJSON.stringify size_text).1
           (demo_loaded MiniJSON.stringify size_text).2
           (demo_done MiniJSON.stringify size_text).2
           1 (Upload "a.txt" EmptyString 5 hello) "f-1" "2024-03-01T10:00:00.000Z"
           demo_state []);
    [reflexivity|vm_compute; reflexivity|reflexivity|constructor|vm_compute; reflexivity].
Defined.

(** A legacy record is served from its inline content. *)
Lemma downloadFile_fallback_chain_witness :
  downloadFile base64_decode (JStr "old1") legacy_state
  = Ok (Downloaded (field "name" legacy_fields) (Blob hello (to_string (JStr "application/pdf"))),
        legacy_state).
Proof.
  apply (proj1 (downloadFile_fallback_chain base64_decode (JStr "old1") legacy_state
                  [legacy_file; file4] 0 legacy_fields eq_refl eq_refl)
           "aGVsbG8=" (JStr "application/pdf") hello);
    [reflexivity|discriminate|reflexivity|reflexivity].
Defined.

(** The Blob Store refuses the content of a legacy record. *)
Lemma migrateLegacyFile_failure_witness :
  exists st',
    migrateLegacyFile MiniJSON.stringify base64_decode (JStr "old1")
      (PutFailed "QuotaExceededError") legacy_state = Ok (false, st')
    /\ uploadedFiles st' = uploadedFiles legacy_state
    /\ db st' = db legacy_state
    /\ localStorage st' = localStorage legacy_state.
Proof.
  eexists. split; [vm_compute; reflexivity|].
  apply (migrateLegacyFile_failure MiniJSON.stringify base64_decode (JStr "old1")
           (PutFailed "QuotaExceededError") legacy_state).
  vm_compute. reflexivity.
Defined.

(** The Blob Store accepts the content of a legacy record. *)
Lemma migrateLegacyFile_success_witness :
  exists st',
    migrateLegacyFile MiniJSON.stringify base64_decode (JStr "old1") PutOk legacy_state
    = Ok (true, st')
    /\ db st' = Some (<["old1" := Blob hello (to_string (JStr "application/pdf"))]> ∅)
    /\ uploadedFiles st'
       = JArr (<[0%nat := JObj (assign_field "data" JUndefined legacy_fields)]>
                 [legacy_file; file4])
    /\ downloadFile base64_decode (JStr "old1") legacy_state
       = Ok (Downloaded (field "name" legacy_fields)
               (Blob hello (to_string (JStr "application/pdf"))), legacy_state)
    /\ downloadFile base64_decode (JStr "old1") st'
       = Ok (Downloaded (field "name" legacy_fields)
               (Blob hello (to_string (JStr "application/pdf"))), st').
Proof.
  apply (migrateLegacyFile_success MiniJSON.stringify base64_decode "old1" legacy_state
           [legacy_file; file4] 0 legacy_fields "aGVsbG8=" (JStr "application/pdf")
           hello ∅);
    try reflexivity; discriminate.
Defined.

(** A batch whose one admissible file cannot be read. *)
Lemma batch_without_success_witness :
  localStorage (demo_failed MiniJSON.stringify size_text).2 = localStorage demo_state
  /\ uploadedFiles (demo_failed MiniJSON.stringify size_text).2 = uploadedFiles demo_state.
Proof.
  apply (batch_without_success MiniJSON.stringify size_text demo_batch demo_state
           [ReaderError 1] (demo_failed MiniJSON.stringify size_text).1
           (demo_failed MiniJSON.stringify size_text).2);
    vm_compute; reflexivity.
Defined.


(** An upper-case extension after two dots, and the extension
    [constructor]. *)
Lemma getMimeType_by_extension_witness :
  getMimeType "report.final.PDF" = JStr "application/pdf"
  /\ getMimeType "notes.constructor" = JFun "Object".
Proof.
  split.
  - destruct (getMimeType_by_extension "report.final" "PDF" eq_refl) as (Hlast & Hlisted & _).
    rewrite <- (Hlisted "application/pdf" eq_refl). exact Hlast.
  - destruct (getMimeType_by_extension "notes" "constructor" eq_refl)
      as (Hlast & _ & _ & Hinherited & _).
    rewrite <- (Hinherited eq_refl). exact Hlast.
Defined.

(** Deleting the folder A of [tree_state]. *)
Lemma deleteFolder_files_witness :
  exists files',
    uploadedFiles (after_delete MiniJSON.stringify) = JArr files'
    /\ sublist files' [file1; file2; file3; file4]
    /\ Forall (fun f => has_parent (JStr "A") f = Ok false) files'.
Proof.
  apply (deleteFolder_files MiniJSON.stringify 5 (JStr "A") tree_state
           (after_delete MiniJSON.stringify) [file1; file2; file3; file4]);
    [reflexivity|vm_compute; reflexivity].
Defined.

(** The folder A of [tree_state] is moved into its child B, and then
    deleted. *)
Lemma moveItem_into_child_witness :
  folders (after_move MiniJSON.stringify)
  = JArr [folder_rec "A" "projects" (JStr "B"); fB; fC; fD]
  /\ exists w,
       deleteFolder MiniJSON.stringify 1000 true (JStr "A") (after_move MiniJSON.stringify)
       = Stuck w.
Proof.
  destruct (moveItem_into_child MiniJSON.stringify "A" "B" tree_state [fA; fB; fC; fD] 0
              _ eq_refl eq_refl ltac:(discriminate)) as (st' & Hmove & Hfolders & _ & Hdel).
  assert (Hst : st' = after_move MiniJSON.stringify).
  { unfold after_move. rewrite Hmove. reflexivity. }
  rewrite <- Hst. split; [exact Hfolders|].
  apply Hdel.
  - exists 1%nat, fB. split; reflexivity.
  - eexists 0%nat, _. split; reflexivity.
Defined.
